(** * pandapower-web: the session-backed power-flow service

    A shallow embedding of [backend/app/core/powerflow_service.py]
    (together with the constants of [backend/app/config.py] and the
    schemas of [backend/app/schemas/powerflow.py]) and the properties
    of its loader, runner, result extractor, exporter and session
    store; then of the endpoints of [backend/app/api/powerflow.py], the
    example catalogue of [backend/app/core/examples_service.py] and
    the middleware of [backend/app/middleware/logging.py].

    Conventions of the embedding:
    - Python [float] values are modelled by exact rationals ([Q]), so
      every value is finite; the statements below use the operations
      in the order the code applies them and, of the laws of the
      rationals, only those of their order, for [min] and [max].
    - Code that may raise returns a [result]; [try/except] is a match
      on it.
    - The pandapower library (solver and file codecs) is external: it
      appears as Section variables.
    - Files are an explicit store passed in and out.  A file operation
      that the code provides for failing (a write before or inside a
      [try] block, an unlink) takes what the operating system makes of
      it as an argument.
    - The two-worker model of the session store looks inside a file:
      there a file is its bytes, and the pickle codec is a pair of
      Section variables. *)

From Stdlib Require Import Sorted.
From Stdlib Require Import ZArith QArith Qround String Ascii List Bool Lia.
From stdpp Require Import base option list gmap strings.
Import ListNotations.

Open Scope string_scope.
Open Scope Z_scope.

(** ** Python values *)

(** [float]: exact rational stand-in for a binary64 value. *)
Definition float : Type := Q.

Definition f_zero : float := 0%Q.
Definition f_add (a b : float) : float := Qplus a b.
Definition f_sub (a b : float) : float := Qminus a b.
Definition f_mul (a b : float) : float := Qmult a b.
Definition f_of_Z (z : Z) : float := inject_Z z.
(** [a < b] *)
Definition f_ltb (a b : float) : bool := negb (Qle_bool b a).
(** [bool(x)]: a float is falsy exactly when it is zero. *)
Definition f_truthy (x : float) : bool := negb (Qeq_bool x 0%Q).

(** Nearest integer, ties to even. *)
Definition round_half_even (x : float) : Z :=
  let n := Qnum x in
  let d := Zpos (Qden x) in
  let fl := n / d in
  let r2 := 2 * (n mod d) in
  if r2 <? d then fl
  else if d <? r2 then fl + 1
  else if Z.even fl then fl else fl + 1.

(** [round(x, ndigits)] for [ndigits >= 0]. *)
Definition py_round (x : float) (ndigits : Z) : float :=
  let s := 10 ^ ndigits in
  Qred (Qmake (round_half_even (Qmult x (inject_Z s))) (Z.to_pos s)).

(** [max(a, b)] and [min(a, b)] of the builtins: the first argument is
    kept unless the second is strictly better. *)
Definition py_max (a b : float) : float := if f_ltb a b then b else a.
Definition py_min (a b : float) : float := if f_ltb b a then b else a.

(** [Series.sum()], [Series.max()], [Series.min()] of a float column.
    The maximum and minimum of a column without values are not a number
    in pandas; the code only asks for them on non-empty frames. *)
Definition series_sum (vs : list float) : float := fold_left f_add vs f_zero.
Definition series_max (vs : list float) : float :=
  match vs with
  | [] => f_zero
  | v :: vs' => fold_left py_max vs' v
  end.
Definition series_min (vs : list float) : float :=
  match vs with
  | [] => f_zero
  | v :: vs' => fold_left py_min vs' v
  end.

(** ** Exceptions *)

(** The exception classes the service tells apart: [ValueError] (and
    its subclasses), [AttributeError], and any other [Exception].  The
    argument is the text [str(e)]. *)
Inductive exn : Type :=
| ValueError (msg : string)
| AttributeError (msg : string)
| Exception (msg : string).

(** [str(e)] *)
Definition str (e : exn) : string :=
  match e with
  | ValueError msg | AttributeError msg | Exception msg => msg
  end.

(** [isinstance(e, ValueError)] *)
Definition is_ValueError (e : exn) : bool :=
  match e with
  | ValueError _ => true
  | _ => false
  end.

Inductive result (A : Type) : Type :=
| Ok (a : A)
| Raise (e : exn).
Arguments Ok {A} a.
Arguments Raise {A} e.

(** Sequencing: the first exception raised ends the computation.  The
    notation [x ← m; k] is the one of stdpp's monads. *)
#[global] Instance result_bind : MBind result :=
  fun A B (k : A -> result B) (m : result A) =>
    match m with
    | Ok a => k a
    | Raise e => Raise e
    end.

#[global] Instance result_ret : MRet result := fun A a => Ok a.

(** ** Strings and paths *)

Definition ascii_lower (c : ascii) : ascii :=
  let n := nat_of_ascii c in
  if (65 <=? n)%nat && (n <=? 90)%nat then ascii_of_nat (n + 32) else c.

(** [str.lower()] on ASCII text. *)
Definition lower (s : string) : string :=
  string_of_list_ascii (map ascii_lower (list_ascii_of_string s)).

Definition is_space (c : ascii) : bool :=
  let n := nat_of_ascii c in
  (n =? 32)%nat || ((9 <=? n)%nat && (n <=? 13)%nat).

Fixpoint drop_while {A : Type} (p : A -> bool) (l : list A) : list A :=
  match l with
  | [] => []
  | x :: l' => if p x then drop_while p l' else l
  end.

Fixpoint take_while {A : Type} (p : A -> bool) (l : list A) : list A :=
  match l with
  | [] => []
  | x :: l' => if p x then x :: take_while p l' else []
  end.

(** [str.strip()] *)
Definition strip (s : string) : string :=
  let l := drop_while is_space (list_ascii_of_string s) in
  string_of_list_ascii (rev (drop_while is_space (rev l))).

Fixpoint replace_fuel (n : nat) (old new s : string) : string :=
  match n with
  | O => s
  | S n' =>
      match s with
      | EmptyString => EmptyString
      | String c s' =>
          if String.prefix old s
          then new ++ replace_fuel n' old new
                        (substring (String.length old)
                                   (String.length s - String.length old) s)
          else String c (replace_fuel n' old new s')
      end
  end.

(** [s.replace(old, new)] for a non-empty [old]. *)
Definition str_replace (old new s : string) : string :=
  replace_fuel (S (String.length s)) old new s.

Definition is_slash (c : ascii) : bool := Ascii.eqb c "/"%char.
Definition is_dot (c : ascii) : bool := Ascii.eqb c "."%char.

(** [Path(filename).name]: the last component of the path. *)
Definition path_name (filename : string) : list ascii :=
  let r := drop_while is_slash (rev (list_ascii_of_string filename)) in
  rev (take_while (fun c => negb (is_slash c)) r).

(** [Path(filename).suffix]: with [i = name.rfind('.')], the text
    [name[i:]] when [0 < i < len(name) - 1], else the empty string. *)
Definition path_suffix (filename : string) : string :=
  let name := path_name filename in
  let tail_rev := take_while (fun c => negb (is_dot c)) (rev name) in
  let n := length name in
  let t := length tail_rev in
  if (t <? n)%nat && (0 <? n - t - 1)%nat && (0 <? t)%nat
  then string_of_list_ascii ("."%char :: rev tail_rev)
  else "".

(** ** Configuration ([config.py]) *)

(** Supported file formats and their extensions; a Python [dict]
    iterated in insertion order. *)
Definition FILE_FORMATS : list (string * list string) :=
  [ ("json", [".json"]);
    ("excel", [".xlsx"; ".xls"]);
    ("pickle", [".p"; ".pkl"; ".pickle"]);
    ("sqlite", [".sqlite"; ".db"]) ].

Definition SUPPORTED_EXTENSIONS : list string :=
  concat (map snd FILE_FORMATS).

(** Directory of the session files. *)
Definition SESSION_DIR : string := "sessions".

(** ** pandas tables *)

(** A result table of the solver ([net.res_bus], [net.res_gen], ...):
    the row labels and the float64 columns by name, each column listing
    one value per row. *)
Record DataFrame : Type := {
  df_index : list Z;
  df_columns : list (string * list float)
}.

(** [df.empty]: no rows or no columns. *)
Definition df_empty (df : DataFrame) : bool :=
  (length (df_index df) =? 0)%nat || (length (df_columns df) =? 0)%nat.

(** [df[c]] guarded by [c in df.columns]: the values of column [c],
    or [None] when the frame has no such column. *)
Fixpoint lookup_column (c : string) (cols : list (string * list float))
  : option (list float) :=
  match cols with
  | [] => None
  | (c', vs) :: cols' => if String.eqb c c' then Some vs else lookup_column c cols'
  end.

Definition df_column (c : string) (df : DataFrame) : option (list float) :=
  lookup_column c (df_columns df).

(** An element table ([net.bus], [net.gen], ...).  Of its columns the
    service reads two: the device names (a missing name is [None]) and
    the boolean slack marker of generators. *)
Record ElementTable : Type := {
  el_index : list Z;
  el_name : option (list (option string));
  el_slack : option (list bool);
  el_other_columns : nat
}.

Definition el_len (t : ElementTable) : nat := length (el_index t).

Definition el_column_count (t : ElementTable) : nat :=
  (match el_name t with Some _ => 1 | None => 0 end
   + match el_slack t with Some _ => 1 | None => 0 end
   + el_other_columns t)%nat.

Definition el_empty (t : ElementTable) : bool :=
  (length (el_index t) =? 0)%nat || (el_column_count t =? 0)%nat.

(** The network object of pandapower: a dictionary of tables whose keys
    are read as attributes - the element tables and the result tables,
    whose names all start with [res_] -, the convergence flag, and the
    iteration count kept in [net._ppc] ([None] when [_ppc] is missing,
    is [None] or has no ["iterations"] entry). *)
Record pandapowerNet : Type := {
  net_elements : gmap string ElementTable;
  net_results : gmap string DataFrame;
  net_converged : bool;
  net_ppc_iterations : option Z
}.

(** [net.<name>] on a result table; a missing key raises
    [AttributeError(name)]. *)
Definition getattr_result (net : pandapowerNet) (name : string)
  : result DataFrame :=
  match net_results net !! name with
  | Some df => Ok df
  | None => Raise (AttributeError name)
  end.

(** [net.<name>] on an element table. *)
Definition getattr_element (net : pandapowerNet) (name : string)
  : result ElementTable :=
  match net_elements net !! name with
  | Some t => Ok t
  | None => Raise (AttributeError name)
  end.

(** ** Schemas ([schemas/powerflow.py]) *)

(** A cell of an extracted row. *)
Inductive value : Type :=
| VInt (z : Z)
| VFloat (x : float)
| VStr (s : string).

Record TableData : Type := {
  columns : list string;
  data : list (list (string * value));
  row_count : nat
}.

Record CalculationLog : Type := {
  algorithm : string;
  init_method : string;
  tolerance_mva : float;
  max_iteration : Z;
  calculation_time_ms : option float;
  iterations : option Z;
  warnings : list string;
  slack_p_mw : option float;
  slack_q_mvar : option float
}.

(** [PowerFlowResult]; its own [iterations] field is [result_iterations]
    here. *)
Record PowerFlowResult : Type := {
  converged : bool;
  message : string;
  result_iterations : option Z;
  calculation_log : option CalculationLog;
  res_bus : option TableData;
  res_line : option TableData;
  res_trafo : option TableData;
  res_trafo3w : option TableData;
  res_load : option TableData;
  res_gen : option TableData;
  res_sgen : option TableData;
  res_ext_grid : option TableData;
  res_shunt : option TableData;
  max_loading_percent : option float;
  min_vm_pu : option float;
  max_vm_pu : option float
}.

(** [PowerFlowResult(converged=False, message=..., calculation_log=...)]:
    every other field takes its default, [None]. *)
Definition PowerFlowResult_failed (msg : string) (log : CalculationLog)
  : PowerFlowResult :=
  {| converged := false;
     message := msg;
     result_iterations := None;
     calculation_log := Some log;
     res_bus := None; res_line := None; res_trafo := None;
     res_trafo3w := None; res_load := None; res_gen := None;
     res_sgen := None; res_ext_grid := None; res_shunt := None;
     max_loading_percent := None; min_vm_pu := None; max_vm_pu := None |}.

(** The list [result_tables] of [export_results_to_excel]: the nine
    per-table fields under their names. *)
Definition result_tables (r : PowerFlowResult) : list (string * option TableData) :=
  [ ("res_bus", res_bus r);
    ("res_line", res_line r);
    ("res_trafo", res_trafo r);
    ("res_trafo3w", res_trafo3w r);
    ("res_load", res_load r);
    ("res_gen", res_gen r);
    ("res_sgen", res_sgen r);
    ("res_ext_grid", res_ext_grid r);
    ("res_shunt", res_shunt r) ].

(** ** The service object *)

Record PowerFlowService : Type := {
  network : pandapowerNet;
  filename : string;
  file_format : string;
  _results : option PowerFlowResult
}.

(** [PowerFlowService(network, filename, file_format)] *)
Definition PowerFlowService_init (net : pandapowerNet) (fname fmt : string)
  : PowerFlowService :=
  {| network := net; filename := fname; file_format := fmt; _results := None |}.

(** Algorithm-specific default iterations. *)
Definition ALGORITHM_DEFAULT_ITERATIONS : gmap string Z :=
  <["nr" := 10]> (<["iwamoto_nr" := 10]> (<["bfsw" := 100]>
    (<["gs" := 1000]> (<["fdbx" := 30]> (<["fdxb" := 30]> ∅))))).

(** Fallback for unknown algorithms. *)
Definition DEFAULT_ITERATION_FALLBACK : Z := 30.

(** ** Format detection and loading *)

Definition str_in (s : string) (l : list string) : bool :=
  existsb (String.eqb s) l.

Fixpoint first_format (ext : string) (formats : list (string * list string))
  : option string :=
  match formats with
  | [] => None
  | (format_name, extensions) :: formats' =>
      if str_in ext extensions then Some format_name
      else first_format ext formats'
  end.

(** [PowerFlowService.detect_format] *)
Definition detect_format (fname : string) : option string :=
  let ext := lower (path_suffix fname) in
  first_format ext FILE_FORMATS.

(** [", ".join(l)] *)
Definition join (sep : string) (l : list string) : string :=
  String.concat sep l.

(** What a codec of pandapower hands back: a network, or an object of
    another class. *)
Inductive pyobject : Type :=
| PyNet (net : pandapowerNet)
| PyOther.

(** The file store: path to content. *)
Abbreviation files := (gmap string (list Byte.byte)).

(** What becomes of the scratch file of [load_network].
    [NamedTemporaryFile] may be refused, and then no file appears;
    [tmp_file.write] may break off, and then the file, which is created
    with [delete=False], stays with the bytes [written] so far. *)
Inductive scratch_write : Type :=
| ScratchWritten
| ScratchRefused (e : exn)
| ScratchBroken (e : exn) (written : list Byte.byte).

Section Loader.

(** The codecs of pandapower read the file at the given path. *)
Variable from_json from_excel from_pickle from_sqlite :
  files -> string -> result pyobject.

(** The choice of the codec by format at the head of the [try] block. *)
Definition deserialize (fmt : string) (fs : files) (tmp_path : string)
  : result pyobject :=
  if String.eqb fmt "json" then from_json fs tmp_path
  else if String.eqb fmt "excel" then from_excel fs tmp_path
  else if String.eqb fmt "pickle" then from_pickle fs tmp_path
  else if String.eqb fmt "sqlite" then from_sqlite fs tmp_path
  else Raise (ValueError ("Unknown format: " ++ fmt)).

(** The body of the [try] block of [load_network].  The log entry of a
    successful load reads [len(network.line)], hence the access to the
    line table. *)
Definition load_network_try (fs : files) (tmp_path fname fmt : string)
  : result PowerFlowService :=
  obj ← deserialize fmt fs tmp_path;
  match obj with
  | PyOther => Raise (ValueError "File does not contain a valid pandapower network")
  | PyNet net =>
      bus ← getattr_element net "bus";
      if (el_len bus =? 0)%nat
      then Raise (ValueError "Network must contain at least one bus")
      else
        _ ← getattr_element net "line";
        Ok (PowerFlowService_init net fname fmt)
  end.

(** [PowerFlowService.load_network(content, filename)].  [tmp_dir_stem]
    is the directory and random stem [tempfile] picks for the scratch
    file, [io] what becomes of the [with] block that writes it; the
    store is threaded through.  The [with] block stands before the
    [try]: its exception leaves the function as it is, and neither the
    handler nor the [finally] clause runs. *)
Definition load_network (tmp_dir_stem : string) (io : scratch_write)
    (fs : files) (content : list Byte.byte) (fname : string)
  : files * result PowerFlowService :=
  match detect_format fname with
  | None =>
      let supported := join ", " SUPPORTED_EXTENSIONS in
      (fs, Raise (ValueError ("Unsupported file format. Supported formats: "
                              ++ supported)))
  | Some fmt =>
      let ext := lower (path_suffix fname) in
      let tmp_path := tmp_dir_stem ++ ext in
      match io with
      | ScratchRefused e => (fs, Raise e)
      | ScratchBroken e written => (<[tmp_path := written]> fs, Raise e)
      | ScratchWritten =>
          let fs1 := <[tmp_path := content]> fs in
          let outcome :=
            match load_network_try fs1 tmp_path fname fmt with
            | Ok service => Ok service
            | Raise e =>
                if is_ValueError e then Raise e
                else Raise (ValueError ("Failed to load network: " ++ str e))
            end in
          (delete tmp_path fs1, outcome)
      end
  end.

End Loader.

(** ** Result extraction *)

(** [element_table["name"].reindex(idx)] at one label: the name in the
    row of the element table that carries the label, missing when no
    row does. *)
Fixpoint reindex_name (i : Z) (index : list Z) (names : list (option string))
  : option string :=
  match index, names with
  | j :: index', n :: names' =>
      if Z.eqb i j then n else reindex_name i index' names'
  | _, _ => None
  end.

(** [str(x).strip() if pd.notna(x) and str(x).strip() else "-"] *)
Definition device_name (x : option string) : string :=
  match x with
  | Some s => if String.eqb (strip s) "" then "-" else strip s
  | None => "-"
  end.

Definition heads (cols : list (string * list float)) : list (string * value) :=
  flat_map (fun cv => match snd cv with
                      | v :: _ => [(fst cv, VFloat v)]
                      | [] => []
                      end) cols.

Definition tails (cols : list (string * list float)) : list (string * list float) :=
  map (fun cv => (fst cv, tl (snd cv))) cols.

(** [df_reset.to_dict(orient="records")]: one record per row. *)
Fixpoint records (index : list Z) (names : option (list string))
    (cols : list (string * list float)) : list (list (string * value)) :=
  match index with
  | [] => []
  | i :: index' =>
      (("idx", VInt i)
         :: match names with
            | Some (n :: _) => [("name", VStr n)]
            | _ => []
            end ++ heads cols)
        :: records index' (option_map (@tl string) names) (tails cols)
  end.

(** [PowerFlowService._dataframe_to_table_data(df, table_name)], with
    [element_type] left to its default. *)
Definition _dataframe_to_table_data (net : pandapowerNet)
    (df : option DataFrame) (table_name : string) : option TableData :=
  match df with
  | None => None
  | Some df =>
      if df_empty df then None
      else
        let idx := df_index df in
        let element_type := str_replace "res_" "" table_name in
        let device_names :=
          match net_elements net !! element_type with
          | Some element_table =>
              match el_name element_table with
              | Some names =>
                  Some (map (fun i => device_name
                                        (reindex_name i (el_index element_table) names))
                            idx)
              | None => None
              end
          | None => None
          end in
        let rounded :=
          map (fun cv => (fst cv, map (fun v => py_round v 4) (snd cv)))
              (df_columns df) in
        let rows := records idx device_names rounded in
        Some {| columns := "idx" :: match device_names with
                                    | Some _ => ["name"]
                                    | None => []
                                    end ++ map fst rounded;
                data := rows;
                row_count := length rows |}
  end.

(** [max_loading or 0] *)
Definition or_zero (x : option float) : float :=
  match x with
  | Some v => if f_truthy v then v else f_zero
  | None => f_zero
  end.

(** [PowerFlowService._extract_results()] on the network of the
    service. *)
Definition _extract_results (net : pandapowerNet) : result PowerFlowResult :=
  df_bus ← getattr_result net "res_bus";
  let t_bus := _dataframe_to_table_data net (Some df_bus) "res_bus" in
  df_line ← getattr_result net "res_line";
  let t_line := _dataframe_to_table_data net (Some df_line) "res_line" in
  df_trafo ← getattr_result net "res_trafo";
  let t_trafo := _dataframe_to_table_data net (Some df_trafo) "res_trafo" in
  let t_trafo3w :=
    _dataframe_to_table_data net (net_results net !! "res_trafo3w") "res_trafo3w" in
  df_load ← getattr_result net "res_load";
  let t_load := _dataframe_to_table_data net (Some df_load) "res_load" in
  df_gen ← getattr_result net "res_gen";
  let t_gen := _dataframe_to_table_data net (Some df_gen) "res_gen" in
  let t_sgen :=
    _dataframe_to_table_data net (net_results net !! "res_sgen") "res_sgen" in
  df_ext_grid ← getattr_result net "res_ext_grid";
  let t_ext_grid := _dataframe_to_table_data net (Some df_ext_grid) "res_ext_grid" in
  let t_shunt :=
    _dataframe_to_table_data net (net_results net !! "res_shunt") "res_shunt" in
  let max_loading :=
    if negb (df_empty df_line) then
      match df_column "loading_percent" df_line with
      | Some vs => Some (series_max vs)
      | None => None
      end
    else None in
  let max_loading :=
    if negb (df_empty df_trafo) then
      match df_column "loading_percent" df_trafo with
      | Some vs =>
          let trafo_max := series_max vs in
          Some (py_max (or_zero max_loading) trafo_max)
      | None => max_loading
      end
    else max_loading in
  let vm :=
    if negb (df_empty df_bus) then
      match df_column "vm_pu" df_bus with
      | Some vs => (Some (series_min vs), Some (series_max vs))
      | None => (None, None)
      end
    else (None, None) in
  Ok {| converged := true;
        message := "";
        result_iterations := None;
        calculation_log := None;
        res_bus := t_bus;
        res_line := t_line;
        res_trafo := t_trafo;
        res_trafo3w := t_trafo3w;
        res_load := t_load;
        res_gen := t_gen;
        res_sgen := t_sgen;
        res_ext_grid := t_ext_grid;
        res_shunt := t_shunt;
        max_loading_percent := max_loading;
        min_vm_pu := fst vm;
        max_vm_pu := snd vm |}.

(** ** The power-flow run *)

(** [mask.any()] *)
Definition series_any (mask : list bool) : bool := existsb (fun b => b) mask.

(** [table[mask].index]: the labels of the rows the mask selects. *)
Definition masked_index (index : list Z) (mask : list bool) : list Z :=
  map fst (List.filter snd (combine index mask)).

(** [index.isin(labels)] *)
Definition isin (index labels : list Z) : list bool :=
  map (fun i => existsb (Z.eqb i) labels) index.

(** [series.loc[mask]] *)
Definition loc_mask (mask : list bool) (vs : list float) : list float :=
  map snd (List.filter fst (combine mask vs)).

(** The running totals of the slack aggregation: [slack_p_mw],
    [slack_q_mvar] and [has_slack]. *)
Record SlackTotals : Type := {
  total_p_mw : float;
  total_q_mvar : float;
  has_slack : bool
}.

(** Step 1: power of the external grids. *)
Definition add_ext_grid_power (res_ext_grid : DataFrame) (acc : SlackTotals)
  : SlackTotals :=
  if negb (df_empty res_ext_grid) then
    let acc1 :=
      match df_column "p_mw" res_ext_grid with
      | Some vs => {| total_p_mw := f_add (total_p_mw acc) (series_sum vs);
                      total_q_mvar := total_q_mvar acc;
                      has_slack := true |}
      | None => acc
      end in
    match df_column "q_mvar" res_ext_grid with
    | Some vs => {| total_p_mw := total_p_mw acc1;
                    total_q_mvar := f_add (total_q_mvar acc1) (series_sum vs);
                    has_slack := has_slack acc1 |}
    | None => acc1
    end
  else acc.

(** Step 2: power of the generators whose [slack] column is [True]. *)
Definition add_slack_gen_power (net : pandapowerNet) (acc : SlackTotals)
  : result SlackTotals :=
  gen ← getattr_element net "gen";
  if negb (el_empty gen) then
    match el_slack gen with
    | Some slack_gen_mask =>
        if series_any slack_gen_mask then
          res_gen ← getattr_result net "res_gen";
          if negb (df_empty res_gen) then
            let slack_gen_indices := masked_index (el_index gen) slack_gen_mask in
            let rows := isin (df_index res_gen) slack_gen_indices in
            let acc1 :=
              match df_column "p_mw" res_gen with
              | Some vs =>
                  {| total_p_mw := f_add (total_p_mw acc)
                                         (series_sum (loc_mask rows vs));
                     total_q_mvar := total_q_mvar acc;
                     has_slack := true |}
              | None => acc
              end in
            Ok match df_column "q_mvar" res_gen with
               | Some vs =>
                   {| total_p_mw := total_p_mw acc1;
                      total_q_mvar := f_add (total_q_mvar acc1)
                                            (series_sum (loc_mask rows vs));
                      has_slack := has_slack acc1 |}
               | None => acc1
               end
          else Ok acc
        else Ok acc
    | None => Ok acc
    end
  else Ok acc.

(** The slack aggregation of [run_powerflow]. *)
Definition slack_totals (net : pandapowerNet) (is_converged : bool)
  : result SlackTotals :=
  let acc := {| total_p_mw := f_zero; total_q_mvar := f_zero;
                has_slack := false |} in
  if is_converged then
    res_ext_grid ← getattr_result net "res_ext_grid";
    add_slack_gen_power net (add_ext_grid_power res_ext_grid acc)
  else Ok acc.

(** What [pp.runpp] does with the network it is given: it returns, having
    updated the network and emitted warnings (their messages, in order),
    or it raises, leaving the network in some state. *)
Inductive SolverOutcome : Type :=
| Returned (net' : pandapowerNet) (emitted : list string)
| Raised (net' : pandapowerNet) (e : exn).

Definition outcome_network (o : SolverOutcome) : pandapowerNet :=
  match o with
  | Returned net' _ | Raised net' _ => net'
  end.

(** The resolved iteration cap of [run_powerflow]. *)
Definition resolved_max_iteration (algorithm : string)
    (max_iteration : option Z) : Z :=
  match max_iteration with
  | None => default DEFAULT_ITERATION_FALLBACK
                    (ALGORITHM_DEFAULT_ITERATIONS !! algorithm)
  | Some m => m
  end.

(** [(time.perf_counter() - start_time) * 1000] *)
Definition elapsed_ms (start_time now : float) : float :=
  f_mul (f_sub now start_time) (f_of_Z 1000).

Section Runner.

(** [pp.runpp(net, algorithm, max_iteration, enforce_q_lims,
    calculate_voltage_angles, init, tolerance_mva, numba=True)] *)
Variable runpp :
  pandapowerNet -> string -> Z -> bool -> bool -> string -> float -> SolverOutcome.

(** The body of the [try] block of [run_powerflow] once the solver has
    answered; [perf_counter 1] is the clock read after the solver. *)
Definition run_powerflow_try (outcome : SolverOutcome)
    (algorithm : string) (resolved : Z) (init : string) (tolerance : float)
    (perf_counter : nat -> float) : result PowerFlowResult :=
  match outcome with
  | Raised _ e => Raise e
  | Returned net captured_warnings =>
      let calc_time_ms := elapsed_ms (perf_counter 0%nat) (perf_counter 1%nat) in
      let is_converged := net_converged net in
      let actual_iterations := net_ppc_iterations net in
      totals ← slack_totals net is_converged;
      let slack_p := if has_slack totals
                     then Some (py_round (total_p_mw totals) 4) else None in
      let slack_q := if has_slack totals
                     then Some (py_round (total_q_mvar totals) 4) else None in
      let calc_log :=
        {| algorithm := algorithm;
           init_method := init;
           tolerance_mva := tolerance;
           max_iteration := resolved;
           calculation_time_ms := Some (py_round calc_time_ms 2);
           iterations := actual_iterations;
           warnings := captured_warnings;
           slack_p_mw := slack_p;
           slack_q_mvar := slack_q |} in
      if is_converged then
        r ← _extract_results net;
        Ok {| converged := converged r;
              message := "Power flow converged successfully";
              result_iterations := result_iterations r;
              calculation_log := Some calc_log;
              res_bus := res_bus r;
              res_line := res_line r;
              res_trafo := res_trafo r;
              res_trafo3w := res_trafo3w r;
              res_load := res_load r;
              res_gen := res_gen r;
              res_sgen := res_sgen r;
              res_ext_grid := res_ext_grid r;
              res_shunt := res_shunt r;
              max_loading_percent := max_loading_percent r;
              min_vm_pu := min_vm_pu r;
              max_vm_pu := max_vm_pu r |}
      else
        Ok (PowerFlowResult_failed "Power flow did not converge"
              {| algorithm := algorithm;
                 init_method := init;
                 tolerance_mva := tolerance;
                 max_iteration := resolved;
                 calculation_time_ms := Some (py_round calc_time_ms 2);
                 iterations := actual_iterations;
                 warnings := captured_warnings ++ ["Power flow did not converge"];
                 slack_p_mw := slack_p;
                 slack_q_mvar := slack_q |})
  end.

(** The [except Exception as e] handler of [run_powerflow]; [now] is
    the clock read in the handler. *)
Definition run_powerflow_except (e : exn) (algorithm : string) (resolved : Z)
    (init : string) (tolerance : float) (start_time now : float)
  : PowerFlowResult :=
  PowerFlowResult_failed ("Power flow calculation failed: " ++ str e)
    {| algorithm := algorithm;
       init_method := init;
       tolerance_mva := tolerance;
       max_iteration := resolved;
       calculation_time_ms := Some (py_round (elapsed_ms start_time now) 2);
       iterations := None;
       warnings := [str e];
       slack_p_mw := None;
       slack_q_mvar := None |}.

(** [PowerFlowService.run_powerflow].  The call returns the result and
    leaves the service with the network as the solver left it and the
    result cached.  [perf_counter k] is the k-th reading of the clock
    in the call: at the start, after the solver (or in the handler when
    the solver raised), and in the handler after a later exception. *)
Definition run_powerflow (self : PowerFlowService) (algorithm : string)
    (max_iteration : option Z) (enforce_q_lims calculate_voltage_angles : bool)
    (init : string) (tolerance : float) (perf_counter : nat -> float)
  : PowerFlowService * PowerFlowResult :=
  let resolved := resolved_max_iteration algorithm max_iteration in
  let start_time := perf_counter 0%nat in
  let outcome := runpp (network self) algorithm resolved enforce_q_lims
                       calculate_voltage_angles init tolerance in
  let results :=
    match run_powerflow_try outcome algorithm resolved init tolerance perf_counter with
    | Ok r => r
    | Raise e =>
        let now := match outcome with
                   | Raised _ _ => perf_counter 1%nat
                   | Returned _ _ => perf_counter 2%nat
                   end in
        run_powerflow_except e algorithm resolved init tolerance start_time now
    end in
  ({| network := outcome_network outcome;
      filename := filename self;
      file_format := file_format self;
      _results := Some results |},
   results).

End Runner.

(** ** Export *)

(** A sheet of the workbook: its name, its header and its rows. *)
Record Sheet : Type := {
  sheet_name : string;
  sheet_header : list string;
  sheet_rows : list (list value)
}.

(** [pd.DataFrame(table_data.data)]: the header is the key order of the
    records, a row lists the values of one record. *)
Definition table_sheet (name : string) (t : TableData) : Sheet :=
  {| sheet_name := name;
     sheet_header := match data t with
                     | r :: _ => map fst r
                     | [] => []
                     end;
     sheet_rows := map (map snd) (data t) |}.

(** [x or "N/A"] on an optional float. *)
Definition or_NA (x : option float) : value :=
  match x with
  | Some v => if f_truthy v then VFloat v else VStr "N/A"
  | None => VStr "N/A"
  end.

Definition summary_sheet (r : PowerFlowResult) : Sheet :=
  {| sheet_name := "Summary";
     sheet_header := ["Metric"; "Value"];
     sheet_rows :=
       [ [VStr "Converged"; VStr (if converged r then "Yes" else "No")];
         [VStr "Max Loading (%)"; or_NA (max_loading_percent r)];
         [VStr "Min Voltage (p.u.)"; or_NA (min_vm_pu r)];
         [VStr "Max Voltage (p.u.)"; or_NA (max_vm_pu r)] ] |}.

(** The loop over [result_tables]: a sheet for every table that is
    present with [row_count > 0]. *)
Fixpoint table_sheets (tables : list (string * option TableData)) : list Sheet :=
  match tables with
  | [] => []
  | (name, table_data) :: tables' =>
      match table_data with
      | Some t =>
          if (0 <? row_count t)%nat
          then table_sheet name t :: table_sheets tables'
          else table_sheets tables'
      | None => table_sheets tables'
      end
  end.

(** [PowerFlowService.export_results_to_excel]: the workbook as the
    list of its sheets in the order they are written. *)
Definition export_results_to_excel (self : PowerFlowService) : result (list Sheet) :=
  match _results self with
  | None => Raise (ValueError "No converged results available to export")
  | Some r =>
      if negb (converged r)
      then Raise (ValueError "No converged results available to export")
      else Ok (table_sheets (result_tables r) ++ [summary_sheet r])%list
  end.

(** ** Session store *)

(** The pickled dictionary of a session. *)
Record session_data : Type := {
  sd_network : pandapowerNet;
  sd_filename : string;
  sd_file_format : string;
  sd_results : option PowerFlowResult
}.

Definition session_data_of (service : PowerFlowService) : session_data :=
  {| sd_network := network service;
     sd_filename := filename service;
     sd_file_format := file_format service;
     sd_results := _results service |}.

(** A session file: a complete pickle, or a file opened for writing
    whose pickle is not complete yet (empty or a prefix). *)
Inductive session_file : Type :=
| Pickled (d : session_data)
| Partial.

Abbreviation session_files := (gmap string session_file).

(** [_get_session_path], for an identifier that names a file of its
    own in the session directory (no slash in it, see
    [names_session_file] below): pathlib then appends the file name to
    the directory. *)
Definition _get_session_path (session_id : string) : string :=
  SESSION_DIR ++ "/" ++ session_id ++ ".pkl".

(** [path.exists()], for a path whose file name the file system
    accepts. *)
Definition path_exists (path : string) (fs : session_files) : bool :=
  match fs !! path with
  | Some _ => true
  | None => false
  end.

(** [open(path, "wb")]: the file is created, or cut to length zero. *)
Definition open_wb (path : string) (fs : session_files) : session_files :=
  <[path := Partial]> fs.

(** [pickle.dump(session_data, f)] and the end of the [with] block. *)
Definition pickle_dump (d : session_data) (path : string) (fs : session_files)
  : session_files :=
  <[path := Pickled d]> fs.

(** [open(path, "rb")] and [pickle.load(f)] *)
Definition pickle_load (path : string) (fs : session_files) : result session_data :=
  match fs !! path with
  | Some (Pickled d) => Ok d
  | Some Partial => Raise (Exception "Ran out of input")
  | None => Raise (Exception "No such file or directory")
  end.

(** [create_session]; [uuid4] is the identifier drawn by [uuid.uuid4()]. *)
Definition create_session (uuid4 : string) (fs : session_files)
    (service : PowerFlowService) : session_files * string :=
  let session_id := uuid4 in
  let session_path := _get_session_path session_id in
  let d := session_data_of service in
  (pickle_dump d session_path (open_wb session_path fs), session_id).

(** [get_session] *)
Definition get_session (fs : session_files) (session_id : string)
  : option PowerFlowService :=
  let session_path := _get_session_path session_id in
  if negb (path_exists session_path fs) then None
  else
    match pickle_load session_path fs with
    | Ok d =>
        Some {| network := sd_network d;
                filename := sd_filename d;
                file_format := sd_file_format d;
                _results := sd_results d |}
    | Raise _ => None
    end.

(** What becomes of the write in the [try] block of [update_session]:
    [open(path, "wb")] may be refused, which leaves the file as it was;
    once the file is cut, [pickle.dump] may break off, which leaves it
    incomplete. *)
Inductive session_write : Type :=
| SessionWritten
| OpenRefused
| DumpBroken.

(** What becomes of [session_path.unlink()]. *)
Inductive session_unlink : Type :=
| Unlinked
| UnlinkRefused.

(** [update_session]; the handler of the [try] block answers [False]
    to any exception of the write. *)
Definition update_session (io : session_write) (fs : session_files)
    (session_id : string) (service : PowerFlowService)
  : session_files * bool :=
  let session_path := _get_session_path session_id in
  if negb (path_exists session_path fs) then (fs, false)
  else
    let d := session_data_of service in
    match io with
    | SessionWritten =>
        (pickle_dump d session_path (open_wb session_path fs), true)
    | OpenRefused => (fs, false)
    | DumpBroken => (open_wb session_path fs, false)
    end.

(** [delete_session]; the handler answers [False] to any exception of
    the unlink. *)
Definition delete_session (io : session_unlink) (fs : session_files)
    (session_id : string) : session_files * bool :=
  let session_path := _get_session_path session_id in
  if path_exists session_path fs then
    match io with
    | Unlinked => (delete session_path fs, true)
    | UnlinkRefused => (fs, false)
    end
  else (fs, false).

(** *** Two workers on one session

    [update_session] and [get_session] at work on the same path, each
    advancing one operation on the file at a time.  Here the file is
    the bytes it holds, and a read or a write moves one byte: a call
    that moves several bytes is a run of steps of one worker. *)

(** What [pickle.load] makes of the bytes it has read so far: it asks
    for more, it has its object, or it raises. *)
Inductive unpickling : Type :=
| NeedsMore
| Loaded (d : session_data)
| Corrupt.

(** The service [get_session] builds from the loaded dictionary. *)
Definition service_of_data (d : session_data) : PowerFlowService :=
  {| network := sd_network d;
     filename := sd_filename d;
     file_format := sd_file_format d;
     _results := sd_results d |}.

(** [f.write] of one byte at the offset of the writer; a file that
    ends before the offset is filled up with zero bytes. *)
Definition write_at (offset : nat) (b : Byte.byte) (content : list Byte.byte)
  : list Byte.byte :=
  (take offset (content ++ replicate (offset - length content) Byte.x00)
   ++ b :: drop (S offset) content)%list.

Inductive writer_pc : Type :=
| W_exists
| W_open
| W_write (offset : nat)
| W_return (ok : bool).

Inductive reader_pc : Type :=
| R_exists
| R_open
| R_read (buffer : list Byte.byte)
| R_return (r : option PowerFlowService).

Inductive worker : Type :=
| Writer
| WriterFails
| Reader.

Record workers : Type := {
  w_pc : writer_pc;
  r_pc : reader_pc;
  w_files : files
}.

Section Pickle.

(** The pickle module as the store uses it: the bytes [pickle.dump]
    writes for a session dictionary, and the state of [pickle.load]
    after the bytes read so far. *)
Variable dumps : session_data -> list Byte.byte.
Variable unpickle : list Byte.byte -> unpickling.

(** One operation of [update_session] on the file: the existence test,
    [open(path, "wb")], which cuts the file, the writes of
    [pickle.dump], byte after byte, and the end of the [with] block.
    [create_session] starts at [W_open]. *)
Definition writer_step (session_id : string) (service : PowerFlowService)
    (pc : writer_pc) (fs : files) : writer_pc * files :=
  let session_path := _get_session_path session_id in
  match pc with
  | W_exists =>
      match fs !! session_path with
      | None => (W_return false, fs)
      | Some _ => (W_open, fs)
      end
  | W_open => (W_write 0, <[session_path := []]> fs)
  | W_write offset =>
      match dumps (session_data_of service) !! offset with
      | Some b => (W_write (S offset), alter (write_at offset b) session_path fs)
      | None => (W_return true, fs)
      end
  | W_return ok => (W_return ok, fs)
  end.

(** An exception in the [try] block of [update_session]: the open is
    refused or the dump breaks off, the handler returns [False], and
    the file stays as it is at that moment. *)
Definition writer_fails (pc : writer_pc) : writer_pc :=
  match pc with
  | W_open | W_write _ => W_return false
  | W_exists | W_return _ => pc
  end.

(** One operation of [get_session] on the file: the existence test,
    [open(path, "rb")], and the reads of [pickle.load], byte after
    byte at the offset reached, until the unpickler has its object or
    raises; the end of the file raises too.  Every exception ends in
    the handler, which returns [None]. *)
Definition reader_step (session_id : string) (pc : reader_pc) (fs : files)
  : reader_pc :=
  let session_path := _get_session_path session_id in
  match pc with
  | R_exists =>
      match fs !! session_path with
      | None => R_return None
      | Some _ => R_open
      end
  | R_open =>
      match fs !! session_path with
      | None => R_return None
      | Some _ => R_read []
      end
  | R_read buffer =>
      match unpickle buffer with
      | Loaded d => R_return (Some (service_of_data d))
      | Corrupt => R_return None
      | NeedsMore =>
          match fs !! session_path ≫= (fun content => content !! length buffer) with
          | Some b => R_read (buffer ++ [b])
          | None => R_return None
          end
      end
  | R_return r => R_return r
  end.

Definition step (session_id : string) (service : PowerFlowService)
    (who : worker) (c : workers) : workers :=
  match who with
  | Writer =>
      let (pc', fs') := writer_step session_id service (w_pc c) (w_files c) in
      {| w_pc := pc'; r_pc := r_pc c; w_files := fs' |}
  | WriterFails =>
      {| w_pc := writer_fails (w_pc c); r_pc := r_pc c; w_files := w_files c |}
  | Reader =>
      {| w_pc := w_pc c;
         r_pc := reader_step session_id (r_pc c) (w_files c);
         w_files := w_files c |}
  end.

(** The workers after a schedule. *)
Fixpoint run_schedule (session_id : string) (service : PowerFlowService)
    (schedule : list worker) (c : workers) : workers :=
  match schedule with
  | [] => c
  | who :: schedule' =>
      run_schedule session_id service schedule' (step session_id service who c)
  end.

End Pickle.

(** ** The remaining methods of the service object *)

Record NetworkSummary : Type := {
  n_bus : nat;
  n_line : nat;
  n_trafo : nat;
  n_trafo3w : nat;
  n_load : nat;
  n_gen : nat;
  n_sgen : nat;
  n_ext_grid : nat;
  n_shunt : nat;
  n_switch : nat
}.

(** [len(net.<name>) if "<name>" in net else 0] *)
Definition len_if_present (net : pandapowerNet) (name : string) : nat :=
  match net_elements net !! name with
  | Some t => el_len t
  | None => 0%nat
  end.

(** [PowerFlowService.get_network_summary] *)
Definition get_network_summary (self : PowerFlowService) : result NetworkSummary :=
  let net := network self in
  bus ← getattr_element net "bus";
  line ← getattr_element net "line";
  trafo ← getattr_element net "trafo";
  load ← getattr_element net "load";
  gen ← getattr_element net "gen";
  ext_grid ← getattr_element net "ext_grid";
  Ok {| n_bus := el_len bus;
        n_line := el_len line;
        n_trafo := el_len trafo;
        n_trafo3w := len_if_present net "trafo3w";
        n_load := el_len load;
        n_gen := el_len gen;
        n_sgen := len_if_present net "sgen";
        n_ext_grid := el_len ext_grid;
        n_shunt := len_if_present net "shunt";
        n_switch := len_if_present net "switch" |}.

(** [PowerFlowService.get_results] *)
Definition get_results (self : PowerFlowService) : option PowerFlowResult :=
  _results self.

(** ** Counting the sessions *)

(** [l] without the leading [p], when [l] starts with [p]. *)
Fixpoint strip_prefix (p l : list ascii) : option (list ascii) :=
  match p, l with
  | [], _ => Some l
  | c :: p', d :: l' => if Ascii.eqb c d then strip_prefix p' l' else None
  | _ :: _, [] => None
  end.

(** [SESSION_DIR.glob("*.pkl")] on one path: the file lies directly in
    the session directory and its name ends in [.pkl]. *)
Definition matches_session_glob (path : string) : bool :=
  match strip_prefix (list_ascii_of_string (SESSION_DIR ++ "/"))
                     (list_ascii_of_string path) with
  | Some name =>
      negb (existsb is_slash name)
      && match strip_prefix (rev (list_ascii_of_string ".pkl")) (rev name) with
         | Some _ => true
         | None => false
         end
  | None => false
  end.

(** [get_session_count] *)
Definition get_session_count (fs : session_files) : nat :=
  size (filter (fun kv => matches_session_glob (fst kv) = true) fs).

(** ** The HTTP endpoints ([api/powerflow.py]) *)

(** What a handler hands to the framework: a response body, or an
    [HTTPException] with its status code and detail. *)
Inductive http (A : Type) : Type :=
| Http200 (body : A)
| HTTPException (status_code : Z) (detail : string).
Arguments Http200 {A} body.
Arguments HTTPException {A} status_code detail.



(** The validated request body of a run. *)
Record PowerFlowRequest : Type := {
  req_algorithm : string;
  req_max_iteration : option Z;
  req_enforce_q_lims : bool;
  req_calculate_voltage_angles : bool;
  req_init : string;
  req_tolerance_mva : float
}.

(** The bounds the schema puts on [max_iteration]: [ge=1, le=10000]. *)
Definition request_valid (request : PowerFlowRequest) : Prop :=
  match req_max_iteration request with
  | Some m => 1 <= m <= 10000
  | None => True
  end.

(** The spreadsheet response of a download. *)
Record StreamingResponse : Type := {
  body_sheets : list Sheet;
  content_disposition : string
}.

Module api.

Section Endpoints.

Variable from_json from_excel from_pickle from_sqlite :
  files -> string -> result pyobject.

Variable runpp :
  pandapowerNet -> string -> Z -> bool -> bool -> string -> float -> SolverOutcome.



(** [run_powerflow] of the router; what [update_session] returns is
    not looked at. *)
Definition run_powerflow (io : session_write) (store : session_files)
    (session_id : string) (request : PowerFlowRequest)
    (perf_counter : nat -> float)
  : session_files * http PowerFlowResult :=
  match get_session store session_id with
  | None => (store, HTTPException 404 "Session not found")
  | Some service =>
      let ran := run_powerflow runpp service (req_algorithm request)
                   (req_max_iteration request) (req_enforce_q_lims request)
                   (req_calculate_voltage_angles request) (req_init request)
                   (req_tolerance_mva request) perf_counter in
      (fst (update_session io store session_id (fst ran)), Http200 (snd ran))
  end.

(** [get_results] of the router. *)
Definition get_results (store : session_files) (session_id : string)
  : http PowerFlowResult :=
  match get_session store session_id with
  | None => HTTPException 404 "Session not found"
  | Some service =>
      match get_results service with
      | None => HTTPException 404 "No results available. Run power flow first."
      | Some results => Http200 results
      end
  end.

(** [download_results] *)
Definition download_results (store : session_files) (session_id : string)
  : http StreamingResponse :=
  match get_session store session_id with
  | None => HTTPException 404 "Session not found"
  | Some service =>
      match export_results_to_excel service with
      | Ok excel =>
          Http200 {| body_sheets := excel;
                     content_disposition :=
                       "attachment; filename=powerflow_results_"
                       ++ substring 0 8 session_id ++ ".xlsx" |}
      | Raise e => HTTPException 404 (str e)
      end
  end.

(** [delete_session_endpoint] *)
Definition delete_session_endpoint (io : session_unlink)
    (store : session_files) (session_id : string)
  : session_files * http string :=
  let deleted := delete_session io store session_id in
  if snd deleted then (fst deleted, Http200 "Session deleted successfully")
  else (fst deleted, HTTPException 404 "Session not found").

End Endpoints.

(** The format table of [get_supported_formats]. *)
Definition get_supported_formats : list (string * list string) * list string :=
  ([ ("json", [".json"]);
     ("excel", [".xlsx"; ".xls"]);
     ("pickle", [".p"; ".pkl"; ".pickle"]);
     ("sqlite", [".sqlite"; ".db"]) ],
   SUPPORTED_EXTENSIONS).

End api.

(** ** The example networks ([core/examples_service.py]) *)

(** An entry of the catalogue; [loader] names the function of
    [pandapower.networks] that builds the network. *)
Record ExampleNetwork : Type := {
  loader : string;
  display_name : string;
  description_zh : string;
  description_en : string;
  bus_count : Z
}.

Record NetworkCategory : Type := {
  name_zh : string;
  name_en : string;
  networks : list (string * ExampleNetwork)
}.

Definition NETWORK_CATEGORIES : list (string * NetworkCategory) := [
  ("test_cases",
   {| name_zh := "电力系统测试用例";
      name_en := "Power System Test Cases";
      networks := [
      ("case4gs",
       {| loader := "case4gs";
          display_name := "Case 4 GS";
          description_zh := "4节点测试系统（Grainger & Stevenson）";
          description_en := "4-bus test case (Grainger & Stevenson)";
          bus_count := 4 |});
      ("case5",
       {| loader := "case5";
          display_name := "Case 5";
          description_zh := "5节点PJM测试系统";
          description_en := "5-bus PJM test case";
          bus_count := 5 |});
      ("case6ww",
       {| loader := "case6ww";
          display_name := "Case 6 WW";
          description_zh := "6节点测试系统（Wood & Wollenberg）";
          description_en := "6-bus test case (Wood & Wollenberg)";
          bus_count := 6 |});
      ("case9",
       {| loader := "case9";
          display_name := "Case 9";
          description_zh := "9节点WSCC测试系统";
          description_en := "9-bus WSCC test case";
          bus_count := 9 |});
      ("case11_iwamoto",
       {| loader := "case11_iwamoto";
          display_name := "Case 11 Iwamoto";
          description_zh := "11节点Iwamoto测试系统";
          description_en := "11-bus Iwamoto test case";
          bus_count := 11 |});
      ("case14",
       {| loader := "case14";
          display_name := "Case 14";
          description_zh := "IEEE 14节点标准测试系统";
          description_en := "IEEE 14-bus standard test case";
          bus_count := 14 |});
      ("case24_ieee_rts",
       {| loader := "case24_ieee_rts";
          display_name := "Case 24 IEEE RTS";
          description_zh := "IEEE 24节点可靠性测试系统";
          description_en := "IEEE 24-bus Reliability Test System";
          bus_count := 24 |});
      ("GBreducednetwork",
       {| loader := "GBreducednetwork";
          display_name := "GB Reduced";
          description_zh := "英国电网简化模型";
          description_en := "Great Britain reduced transmission network";
          bus_count := 29 |});
      ("case30",
       {| loader := "case30";
          display_name := "Case 30";
          description_zh := "IEEE 30节点标准测试系统";
          description_en := "IEEE 30-bus standard test case";
          bus_count := 30 |});
      ("case_ieee30",
       {| loader := "case_ieee30";
          display_name := "Case IEEE 30";
          description_zh := "IEEE 30节点系统（含元件参数）";
          description_en := "IEEE 30-bus system (with component parameters)";
          bus_count := 30 |});
      ("case33bw",
       {| loader := "case33bw";
          display_name := "Case 33 BW";
          description_zh := "33节点配电网测试系统（Baran & Wu）";
          description_en := "33-bus distribution test case (Baran & Wu)";
          bus_count := 33 |});
      ("case39",
       {| loader := "case39";
          display_name := "Case 39";
          description_zh := "39节点新英格兰测试系统";
          description_en := "39-bus New England test case";
          bus_count := 39 |});
      ("case57",
       {| loader := "case57";
          display_name := "Case 57";
          description_zh := "IEEE 57节点标准测试系统";
          description_en := "IEEE 57-bus standard test case";
          bus_count := 57 |});
      ("case89pegase",
       {| loader := "case89pegase";
          display_name := "Case 89 PEGASE";
          description_zh := "89节点PEGASE欧洲电网测试系统";
          description_en := "89-bus PEGASE European grid test case";
          bus_count := 89 |});
      ("case118",
       {| loader := "case118";
          display_name := "Case 118";
          description_zh := "IEEE 118节点标准测试系统";
          description_en := "IEEE 118-bus standard test case";
          bus_count := 118 |});
      ("case145",
       {| loader := "case145";
          display_name := "Case 145";
          description_zh := "145节点动态测试系统";
          description_en := "145-bus dynamic test case";
          bus_count := 145 |});
      ("iceland",
       {| loader := "iceland";
          display_name := "Iceland";
          description_zh := "冰岛电力传输网络";
          description_en := "Iceland electricity transmission network";
          bus_count := 189 |});
      ("case_illinois200",
       {| loader := "case_illinois200";
          display_name := "Case Illinois 200";
          description_zh := "200节点伊利诺伊合成电网";
          description_en := "200-bus Illinois synthetic network";
          bus_count := 200 |});
      ("case300",
       {| loader := "case300";
          display_name := "Case 300";
          description_zh := "300节点大型输电系统";
          description_en := "300-bus large transmission system";
          bus_count := 300 |});
      ("case1354pegase",
       {| loader := "case1354pegase";
          display_name := "Case 1354 PEGASE";
          description_zh := "1354节点PEGASE欧洲高压输电网";
          description_en := "1354-bus PEGASE European HV transmission network";
          bus_count := 1354 |});
      ("case1888rte",
       {| loader := "case1888rte";
          display_name := "Case 1888 RTE";
          description_zh := "1888节点法国超高压/高压输电网";
          description_en := "1888-bus French VHV/HV transmission network";
          bus_count := 1888 |});
      ("GBnetwork",
       {| loader := "GBnetwork";
          display_name := "GB Network";
          description_zh := "英国电力传输网络";
          description_en := "Great Britain electricity transmission network";
          bus_count := 2224 |});
      ("case2848rte",
       {| loader := "case2848rte";
          display_name := "Case 2848 RTE";
          description_zh := "2848节点法国超高压/高压输电网";
          description_en := "2848-bus French VHV/HV transmission network";
          bus_count := 2848 |});
      ("case2869pegase",
       {| loader := "case2869pegase";
          display_name := "Case 2869 PEGASE";
          description_zh := "2869节点PEGASE欧洲高压输电网";
          description_en := "2869-bus PEGASE European HV transmission network";
          bus_count := 2869 |});
      ("case3120sp",
       {| loader := "case3120sp";
          display_name := "Case 3120 SP";
          description_zh := "3120节点波兰400/220/110kV电网";
          description_en := "3120-bus Polish 400/220/110 kV network";
          bus_count := 3120 |});
      ("case6470rte",
       {| loader := "case6470rte";
          display_name := "Case 6470 RTE";
          description_zh := "6470节点法国输电网络";
          description_en := "6470-bus French transmission network";
          bus_count := 6470 |});
      ("case6495rte",
       {| loader := "case6495rte";
          display_name := "Case 6495 RTE";
          description_zh := "6495节点法国输电网络";
          description_en := "6495-bus French transmission network";
          bus_count := 6495 |});
      ("case6515rte",
       {| loader := "case6515rte";
          display_name := "Case 6515 RTE";
          description_zh := "6515节点法国输电网络";
          description_en := "6515-bus French transmission network";
          bus_count := 6515 |});
      ("case9241pegase",
       {| loader := "case9241pegase";
          display_name := "Case 9241 PEGASE";
          description_zh := "9241节点PEGASE大型欧洲高压输电网";
          description_en := "9241-bus PEGASE large European HV transmission network";
          bus_count := 9241 |}) ] |});
  ("example",
   {| name_zh := "示例网络";
      name_en := "Example Networks";
      networks := [
      ("example_simple",
       {| loader := "example_simple";
          display_name := "Simple Example";
          description_zh := "pandapower 教程简单示例网络";
          description_en := "Simple example network from pandapower tutorials";
          bus_count := 7 |});
      ("example_multivoltage",
       {| loader := "example_multivoltage";
          display_name := "Multi-Voltage Example";
          description_zh := "pandapower 教程多电压等级示例网络";
          description_en := "Multi-voltage level example from pandapower tutorials";
          bus_count := 57 |}) ] |});
  ("simple_test",
   {| name_zh := "简单测试网络";
      name_en := "Simple Test Networks";
      networks := [
      ("simple_four_bus_system",
       {| loader := "simple_four_bus_system";
          display_name := "Simple Four Bus";
          description_zh := "简单四节点系统";
          description_en := "Simple four bus system";
          bus_count := 4 |});
      ("panda_four_load_branch",
       {| loader := "panda_four_load_branch";
          display_name := "Four Load Branch";
          description_zh := "四负荷支路测试网络";
          description_en := "Four load branch test network";
          bus_count := 6 |});
      ("simple_mv_open_ring_net",
       {| loader := "simple_mv_open_ring_net";
          display_name := "MV Open Ring";
          description_zh := "中压开环网络";
          description_en := "Medium voltage open ring network";
          bus_count := 7 |});
      ("four_loads_with_branches_out",
       {| loader := "four_loads_with_branches_out";
          display_name := "Four Loads with Branches";
          description_zh := "四负荷带分支测试网络";
          description_en := "Four loads with branches out test network";
          bus_count := 10 |}) ] |});
  ("cigre",
   {| name_zh := "CIGRE 网络";
      name_en := "CIGRE Networks";
      networks := [
      ("create_cigre_network_hv",
       {| loader := "create_cigre_network_hv";
          display_name := "CIGRE HV";
          description_zh := "CIGRE 高压输电网络";
          description_en := "CIGRE high voltage transmission network";
          bus_count := 13 |});
      ("create_cigre_network_mv",
       {| loader := "create_cigre_network_mv";
          display_name := "CIGRE MV";
          description_zh := "CIGRE 中压配电网络";
          description_en := "CIGRE medium voltage distribution network";
          bus_count := 15 |});
      ("create_cigre_network_lv",
       {| loader := "create_cigre_network_lv";
          display_name := "CIGRE LV";
          description_zh := "CIGRE 低压配电网络";
          description_en := "CIGRE low voltage distribution network";
          bus_count := 44 |}) ] |});
  ("mv_oberrhein",
   {| name_zh := "MV Oberrhein 网络";
      name_en := "MV Oberrhein";
      networks := [
      ("mv_oberrhein",
       {| loader := "mv_oberrhein";
          display_name := "MV Oberrhein";
          description_zh := "上莱茵地区20kV中压配电网络";
          description_en := "Oberrhein generic 20 kV distribution network";
          bus_count := 179 |}) ] |});
  ("kerber",
   {| name_zh := "Kerber 网络";
      name_en := "Kerber Networks";
      networks := [
      ("create_kerber_landnetz_freileitung_2",
       {| loader := "create_kerber_landnetz_freileitung_2";
          display_name := "Landnetz Freileitung 2";
          description_zh := "Kerber 农村架空线网络 2";
          description_en := "Kerber rural overhead line network 2";
          bus_count := 10 |});
      ("create_kerber_landnetz_freileitung_1",
       {| loader := "create_kerber_landnetz_freileitung_1";
          display_name := "Landnetz Freileitung 1";
          description_zh := "Kerber 农村架空线网络 1";
          description_en := "Kerber rural overhead line network 1";
          bus_count := 15 |});
      ("create_kerber_landnetz_kabel_1",
       {| loader := "create_kerber_landnetz_kabel_1";
          display_name := "Landnetz Kabel 1";
          description_zh := "Kerber 农村电缆网络 1";
          description_en := "Kerber rural cable network 1";
          bus_count := 18 |});
      ("kb_extrem_landnetz_freileitung",
       {| loader := "kb_extrem_landnetz_freileitung";
          display_name := "Extrem Landnetz Freileitung";
          description_zh := "Kerber 极端农村架空线网络";
          description_en := "Kerber extreme rural overhead line network";
          bus_count := 28 |});
      ("kb_extrem_landnetz_freileitung_trafo",
       {| loader := "kb_extrem_landnetz_freileitung_trafo";
          display_name := "Extrem Landnetz Freil. Trafo";
          description_zh := "Kerber 极端农村架空线+变压器网络";
          description_en := "Kerber extreme rural overhead line with trafo";
          bus_count := 29 |});
      ("create_kerber_landnetz_kabel_2",
       {| loader := "create_kerber_landnetz_kabel_2";
          display_name := "Landnetz Kabel 2";
          description_zh := "Kerber 农村电缆网络 2";
          description_en := "Kerber rural cable network 2";
          bus_count := 30 |});
      ("kb_extrem_landnetz_kabel",
       {| loader := "kb_extrem_landnetz_kabel";
          display_name := "Extrem Landnetz Kabel";
          description_zh := "Kerber 极端农村电缆网络";
          description_en := "Kerber extreme rural cable network";
          bus_count := 54 |});
      ("kb_extrem_landnetz_kabel_trafo",
       {| loader := "kb_extrem_landnetz_kabel_trafo";
          display_name := "Extrem Landnetz Kabel Trafo";
          description_zh := "Kerber 极端农村电缆+变压器网络";
          description_en := "Kerber extreme rural cable with trafo";
          bus_count := 56 |});
      ("create_kerber_dorfnetz",
       {| loader := "create_kerber_dorfnetz";
          display_name := "Dorfnetz";
          description_zh := "Kerber 村庄网络";
          description_en := "Kerber village network";
          bus_count := 116 |});
      ("kb_extrem_dorfnetz",
       {| loader := "kb_extrem_dorfnetz";
          display_name := "Extrem Dorfnetz";
          description_zh := "Kerber 极端村庄网络";
          description_en := "Kerber extreme village network";
          bus_count := 118 |});
      ("kb_extrem_dorfnetz_trafo",
       {| loader := "kb_extrem_dorfnetz_trafo";
          display_name := "Extrem Dorfnetz Trafo";
          description_zh := "Kerber 极端村庄+变压器网络";
          description_en := "Kerber extreme village with trafo";
          bus_count := 236 |});
      ("create_kerber_vorstadtnetz_kabel_2",
       {| loader := "create_kerber_vorstadtnetz_kabel_2";
          display_name := "Vorstadtnetz Kabel 2";
          description_zh := "Kerber 郊区电缆网络 2";
          description_en := "Kerber suburban cable network 2";
          bus_count := 290 |});
      ("kb_extrem_vorstadtnetz_1",
       {| loader := "kb_extrem_vorstadtnetz_1";
          display_name := "Extrem Vorstadtnetz 1";
          description_zh := "Kerber 极端郊区网络 1";
          description_en := "Kerber extreme suburban network 1";
          bus_count := 292 |});
      ("kb_extrem_vorstadtnetz_2",
       {| loader := "kb_extrem_vorstadtnetz_2";
          display_name := "Extrem Vorstadtnetz 2";
          description_zh := "Kerber 极端郊区网络 2";
          description_en := "Kerber extreme suburban network 2";
          bus_count := 292 |});
      ("create_kerber_vorstadtnetz_kabel_1",
       {| loader := "create_kerber_vorstadtnetz_kabel_1";
          display_name := "Vorstadtnetz Kabel 1";
          description_zh := "Kerber 郊区电缆网络 1";
          description_en := "Kerber suburban cable network 1";
          bus_count := 294 |});
      ("kb_extrem_vorstadtnetz_trafo_1",
       {| loader := "kb_extrem_vorstadtnetz_trafo_1";
          display_name := "Extrem Vorstadtnetz Trafo 1";
          description_zh := "Kerber 极端郊区+变压器网络 1";
          description_en := "Kerber extreme suburban with trafo 1";
          bus_count := 384 |});
      ("kb_extrem_vorstadtnetz_trafo_2",
       {| loader := "kb_extrem_vorstadtnetz_trafo_2";
          display_name := "Extrem Vorstadtnetz Trafo 2";
          description_zh := "Kerber 极端郊区+变压器网络 2";
          description_en := "Kerber extreme suburban with trafo 2";
          bus_count := 386 |}) ] |});
  ("synthetic_voltage",
   {| name_zh := "合成电压控制低压网络";
      name_en := "Synthetic Voltage Control LV";
      networks := [
      ("create_synthetic_voltage_control_lv_network",
       {| loader := "create_synthetic_voltage_control_lv_network";
          display_name := "Synthetic Voltage Control LV";
          description_zh := "合成电压控制低压网络";
          description_en := "Synthetic voltage control LV network";
          bus_count := 26 |}) ] |});
  ("dickert_lv",
   {| name_zh := "Dickert 低压网络";
      name_en := "Dickert LV Networks";
      networks := [
      ("create_dickert_lv_network",
       {| loader := "create_dickert_lv_network";
          display_name := "Dickert LV";
          description_zh := "Dickert 低压配电网络";
          description_en := "Dickert LV distribution network";
          bus_count := 3 |}) ] |});
  ("ieee_european_lv",
   {| name_zh := "IEEE 欧洲低压网络";
      name_en := "IEEE European LV Asymmetric";
      networks := [
      ("ieee_european_lv_asymmetric",
       {| loader := "ieee_european_lv_asymmetric";
          display_name := "IEEE European LV";
          description_zh := "IEEE 欧洲低压不对称网络";
          description_en := "IEEE European LV asymmetric network";
          bus_count := 907 |}) ] |});
  ("lv_schutterwald",
   {| name_zh := "LV Schutterwald 网络";
      name_en := "LV Schutterwald";
      networks := [
      ("lv_schutterwald",
       {| loader := "lv_schutterwald";
          display_name := "LV Schutterwald";
          description_zh := "Schutterwald 低压配电网络";
          description_en := "Schutterwald LV distribution network";
          bus_count := 2940 |}) ] |}) ].

(** [d.update(other)] on dictionaries. *)
Definition dict_update {A : Type} (d : gmap string A) (other : list (string * A))
  : gmap string A :=
  fold_left (fun m kv => <[fst kv := snd kv]> m) other d.

(** The flat lookup built at import time. *)
Definition _ALL_NETWORKS : gmap string ExampleNetwork :=
  fold_left (fun m cat => dict_update m (networks (snd cat)))
            NETWORK_CATEGORIES ∅.

(** An entry of the listing. *)
Record ListedNetwork : Type := {
  listed_case_name : string;
  listed_display_name : string;
  listed_description_zh : string;
  listed_description_en : string;
  listed_bus_count : Z
}.

Record ListedCategory : Type := {
  listed_name_zh : string;
  listed_name_en : string;
  listed_networks : list ListedNetwork
}.

(** [get_cached_example_list] *)
Definition get_cached_example_list : list (string * ListedCategory) :=
  map (fun cat =>
         (fst cat,
          {| listed_name_zh := name_zh (snd cat);
             listed_name_en := name_en (snd cat);
             listed_networks :=
               map (fun entry =>
                      {| listed_case_name := fst entry;
                         listed_display_name := display_name (snd entry);
                         listed_description_zh := description_zh (snd entry);
                         listed_description_en := description_en (snd entry);
                         listed_bus_count := bus_count (snd entry) |})
                   (networks (snd cat)) |}))
      NETWORK_CATEGORIES.

(** The answer of [download_example]: the workbook and its
    [Content-Disposition] header. *)
Record ExampleDownload : Type := {
  example_bytes : list Byte.byte;
  example_disposition : string
}.

(** The double-quote character of the header. *)
Definition double_quote : string := String (ascii_of_nat 34) EmptyString.

Section Examples.

(** The functions of [pandapower.networks], by name, and
    [pp.to_excel]. *)
Variable pn : string -> result pandapowerNet.
Variable to_excel : pandapowerNet -> result (list Byte.byte).

(** [export_example_to_excel] *)
Definition export_example_to_excel (case_name : string)
  : result (list Byte.byte) :=
  match _ALL_NETWORKS !! case_name with
  | None => Raise (ValueError ("Unknown example network: " ++ case_name))
  | Some info =>
      net ← pn (loader info);
      to_excel net
  end.

(** [download_example] of [api/powerflow.py]: a [ValueError] becomes a
    404 answer, any other exception leaves the endpoint. *)
Definition download_example (case_name : string)
  : result (http ExampleDownload) :=
  match export_example_to_excel case_name with
  | Ok excel_bytes =>
      Ok (Http200 {| example_bytes := excel_bytes;
                     example_disposition :=
                       "attachment; filename=" ++ double_quote ++ case_name
                       ++ ".xlsx" ++ double_quote |})
  | Raise (ValueError msg) => Ok (HTTPException 404 msg)
  | Raise e => Raise e
  end.

End Examples.

(** ** The logging middleware ([middleware/logging.py]) *)

(** [sub in s] *)
Fixpoint contains (sub s : string) : bool :=
  String.prefix sub s
  || match s with
     | EmptyString => false
     | String _ s' => contains sub s'
     end.

(** [s.split("/")] *)
Fixpoint split_slash (s : string) : list string :=
  match s with
  | EmptyString => [EmptyString]
  | String c s' =>
      if is_slash c then EmptyString :: split_slash s'
      else match split_slash s' with
           | part :: parts => String c part :: parts
           | [] => [String c EmptyString]
           end
  end.

(** The loop over the parts of the path: at the first part that is one
    of the three route names and is not the last part, the next part is
    the session identifier, kept only if it is not empty. *)
Fixpoint scan_parts (parts : list string) : option string :=
  match parts with
  | [] => None
  | part :: rest =>
      match rest with
      | next :: _ =>
          if str_in part ["run"; "results"; "download"] then
            if String.eqb next "" then None else Some next
          else scan_parts rest
      | [] => None
      end
  end.

(** The session identifier [dispatch] reads off the path. *)
Definition session_id_of_path (path : string) : option string :=
  if contains "/run/" path || contains "/results/" path
     || contains "/download/" path
  then scan_parts (split_slash path)
  else None.

(** The two context variables of [logging_config.py]. *)
Record LogContext : Type := {
  request_id_ctx : option string;
  session_id_ctx : option string
}.

Record Response : Type := {
  status_code_of : Z;
  headers : gmap string string
}.

(** [LoggingMiddleware.dispatch].  [header] is the [X-Request-ID] of the
    request, [uuid4] the identifier drawn when there is none, and
    [call_next] the rest of the application, which runs in the context
    the middleware has set.  The call returns the context it leaves
    behind and the response, or the exception it re-raises. *)
Definition dispatch (uuid4 : string) (ctx : LogContext)
    (header : option string) (path : string)
    (call_next : LogContext -> result Response)
  : LogContext * result Response :=
  let request_id :=
    match header with
    | Some h => if String.eqb h "" then uuid4 else h
    | None => uuid4
    end in
  let inner :=
    {| request_id_ctx := Some request_id;
       session_id_ctx := match session_id_of_path path with
                         | Some session_id => Some session_id
                         | None => session_id_ctx ctx
                         end |} in
  let answer :=
    match call_next inner with
    | Ok response =>
        Ok {| status_code_of := status_code_of response;
              headers := <["X-Request-ID" := request_id]> (headers response) |}
    | Raise e => Raise e
    end in
  ({| request_id_ctx := request_id_ctx ctx;
      session_id_ctx := session_id_ctx ctx |},
   answer).

(** The prefixes under which the router is mounted. *)
Definition API_V1_PREFIX : string := "/api/v1".
Definition ROUTER_PREFIX : string := "/powerflow".

(** ** Sample inputs

    Small networks and solver answers on which the model is run. *)

Definition table_of (labels : list Z) (names : list (option string)) : ElementTable :=
  {| el_index := labels; el_name := Some names; el_slack := None;
     el_other_columns := 3 |}.

Definition gen_table (labels : list Z) (slack : list bool) : ElementTable :=
  {| el_index := labels;
     el_name := Some (map (fun _ => None) labels);
     el_slack := Some slack;
     el_other_columns := 5 |}.

Definition no_rows (cols : list string) : DataFrame :=
  {| df_index := []; df_columns := map (fun c => (c, [])) cols |}.

(** Two buses joined by one line, fed by an external grid, with two
    generators of which the first is marked as slack. *)
Definition sample_elements : gmap string ElementTable :=
  <["bus" := table_of [0; 1] [Some "Bus A"; Some "  "]]>
  (<["line" := table_of [0] [Some "L1"]]>
  (<["ext_grid" := table_of [0] [None]]>
  (<["gen" := gen_table [0; 1] [true; false]]> ∅))).

Definition sample_net : pandapowerNet :=
  {| net_elements := sample_elements;
     net_results := ∅;
     net_converged := false;
     net_ppc_iterations := None |}.

(** The network after a run that converged in three iterations. *)
Definition sample_results : gmap string DataFrame :=
  <["res_bus" := {| df_index := [0; 1];
                    df_columns := [("vm_pu", [1; 98 # 100]%Q);
                                   ("va_degree", [0; -(1 # 2)]%Q)] |}]>
  (<["res_line" := {| df_index := [0];
                      df_columns := [("loading_percent", [425 # 10]%Q)] |}]>
  (<["res_trafo" := no_rows ["loading_percent"]]>
  (<["res_load" := no_rows ["p_mw"; "q_mvar"]]>
  (<["res_gen" := {| df_index := [0; 1];
                     df_columns := [("p_mw", [2; 5]%Q);
                                    ("q_mvar", [1 # 4; 1]%Q)] |}]>
  (<["res_ext_grid" := {| df_index := [0];
                          df_columns := [("p_mw", [123456 # 100000]%Q);
                                         ("q_mvar", [1 # 8]%Q)] |}]> ∅))))).

Definition solved_net : pandapowerNet :=
  {| net_elements := sample_elements;
     net_results := sample_results;
     net_converged := true;
     net_ppc_iterations := Some 3 |}.

Definition sample_service : PowerFlowService :=
  PowerFlowService_init sample_net "case.json" "json".

(** Readings of the clock, in seconds. *)
Definition sample_clock (k : nat) : float :=
  match k with
  | O => 10%Q
  | S O => (10012 # 1000)%Q
  | _ => (10020 # 1000)%Q
  end.

(** A solver that converges on every network to [solved_net]. *)
Definition runpp_converges (_ : pandapowerNet) (_ : string) (_ : Z)
    (_ _ : bool) (_ : string) (_ : float) : SolverOutcome :=
  Returned solved_net ["numba not installed"].

(** A solver that returns without convergence. *)
Definition runpp_diverges (net : pandapowerNet) (_ : string) (_ : Z)
    (_ _ : bool) (_ : string) (_ : float) : SolverOutcome :=
  Returned net [].

(** A solver that raises. *)
Definition runpp_raises (net : pandapowerNet) (_ : string) (_ : Z)
    (_ _ : bool) (_ : string) (_ : float) : SolverOutcome :=
  Raised net (Exception "Power Flow nr did not converge after 10 iterations!").

(** The converged network without its transformer results. *)
Definition net_without_res_trafo : pandapowerNet :=
  {| net_elements := sample_elements;
     net_results := delete "res_trafo" sample_results;
     net_converged := true;
     net_ppc_iterations := Some 3 |}.

(** A solver that reports convergence and leaves no [res_trafo]. *)
Definition runpp_incomplete (_ : pandapowerNet) (_ : string) (_ : Z)
    (_ _ : bool) (_ : string) (_ : float) : SolverOutcome :=
  Returned net_without_res_trafo [].

(** A network without any element. *)
Definition empty_net : pandapowerNet :=
  {| net_elements := <["bus" := table_of [] []]> (<["line" := table_of [] []]> ∅);
     net_results := ∅;
     net_converged := false;
     net_ppc_iterations := None |}.

(** Codecs: one that reads any existing file as [sample_net], one that
    reads it as [empty_net], and one that rejects every file. *)
Definition codec_sample (fs : files) (path : string) : result pyobject :=
  match fs !! path with
  | Some _ => Ok (PyNet sample_net)
  | None => Raise (Exception ("No such file or directory: " ++ path))
  end.

Definition codec_empty (fs : files) (path : string) : result pyobject :=
  match fs !! path with
  | Some _ => Ok (PyNet empty_net)
  | None => Raise (Exception ("No such file or directory: " ++ path))
  end.

Definition codec_rejects (_ : files) (_ : string) : result pyobject :=
  Raise (Exception "file is not a database").

(** The two bytes of the text [{}]. *)
Definition sample_content : list Byte.byte := [Byte.x7b; Byte.x7d].

(** The sample service after a converged run. *)
Definition solved_service : PowerFlowService :=
  fst (run_powerflow runpp_converges sample_service "nr" None false true "auto"
         (1 # 100000000)%Q sample_clock).

Definition sample_id : string := "0b0e7a52-6a3c-4c43-9d0e-5f1f3c1b2a77".

(** A store that holds the session of [sample_service]. *)
Definition sample_store : session_files :=
  fst (create_session sample_id ∅ sample_service).

(** A stand-in for pickle on the sessions of the examples: one byte for
    the network (before or after the run), one for the results (absent
    or present), and the byte of the STOP opcode. *)
Definition dumps_sample (d : session_data) : list Byte.byte :=
  [ (if net_converged (sd_network d) then Byte.x53 else Byte.x4e);
    match sd_results d with Some _ => Byte.x52 | None => Byte.x2d end;
    Byte.x2e ].

Definition unpickle_sample (buffer : list Byte.byte) : unpickling :=
  match buffer with
  | [] | [_] | [_; _] => NeedsMore
  | [n; r; stop] =>
      if (Byte.eqb n Byte.x53 || Byte.eqb n Byte.x4e)
         && (Byte.eqb r Byte.x52 || Byte.eqb r Byte.x2d)
         && Byte.eqb stop Byte.x2e
      then Loaded {| sd_network := if Byte.eqb n Byte.x53
                                   then network solved_service
                                   else network sample_service;
                     sd_filename := "case.json";
                     sd_file_format := "json";
                     sd_results := if Byte.eqb r Byte.x52
                                   then _results solved_service
                                   else None |}
      else Corrupt
  | _ => Corrupt
  end.

(** The file of the session of [sample_service], as bytes. *)
Definition sample_files : files :=
  <[_get_session_path sample_id := dumps_sample (session_data_of sample_service)]> ∅.

(** A converged network whose only generator result row belongs to the
    generator that is not marked as slack, and whose external-grid
    result table has no rows. *)
Definition unmatched_results : gmap string DataFrame :=
  <["res_gen" := {| df_index := [1];
                    df_columns := [("p_mw", [5]%Q); ("q_mvar", [1]%Q)] |}]>
  (<["res_ext_grid" := no_rows ["p_mw"; "q_mvar"]]> sample_results).

Definition unmatched_net : pandapowerNet :=
  {| net_elements := sample_elements;
     net_results := unmatched_results;
     net_converged := true;
     net_ppc_iterations := Some 3 |}.

Definition runpp_unmatched (_ : pandapowerNet) (_ : string) (_ : Z)
    (_ _ : bool) (_ : string) (_ : float) : SolverOutcome :=
  Returned unmatched_net [].

(** A converged network whose single line carries no current. *)
Definition idle_results : gmap string DataFrame :=
  <["res_line" := {| df_index := [0];
                     df_columns := [("loading_percent", [0]%Q)] |}]>
  sample_results.

Definition idle_net : pandapowerNet :=
  {| net_elements := sample_elements;
     net_results := idle_results;
     net_converged := true;
     net_ppc_iterations := Some 2 |}.

Definition runpp_idle (_ : pandapowerNet) (_ : string) (_ : Z)
    (_ _ : bool) (_ : string) (_ : float) : SolverOutcome :=
  Returned idle_net [].

Definition idle_service : PowerFlowService :=
  fst (run_powerflow runpp_idle sample_service "nr" None false true "auto"
         (1 # 100000000)%Q sample_clock).

(** ** Vocabulary of the statements *)

(** All nine per-table fields of a result are absent. *)
Definition no_tables (r : PowerFlowResult) : Prop :=
  res_bus r = None /\ res_line r = None /\ res_trafo r = None /\
  res_trafo3w r = None /\ res_load r = None /\ res_gen r = None /\
  res_sgen r = None /\ res_ext_grid r = None /\ res_shunt r = None.

(** The table of default iteration caps, case by case: Newton-Raphson
    and its Iwamoto variant 10, backward/forward sweep 100, Gauss-Seidel
    1000, the fast-decoupled variants 30, anything else 30. *)
Definition default_iterations (algorithm : string) : Z :=
  if String.eqb algorithm "nr" then 10
  else if String.eqb algorithm "iwamoto_nr" then 10
  else if String.eqb algorithm "bfsw" then 100
  else if String.eqb algorithm "gs" then 1000
  else if String.eqb algorithm "fdbx" then 30
  else if String.eqb algorithm "fdxb" then 30
  else 30.

(** The same table with the five entries Newton-Raphson 10,
    backward/forward sweep 100, Gauss-Seidel 1000, fast-decoupled 30,
    and 30 for every other name. *)
Definition five_entry_iterations (algorithm : string) : Z :=
  if String.eqb algorithm "nr" then 10
  else if String.eqb algorithm "bfsw" then 100
  else if String.eqb algorithm "gs" then 1000
  else if String.eqb algorithm "fdbx" then 30
  else if String.eqb algorithm "fdxb" then 30
  else 30.

(** Both workers at their first operation. *)
Definition workers_start (fs : files) : workers :=
  {| w_pc := W_exists; r_pc := R_exists; w_files := fs |}.

(** The codec reads back what it wrote for [d] and nothing shorter:
    [pickle.load] yields [d] from the bytes [pickle.dump] wrote for it,
    and asks for more after every proper prefix of them. *)
Definition pickles (dumps : session_data -> list Byte.byte)
    (unpickle : list Byte.byte -> unpickling) (d : session_data) : Prop :=
  unpickle (dumps d) = Loaded d /\
  forall k, (k < length (dumps d))%nat -> unpickle (take k (dumps d)) = NeedsMore.

(** Every byte of [buffer] stands at its offset in [old] or in [new]. *)
Definition mixed (old new buffer : list Byte.byte) : Prop :=
  forall i b, buffer !! i = Some b -> old !! i = Some b \/ new !! i = Some b.

(** What the path of a session may hold while the bytes [new] are
    written over the bytes [old]: all of [old], or the first bytes of
    [new]. *)
Definition file_during_update (old new : list Byte.byte)
    (content : option (list Byte.byte)) : Prop :=
  content = Some old \/ exists k, content = Some (take k new).

(** What a reader may return by then: nothing, or the session that
    [pickle.load] decodes from a mix of the two byte streams. *)
Definition read_of_mix (unpickle : list Byte.byte -> unpickling)
    (old new : list Byte.byte) (r : option PowerFlowService) : Prop :=
  r = None \/
  exists buffer d,
    mixed old new buffer /\ unpickle buffer = Loaded d /\
    r = Some (service_of_data d).

Definition update_invariant (unpickle : list Byte.byte -> unpickling)
    (session_id : string) (old new : list Byte.byte) (c : workers) : Prop :=
  match w_pc c with
  | W_exists | W_open => w_files c !! _get_session_path session_id = Some old
  | W_write offset =>
      w_files c !! _get_session_path session_id = Some (take offset new) /\
      (offset <= length new)%nat
  | W_return true => w_files c !! _get_session_path session_id = Some new
  | W_return false =>
      file_during_update old new (w_files c !! _get_session_path session_id)
  end /\
  match r_pc c with
  | R_read buffer => mixed old new buffer
  | R_return r => read_of_mix unpickle old new r
  | R_exists | R_open => True
  end.

(** The reader has returned the session [pre] or the session [post]. *)
Definition reads_whole_record (pre post : PowerFlowService) (c : workers) : Prop :=
  r_pc c = R_return (Some pre) \/ r_pc c = R_return (Some post).

(** *** Slack power, row by row *)

(** The generator table marks the generator labelled [i] as slack. *)
Definition slack_flagged (gen : ElementTable) (i : Z) : bool :=
  match el_slack gen with
  | Some slack =>
      existsb (fun row => Z.eqb (fst row) i && snd row)
              (combine (el_index gen) slack)
  | None => false
  end.

(** The values [vs] of a column of the generator result table, kept for
    the rows whose label is that of a slack-flagged generator. *)
Definition slack_gen_values (gen : ElementTable) (res_gen : DataFrame)
    (vs : list float) : list float :=
  map snd (List.filter (fun row => slack_flagged gen (fst row))
                       (combine (df_index res_gen) vs)).

(** The sum of column [c] over all rows of the external-grid result
    table; there is none when the table is empty or lacks the column. *)
Definition ext_grid_sum (res_ext_grid : DataFrame) (c : string) : option float :=
  if df_empty res_ext_grid then None
  else option_map series_sum (df_column c res_ext_grid).

(** The sum of column [c] over the generator result rows of
    slack-flagged generators; there is none when the generator table is
    empty or marks no generator, or when the generator result table is
    missing, empty or lacks the column. *)
Definition slack_gen_sum (net : pandapowerNet) (gen : ElementTable) (c : string)
  : option float :=
  if el_empty gen then None
  else match el_slack gen with
       | None => None
       | Some slack =>
           if series_any slack then
             match net_results net !! "res_gen" with
             | Some res_gen =>
                 if df_empty res_gen then None
                 else option_map
                        (fun vs => series_sum (slack_gen_values gen res_gen vs))
                        (df_column c res_gen)
             | None => None
             end
           else None
       end.

(** [acc + x] when there is an [x]. *)
Definition add_sum (acc : float) (x : option float) : float :=
  match x with
  | Some v => f_add acc v
  | None => acc
  end.

(** The slack fields a converged network calls for: absent when no
    active-power sum is taken, else both totals, counted from 0.0 and
    rounded to four digits. *)
Definition expected_slack (net : pandapowerNet) (res_ext_grid : DataFrame)
    (gen : ElementTable) : option float * option float :=
  let p := add_sum (add_sum f_zero (ext_grid_sum res_ext_grid "p_mw"))
                   (slack_gen_sum net gen "p_mw") in
  let q := add_sum (add_sum f_zero (ext_grid_sum res_ext_grid "q_mvar"))
                   (slack_gen_sum net gen "q_mvar") in
  match ext_grid_sum res_ext_grid "p_mw", slack_gen_sum net gen "p_mw" with
  | None, None => (None, None)
  | _, _ => (Some (py_round p 4), Some (py_round q 4))
  end.

(** The result table has the two power columns, one value per row. *)
Definition power_columns (df : DataFrame) : Prop :=
  exists ps qs,
    df_column "p_mw" df = Some ps /\ df_column "q_mvar" df = Some qs /\
    length ps = length (df_index df) /\ length qs = length (df_index df).

(** The tables as the solver leaves them: the external-grid and the
    generator result tables have their power columns, the generator
    result table carries the labels of the generator table, row by
    row, and the slack column of the generator table has one flag per
    generator. *)
Definition solver_tables (net : pandapowerNet) : Prop :=
  (forall df, net_results net !! "res_ext_grid" = Some df -> power_columns df) /\
  (forall df, net_results net !! "res_gen" = Some df -> power_columns df) /\
  (forall gen res_gen,
      net_elements net !! "gen" = Some gen ->
      net_results net !! "res_gen" = Some res_gen ->
      df_index res_gen = el_index gen) /\
  (forall gen slack,
      net_elements net !! "gen" = Some gen ->
      el_slack gen = Some slack ->
      length slack = length (el_index gen)).

(** The values of column [c] in all rows of the external-grid result
    table. *)
Definition ext_grid_values (net : pandapowerNet) (c : string) : list float :=
  match net_results net !! "res_ext_grid" with
  | Some res_ext_grid => default [] (df_column c res_ext_grid)
  | None => []
  end.

(** The values of column [c] in the rows of the generator result table
    whose label is that of a slack-flagged generator. *)
Definition slack_gen_rows (net : pandapowerNet) (c : string) : list float :=
  match net_elements net !! "gen", net_results net !! "res_gen" with
  | Some gen, Some res_gen =>
      match df_column c res_gen with
      | Some vs => slack_gen_values gen res_gen vs
      | None => []
      end
  | _, _ => []
  end.

(** Neither class of slack element has a result row: the external-grid
    result table has no row, and no row of the generator result table
    carries the label of a slack-flagged generator. *)
Definition no_slack_result_rows (net : pandapowerNet) : Prop :=
  (forall df, net_results net !! "res_ext_grid" = Some df -> df_index df = []) /\
  (forall gen res_gen,
      net_elements net !! "gen" = Some gen ->
      net_results net !! "res_gen" = Some res_gen ->
      List.filter (slack_flagged gen) (df_index res_gen) = []).

(** The schedule in which the reader checks and opens the session file
    after the writer has cut it and before the writer has written
    anything, and so reads the end of an empty file; the writer then
    writes the record and returns. *)
Definition torn_schedule : list worker :=
  [Writer; Writer; Reader; Reader; Reader; Writer; Writer; Writer; Writer].

(** The schedule in which the reader has read the first byte of the
    old file when the writer cuts the file and writes the new one, and
    reads on from there. *)
Definition mixing_schedule : list worker :=
  [Reader; Reader; Reader;
   Writer; Writer; Writer; Writer; Writer; Writer;
   Reader; Reader; Reader].

(** [x is not None] *)
Definition is_Some_b {A : Type} (x : option A) : bool :=
  match x with
  | Some _ => true
  | None => false
  end.

(** The session the reader decodes under [mixing_schedule]: the network
    as uploaded, with the results of the run. *)
Definition mixed_service : PowerFlowService :=
  {| network := network sample_service;
     filename := filename sample_service;
     file_format := file_format sample_service;
     _results := _results solved_service |}.

(** The identifier holds no slash, as every UUID. *)
Definition no_slash (s : string) : bool :=
  negb (existsb is_slash (list_ascii_of_string s)).

(** The text holds no NUL character. *)
Definition no_nul (s : string) : bool :=
  negb (existsb (Ascii.eqb Ascii.zero) (list_ascii_of_string s)).

(** The identifier names a file of its own in the session directory:
    it holds no slash and no NUL, and with the suffix [.pkl] it is not
    longer than the 255 bytes of a file name.  For such an identifier
    [_get_session_path] is the path pathlib builds, and [exists],
    [open] and [unlink] raise for no reason of the name. *)
Definition names_session_file (session_id : string) : bool :=
  no_slash session_id && no_nul session_id
  && (String.length session_id + 4 <=? 255)%nat.

(** A store whose record for [sample_id] is an incomplete pickle. *)
Definition torn_store : session_files :=
  <[_get_session_path sample_id := Partial]> ∅.

Definition other_id : string := "7d1c2f90-11aa-4e0b-8c55-0a4b9e6f3d21".

(** The text holds no dot. *)
Definition no_dot (s : string) : bool :=
  negb (existsb is_dot (list_ascii_of_string s)).

(** The result tables [_extract_results] reads as plain attributes, in
    the order it reads them. *)
Definition required_result_tables : list string :=
  ["res_bus"; "res_line"; "res_trafo"; "res_load"; "res_gen"; "res_ext_grid"].

(** The first of [names] that the network has no result table for. *)
Fixpoint first_missing (net : pandapowerNet) (names : list string)
  : option string :=
  match names with
  | [] => None
  | name :: names' =>
      match net_results net !! name with
      | Some _ => first_missing net names'
      | None => Some name
      end
  end.

(** The table has no row to extract: it is missing or empty. *)
Definition nothing_to_extract (df : option DataFrame) : Prop :=
  df = None \/ exists d, df = Some d /\ df_empty d = true.

(** A request with the defaults of the schema. *)
Definition sample_request : PowerFlowRequest :=
  {| req_algorithm := "nr";
     req_max_iteration := None;
     req_enforce_q_lims := false;
     req_calculate_voltage_angles := true;
     req_init := "auto";
     req_tolerance_mva := (1 # 100000000)%Q |}.

(** The element tables [get_network_summary] reads without a guard, in
    the order it reads them. *)
Definition required_element_tables : list string :=
  ["bus"; "line"; "trafo"; "load"; "gen"; "ext_grid"].

(** The first of [names] that the network has no element table for. *)
Fixpoint first_missing_element (net : pandapowerNet) (names : list string)
  : option string :=
  match names with
  | [] => None
  | name :: names' =>
      match net_elements net !! name with
      | Some _ => first_missing_element net names'
      | None => Some name
      end
  end.

(** The paths of the router's session routes. *)
Definition route_path (route session_id : string) : string :=
  API_V1_PREFIX ++ ROUTER_PREFIX ++ "/" ++ route ++ "/" ++ session_id.

(** All entries of the catalogue, category after category. *)
Definition catalogue_entries : list (string * ExampleNetwork) :=
  concat (map (fun cat => networks (snd cat)) NETWORK_CATEGORIES).

(** The case names the listing shows. *)
Definition listed_case_names : list string :=
  concat (map (fun cat => map listed_case_name (listed_networks (snd cat)))
              get_cached_example_list).

(** Stand-ins for the network builders and the spreadsheet writer. *)
Definition pn_sample (name : string) : result pandapowerNet :=
  if String.eqb name "case9" then Ok sample_net
  else Raise (Exception ("cannot build " ++ name)).

Definition to_excel_sample (_ : pandapowerNet) : result (list Byte.byte) :=
  Ok sample_content.

(** A handler that answers 200 without headers. *)
Definition handler_ok (_ : LogContext) : result Response :=
  Ok {| status_code_of := 200; headers := ∅ |}.

Definition idle_context : LogContext :=
  {| request_id_ctx := None; session_id_ctx := None |}.

(** * Properties *)

(** ** The [result] monad *)

Lemma bind_Ok {A B : Type} (m : result A) (k : A -> result B) (b : B) :
  (m ≫= k) = Ok b -> exists a, m = Ok a /\ k a = Ok b.
Proof.
  destruct m as [a|e]; cbn; intros H.
  - exists a. split; [reflexivity | exact H].
  - discriminate H.
Qed.

Lemma bind_Raise {A B : Type} (m : result A) (k : A -> result B) (e : exn) :
  (m ≫= k) = Raise e ->
  m = Raise e \/ exists a, m = Ok a /\ k a = Raise e.
Proof.
  destruct m as [a|e']; cbn; intros H.
  - right. exists a. split; [reflexivity | exact H].
  - left. congruence.
Qed.

Ltac bind_inv H :=
  let a := fresh "a" in
  let Ha := fresh "Ha" in
  apply bind_Ok in H; destruct H as (a & Ha & H).

(** ** Extraction *)

Lemma extract_results_converged (net : pandapowerNet) (r : PowerFlowResult) :
  _extract_results net = Ok r -> converged r = true.
Proof.
  unfold _extract_results. intros H.
  repeat bind_inv H.
  inversion H. reflexivity.
Qed.

(** ** The shape of a run *)

Lemma failed_no_tables (msg : string) (log : CalculationLog) :
  no_tables (PowerFlowResult_failed msg log).
Proof. unfold no_tables. cbn. repeat split. Qed.

(** When the [try] block completes, the solver has returned, the
    slack aggregation has succeeded, and the result is the converged
    one built from the extraction or the fixed non-convergence one. *)
Lemma run_powerflow_try_Ok (outcome : SolverOutcome) (algorithm : string)
    (resolved : Z) (init : string) (tolerance : float)
    (perf_counter : nat -> float) (r : PowerFlowResult) :
  run_powerflow_try outcome algorithm resolved init tolerance perf_counter = Ok r ->
  exists net w totals log,
    outcome = Returned net w /\
    slack_totals net (net_converged net) = Ok totals /\
    calculation_log r = Some log /\
    max_iteration log = resolved /\
    slack_p_mw log = (if has_slack totals
                      then Some (py_round (total_p_mw totals) 4) else None) /\
    slack_q_mvar log = (if has_slack totals
                        then Some (py_round (total_q_mvar totals) 4) else None) /\
    ((net_converged net = true /\ converged r = true /\
      warnings log = w /\
      exists x, _extract_results net = Ok x)
     \/
     (net_converged net = false /\ converged r = false /\
      warnings log = (w ++ ["Power flow did not converge"])%list /\
      message r = "Power flow did not converge" /\
      no_tables r)).
Proof.
  destruct outcome as [net w | net e]; cbn [run_powerflow_try]; [| discriminate].
  intros H. bind_inv H. rename a into totals.
  destruct (net_converged net) eqn:Hc.
  - bind_inv H. rename a into x.
    inversion H; subst r; clear H.
    eexists net, w, totals, _. cbn.
    split; [reflexivity |]. split; [rewrite Hc; exact Ha |].
    do 4 (split; [reflexivity |]).
    left. split; [exact Hc |].
    split; [eapply extract_results_converged; eassumption |].
    split; [reflexivity |]. exists x. assumption.
  - inversion H; subst r; clear H.
    eexists net, w, totals, _. cbn.
    split; [reflexivity |]. split; [rewrite Hc; exact Ha |].
    do 4 (split; [reflexivity |]).
    right. split; [exact Hc |]. do 3 (split; [reflexivity |]).
    apply failed_no_tables.
Qed.

(** The handler's result. *)
Lemma run_powerflow_except_shape (e : exn) (algorithm : string) (resolved : Z)
    (init : string) (tolerance : float) (start_time now : float) :
  let r := run_powerflow_except e algorithm resolved init tolerance start_time now in
  converged r = false /\
  message r = "Power flow calculation failed: " ++ str e /\
  no_tables r /\
  exists log, calculation_log r = Some log /\
              warnings log = [str e] /\
              max_iteration log = resolved /\
              slack_p_mw log = None /\ slack_q_mvar log = None.
Proof.
  cbn. repeat (split; [first [reflexivity | apply failed_no_tables] |]).
  eexists. repeat split.
Qed.

(** ** Iteration cap *)

Lemma default_table_lookup (a : string) :
  default DEFAULT_ITERATION_FALLBACK (ALGORITHM_DEFAULT_ITERATIONS !! a)
  = default_iterations a.
Proof.
  unfold default_iterations, ALGORITHM_DEFAULT_ITERATIONS.
  destruct (String.eqb_spec a "nr") as [->|H1];
    [rewrite lookup_insert_eq; reflexivity | rewrite lookup_insert_ne by congruence].
  destruct (String.eqb_spec a "iwamoto_nr") as [->|H2];
    [rewrite lookup_insert_eq; reflexivity | rewrite lookup_insert_ne by congruence].
  destruct (String.eqb_spec a "bfsw") as [->|H3];
    [rewrite lookup_insert_eq; reflexivity | rewrite lookup_insert_ne by congruence].
  destruct (String.eqb_spec a "gs") as [->|H4];
    [rewrite lookup_insert_eq; reflexivity | rewrite lookup_insert_ne by congruence].
  destruct (String.eqb_spec a "fdbx") as [->|H5];
    [rewrite lookup_insert_eq; reflexivity | rewrite lookup_insert_ne by congruence].
  destruct (String.eqb_spec a "fdxb") as [->|H6];
    [rewrite lookup_insert_eq; reflexivity | rewrite lookup_insert_ne by congruence].
  rewrite lookup_empty. reflexivity.
Qed.

Lemma run_powerflow_log_cap
    (runpp : pandapowerNet -> string -> Z -> bool -> bool -> string -> float
             -> SolverOutcome)
    (self : PowerFlowService) (algorithm : string) (explicit : option Z)
    (enforce_q_lims calculate_voltage_angles : bool) (init : string)
    (tolerance : float) (perf_counter : nat -> float) :
  exists log,
    calculation_log
      (snd (run_powerflow runpp self algorithm explicit enforce_q_lims
              calculate_voltage_angles init tolerance perf_counter)) = Some log /\
    max_iteration log = resolved_max_iteration algorithm explicit.
Proof.
  unfold run_powerflow. cbn [snd].
  destruct (run_powerflow_try _ _ _ _ _ _) as [r|e] eqn:Htry.
  - apply run_powerflow_try_Ok in Htry.
    destruct Htry as (net & w & totals & log & _ & _ & Hlog & Hcap & _).
    exists log. split; assumption.
  - eexists. cbn. split; reflexivity.
Qed.

(** C8, as amended: the cap recorded in the calculation log of every
    run is the explicit [max_iteration] when one is given, and otherwise
    the entry of the algorithm in the table nr 10, iwamoto_nr 10,
    bfsw 100, gs 1000, fdbx 30, fdxb 30, with 30 for every name outside
    these six. *)
Theorem iteration_cap_resolved
    (runpp : pandapowerNet -> string -> Z -> bool -> bool -> string -> float
             -> SolverOutcome)
    (self : PowerFlowService) (algorithm : string) (explicit : option Z)
    (enforce_q_lims calculate_voltage_angles : bool) (init : string)
    (tolerance : float) (perf_counter : nat -> float) :
  exists log,
    calculation_log
      (snd (run_powerflow runpp self algorithm explicit enforce_q_lims
              calculate_voltage_angles init tolerance perf_counter)) = Some log /\
    max_iteration log = match explicit with
                        | Some m => m
                        | None => default_iterations algorithm
                        end.
Proof.
  destruct (run_powerflow_log_cap runpp self algorithm explicit enforce_q_lims
              calculate_voltage_angles init tolerance perf_counter)
    as (log & Hlog & Hcap).
  exists log. split; [exact Hlog |].
  rewrite Hcap. unfold resolved_max_iteration.
  destruct explicit as [m|]; [reflexivity | apply default_table_lookup].
Qed.

(** C8, as stated, fails: the Iwamoto variant is none of the five
    listed algorithms, yet its cap is 10 and not the fallback 30. *)
Lemma iwamoto_cap_is_not_fallback :
  resolved_max_iteration "iwamoto_nr" None = 10 /\
  five_entry_iterations "iwamoto_nr" = 30 /\
  resolved_max_iteration "iwamoto_nr" None <> five_entry_iterations "iwamoto_nr".
Proof.
  assert (H : resolved_max_iteration "iwamoto_nr" None = 10).
  { unfold resolved_max_iteration. rewrite default_table_lookup. reflexivity. }
  split; [exact H |]. split; [reflexivity |].
  rewrite H. cbn. discriminate.
Qed.

(** ** Failure paths of the run *)

(** C4: when the solver raises, [run_powerflow] still returns a result
    (it is a function into [PowerFlowResult], not into [result]): the
    result is not converged, its message is the failure text followed by
    the exception's message, and the warnings of its calculation log are
    exactly that one message. *)
Theorem solver_exception_becomes_result
    (runpp : pandapowerNet -> string -> Z -> bool -> bool -> string -> float
             -> SolverOutcome)
    (self : PowerFlowService) (algorithm : string) (explicit : option Z)
    (enforce_q_lims calculate_voltage_angles : bool) (init : string)
    (tolerance : float) (perf_counter : nat -> float)
    (net' : pandapowerNet) (e : exn) :
  runpp (network self) algorithm (resolved_max_iteration algorithm explicit)
        enforce_q_lims calculate_voltage_angles init tolerance = Raised net' e ->
  let r := snd (run_powerflow runpp self algorithm explicit enforce_q_lims
                  calculate_voltage_angles init tolerance perf_counter) in
  converged r = false /\
  message r = "Power flow calculation failed: " ++ str e /\
  exists log, calculation_log r = Some log /\ warnings log = [str e].
Proof.
  intros Hraise r. subst r. unfold run_powerflow. cbn [snd].
  rewrite Hraise. cbn [run_powerflow_try].
  destruct (run_powerflow_except_shape e algorithm
              (resolved_max_iteration algorithm explicit) init tolerance
              (perf_counter 0%nat) (perf_counter 1%nat))
    as (Hc & Hm & _ & log & Hlog & Hw & _).
  split; [exact Hc |]. split; [exact Hm |].
  exists log. split; assumption.
Qed.

(** C5: [run_powerflow] returns a result on every input.  Whatever
    exception the [try] block raises - from the solver, from the slack
    aggregation or from the extraction of the results - the returned
    result is not converged and carries the exception text in its
    message and as its only warning; this includes an extraction that
    fails on a network whose convergence flag the solver has set.  So a
    returned result that is converged comes from an extraction that
    completed. *)
Theorem run_powerflow_contains_exceptions
    (runpp : pandapowerNet -> string -> Z -> bool -> bool -> string -> float
             -> SolverOutcome)
    (self : PowerFlowService) (algorithm : string) (explicit : option Z)
    (enforce_q_lims calculate_voltage_angles : bool) (init : string)
    (tolerance : float) (perf_counter : nat -> float) :
  let resolved := resolved_max_iteration algorithm explicit in
  let outcome := runpp (network self) algorithm resolved enforce_q_lims
                       calculate_voltage_angles init tolerance in
  let r := snd (run_powerflow runpp self algorithm explicit enforce_q_lims
                  calculate_voltage_angles init tolerance perf_counter) in
  (forall e,
      run_powerflow_try outcome algorithm resolved init tolerance perf_counter
      = Raise e ->
      converged r = false /\
      message r = "Power flow calculation failed: " ++ str e /\
      exists log, calculation_log r = Some log /\ warnings log = [str e]) /\
  (forall net w totals e,
      outcome = Returned net w ->
      net_converged net = true ->
      slack_totals net true = Ok totals ->
      _extract_results net = Raise e ->
      converged r = false /\
      message r = "Power flow calculation failed: " ++ str e /\
      exists log, calculation_log r = Some log /\ warnings log = [str e]) /\
  (converged r = true ->
   exists net w x, outcome = Returned net w /\ net_converged net = true /\
                   _extract_results net = Ok x).
Proof.
  intros resolved outcome r.
  assert (Hraise : forall e,
      run_powerflow_try outcome algorithm resolved init tolerance perf_counter
      = Raise e ->
      converged r = false /\
      message r = "Power flow calculation failed: " ++ str e /\
      exists log, calculation_log r = Some log /\ warnings log = [str e]).
  { intros e He. subst r. unfold run_powerflow. cbn [snd].
    fold resolved. fold outcome. rewrite He.
    match goal with
    | |- context [run_powerflow_except e ?a ?b ?c ?d ?s ?n] =>
        destruct (run_powerflow_except_shape e a b c d s n)
          as (Hc & Hm & _ & log & Hlog & Hw & _)
    end.
    split; [exact Hc |]. split; [exact Hm |].
    exists log. split; assumption. }
  split; [exact Hraise |]. split.
  - intros net w totals e Hout Hconv Hslack Hextract.
    apply Hraise. rewrite Hout. cbn [run_powerflow_try].
    rewrite Hconv, Hslack. cbn. rewrite Hextract. reflexivity.
  - intros Hconv.
    destruct (run_powerflow_try outcome algorithm resolved init tolerance
                perf_counter) as [r0|e] eqn:Htry.
    + assert (Hr : r = r0).
      { subst r. unfold run_powerflow. cbn [snd].
        fold resolved. fold outcome. rewrite Htry. reflexivity. }
      apply run_powerflow_try_Ok in Htry.
      destruct Htry as (net & w & totals & log & Hout & _ & _ & _ & _ & _ & Hcase).
      destruct Hcase as [(Hnc & _ & _ & x & Hx) | (_ & Hfalse & _)].
      * exists net, w, x. repeat split; assumption.
      * rewrite Hr in Hconv. congruence.
    + destruct (Hraise e eq_refl) as (Hfalse & _). congruence.
Qed.

(** C6: a result returned with [converged = false] has none of the nine
    result tables, and the warnings of its calculation log are not
    empty: they contain the fixed non-convergence notice, or the text of
    the exception that ended the run. *)
Theorem not_converged_result_shape
    (runpp : pandapowerNet -> string -> Z -> bool -> bool -> string -> float
             -> SolverOutcome)
    (self : PowerFlowService) (algorithm : string) (explicit : option Z)
    (enforce_q_lims calculate_voltage_angles : bool) (init : string)
    (tolerance : float) (perf_counter : nat -> float) :
  let resolved := resolved_max_iteration algorithm explicit in
  let outcome := runpp (network self) algorithm resolved enforce_q_lims
                       calculate_voltage_angles init tolerance in
  let r := snd (run_powerflow runpp self algorithm explicit enforce_q_lims
                  calculate_voltage_angles init tolerance perf_counter) in
  converged r = false ->
  no_tables r /\
  exists log,
    calculation_log r = Some log /\
    warnings log <> [] /\
    (In "Power flow did not converge" (warnings log) \/
     exists e,
       run_powerflow_try outcome algorithm resolved init tolerance perf_counter
       = Raise e /\
       In (str e) (warnings log)).
Proof.
  intros resolved outcome r. subst r. unfold run_powerflow. cbn [snd].
  fold resolved. fold outcome.
  destruct (run_powerflow_try outcome algorithm resolved init tolerance
              perf_counter) as [r0|e] eqn:Htry.
  - intros Hconv.
    apply run_powerflow_try_Ok in Htry.
    destruct Htry as (net & w & totals & log & _ & _ & Hlog & _ & _ & _ & Hcase).
    destruct Hcase as [(_ & Htrue & _) | (_ & _ & Hw & _ & Hnone)];
      [congruence |].
    split; [exact Hnone |].
    exists log. split; [exact Hlog |]. rewrite Hw. split.
    + destruct w; discriminate.
    + left. apply in_or_app. right. left. reflexivity.
  - intros _.
    match goal with
    | |- context [run_powerflow_except e ?a ?b ?c ?d ?s ?n] =>
        destruct (run_powerflow_except_shape e a b c d s n)
          as (_ & _ & Hnone & log & Hlog & Hw & _)
    end.
    split; [exact Hnone |].
    exists log. split; [exact Hlog |]. rewrite Hw. split; [discriminate |].
    right. exists e. split; [reflexivity | left; reflexivity].
Qed.

Lemma solver_exception_becomes_result_witness :
  runpp_raises (network sample_service) "nr" (resolved_max_iteration "nr" None)
               false true "auto" (1 # 100000000)%Q
  = Raised sample_net
           (Exception "Power Flow nr did not converge after 10 iterations!") /\
  let r := snd (run_powerflow runpp_raises sample_service "nr" None false true
                  "auto" (1 # 100000000)%Q sample_clock) in
  converged r = false /\
  message r = "Power flow calculation failed: "
              ++ "Power Flow nr did not converge after 10 iterations!" /\
  exists log,
    calculation_log r = Some log /\
    warnings log = ["Power Flow nr did not converge after 10 iterations!"].
Proof.
  split; [reflexivity |].
  apply (solver_exception_becomes_result runpp_raises sample_service "nr" None
           false true "auto" (1 # 100000000)%Q sample_clock sample_net
           (Exception "Power Flow nr did not converge after 10 iterations!")).
  reflexivity.
Defined.

Lemma run_powerflow_contains_exceptions_witness :
  net_converged net_without_res_trafo = true /\
  _extract_results net_without_res_trafo = Raise (AttributeError "res_trafo") /\
  let r := snd (run_powerflow runpp_incomplete sample_service "nr" None false
                  true "auto" (1 # 100000000)%Q sample_clock) in
  converged r = false /\
  message r = "Power flow calculation failed: res_trafo" /\
  exists log, calculation_log r = Some log /\ warnings log = ["res_trafo"].
Proof.
  split; [reflexivity |]. split; [vm_compute; reflexivity |].
  destruct (run_powerflow_contains_exceptions runpp_incomplete sample_service
              "nr" None false true "auto" (1 # 100000000)%Q sample_clock)
    as (_ & Hextract & _).
  destruct (slack_totals net_without_res_trafo true) as [totals|e] eqn:Hslack;
    [| vm_compute in Hslack; discriminate Hslack].
  apply (Hextract net_without_res_trafo [] totals (AttributeError "res_trafo")).
  - reflexivity.
  - reflexivity.
  - exact Hslack.
  - vm_compute. reflexivity.
Defined.

Lemma not_converged_result_shape_witness :
  let r := snd (run_powerflow runpp_diverges sample_service "nr" None false true
                  "auto" (1 # 100000000)%Q sample_clock) in
  converged r = false /\
  no_tables r /\
  exists log,
    calculation_log r = Some log /\
    warnings log <> [] /\
    (In "Power flow did not converge" (warnings log) \/
     exists e,
       run_powerflow_try
         (runpp_diverges (network sample_service) "nr"
            (resolved_max_iteration "nr" None) false true "auto"
            (1 # 100000000)%Q)
         "nr" (resolved_max_iteration "nr" None) "auto" (1 # 100000000)%Q
         sample_clock = Raise e /\
       In (str e) (warnings log)).
Proof.
  intros r.
  assert (Hc : converged r = false) by reflexivity.
  split; [exact Hc |].
  exact (not_converged_result_shape runpp_diverges sample_service "nr" None
           false true "auto" (1 # 100000000)%Q sample_clock Hc).
Defined.

(** ** Loading *)

Section LoaderProperties.

Variable from_json from_excel from_pickle from_sqlite :
  files -> string -> result pyobject.

Lemma load_network_supported (tmp_dir_stem : string) (fs : files)
    (content : list Byte.byte) (fname fmt : string) :
  detect_format fname = Some fmt ->
  let tmp_path := tmp_dir_stem ++ lower (path_suffix fname) in
  let fs1 := <[tmp_path := content]> fs in
  load_network from_json from_excel from_pickle from_sqlite tmp_dir_stem
               ScratchWritten fs content fname
  = (delete tmp_path fs1,
     match load_network_try from_json from_excel from_pickle from_sqlite
                            fs1 tmp_path fname fmt with
     | Ok service => Ok service
     | Raise e =>
         if is_ValueError e then Raise e
         else Raise (ValueError ("Failed to load network: " ++ str e))
     end).
Proof.
  intros Hfmt. unfold load_network. rewrite Hfmt. reflexivity.
Qed.

(** C9: for a filename of a supported format, when the codec of that
    format reads the scratch file, once written, as a network whose bus
    table has no rows, [load_network] raises the [ValueError] of the bus
    check and yields no service - whichever of the formats it is. *)
Theorem zero_bus_network_rejected (tmp_dir_stem : string) (fs : files)
    (content : list Byte.byte) (fname fmt : string)
    (net : pandapowerNet) (bus : ElementTable) :
  detect_format fname = Some fmt ->
  deserialize from_json from_excel from_pickle from_sqlite fmt
    (<[tmp_dir_stem ++ lower (path_suffix fname) := content]> fs)
    (tmp_dir_stem ++ lower (path_suffix fname)) = Ok (PyNet net) ->
  net_elements net !! "bus" = Some bus ->
  el_len bus = 0%nat ->
  snd (load_network from_json from_excel from_pickle from_sqlite tmp_dir_stem
         ScratchWritten fs content fname)
  = Raise (ValueError "Network must contain at least one bus").
Proof.
  intros Hfmt Hcodec Hbus Hlen.
  rewrite (load_network_supported tmp_dir_stem fs content fname fmt Hfmt).
  cbn [snd]. unfold load_network_try. rewrite Hcodec. cbn.
  unfold getattr_element. rewrite Hbus. cbn. rewrite Hlen. reflexivity.
Qed.

(** Once the scratch file is written, [load_network] removes it on
    every path through the [try] block: the scratch path is free
    afterwards and every other file is as before, whether the call
    produced a service or raised. *)
Lemma scratch_file_removed (tmp_dir_stem : string) (fs : files)
    (content : list Byte.byte) (fname fmt : string) :
  detect_format fname = Some fmt ->
  let tmp_path := tmp_dir_stem ++ lower (path_suffix fname) in
  let fs' := fst (load_network from_json from_excel from_pickle from_sqlite
                    tmp_dir_stem ScratchWritten fs content fname) in
  fs' !! tmp_path = None /\
  forall p, p <> tmp_path -> fs' !! p = fs !! p.
Proof.
  intros Hfmt tmp_path fs'. subst fs'.
  rewrite (load_network_supported tmp_dir_stem fs content fname fmt Hfmt).
  cbn [fst]. fold tmp_path. split.
  - apply lookup_delete_eq.
  - intros p Hp.
    rewrite lookup_delete_ne by congruence.
    rewrite lookup_insert_ne by congruence.
    reflexivity.
Qed.

(** A write of the scratch file that breaks off leaves the function
    before the [try] block is entered. *)
Lemma load_network_write_failure (tmp_dir_stem : string) (fs : files)
    (content : list Byte.byte) (fname fmt : string) (e : exn)
    (written : list Byte.byte) :
  detect_format fname = Some fmt ->
  let tmp_path := tmp_dir_stem ++ lower (path_suffix fname) in
  load_network from_json from_excel from_pickle from_sqlite tmp_dir_stem
               (ScratchRefused e) fs content fname = (fs, Raise e) /\
  load_network from_json from_excel from_pickle from_sqlite tmp_dir_stem
               (ScratchBroken e written) fs content fname
  = (<[tmp_path := written]> fs, Raise e).
Proof.
  intros Hfmt tmp_path. unfold load_network. rewrite Hfmt.
  split; reflexivity.
Qed.

End LoaderProperties.

Lemma zero_bus_network_rejected_witness :
  detect_format "grid.SQLITE" = Some "sqlite" /\
  deserialize codec_rejects codec_rejects codec_rejects codec_empty "sqlite"
    (<["/tmp/tmpk3v9" ++ lower (path_suffix "grid.SQLITE") := sample_content]> ∅)
    ("/tmp/tmpk3v9" ++ lower (path_suffix "grid.SQLITE")) = Ok (PyNet empty_net) /\
  net_elements empty_net !! "bus" = Some (table_of [] []) /\
  el_len (table_of [] []) = 0%nat /\
  snd (load_network codec_rejects codec_rejects codec_rejects codec_empty
         "/tmp/tmpk3v9" ScratchWritten ∅ sample_content "grid.SQLITE")
  = Raise (ValueError "Network must contain at least one bus").
Proof.
  assert (H1 : detect_format "grid.SQLITE" = Some "sqlite")
    by (vm_compute; reflexivity).
  assert (H2 : deserialize codec_rejects codec_rejects codec_rejects codec_empty
                 "sqlite"
                 (<["/tmp/tmpk3v9" ++ lower (path_suffix "grid.SQLITE")
                    := sample_content]> ∅)
                 ("/tmp/tmpk3v9" ++ lower (path_suffix "grid.SQLITE"))
               = Ok (PyNet empty_net))
    by (vm_compute; reflexivity).
  assert (H3 : net_elements empty_net !! "bus" = Some (table_of [] []))
    by (vm_compute; reflexivity).
  assert (H4 : el_len (table_of [] []) = 0%nat) by reflexivity.
  repeat (split; [assumption |]).
  exact (zero_bus_network_rejected codec_rejects codec_rejects codec_rejects
           codec_empty "/tmp/tmpk3v9" ∅ sample_content "grid.SQLITE" "sqlite"
           empty_net (table_of [] []) H1 H2 H3 H4).
Defined.

(** C10 fails on the code.  [load_network] receives the bytes of
    [sample_content] under the name case.json, and the write of the
    scratch file breaks off after one byte because the device is full.
    The [OSError] leaves the call as it is, and the scratch file is still
    there, holding that byte: the [with] block that writes the file
    stands before the [try] block whose [finally] clause deletes it.  On
    the same input with the write completed the scratch path is free
    afterwards. *)
Theorem scratch_file_left_after_failed_write :
  let tmp_path := "/tmp/tmpk3v9.json" in
  let full := Exception "[Errno 28] No space left on device" in
  let broken := load_network codec_sample codec_rejects codec_rejects
                  codec_rejects "/tmp/tmpk3v9"
                  (ScratchBroken full (take 1 sample_content)) ∅
                  sample_content "case.json" in
  let written := load_network codec_sample codec_rejects codec_rejects
                   codec_rejects "/tmp/tmpk3v9" ScratchWritten ∅
                   sample_content "case.json" in
  detect_format "case.json" = Some "json" /\
  snd broken = Raise full /\
  fst broken !! tmp_path = Some (take 1 sample_content) /\
  (exists service, snd written = Ok service) /\
  fst written !! tmp_path = None.
Proof.
  cbv zeta.
  split; [vm_compute; reflexivity |].
  split; [vm_compute; reflexivity |].
  split; [vm_compute; reflexivity |].
  split; [eexists; vm_compute; reflexivity |].
  vm_compute. reflexivity.
Qed.

(** ** Session store *)

Lemma get_session_pickled (fs : session_files) (session_id : string)
    (service : PowerFlowService) :
  fs !! _get_session_path session_id = Some (Pickled (session_data_of service)) ->
  get_session fs session_id = Some service.
Proof.
  intros H. unfold get_session, path_exists, pickle_load. rewrite H.
  destruct service. reflexivity.
Qed.

Lemma get_after_create (uuid4 : string) (fs : session_files)
    (service : PowerFlowService) :
  get_session (fst (create_session uuid4 fs service))
              (snd (create_session uuid4 fs service)) = Some service.
Proof.
  apply get_session_pickled. cbn [create_session fst snd].
  unfold pickle_dump. apply lookup_insert_eq.
Qed.

(** C7, as amended: the session written by [create_session] is read
    back by [get_session] under the returned identifier, with the
    network, filename and file format of the service and with the
    service's cached results - which are null for a service on which no
    power flow has run. *)
Theorem created_session_is_retrievable (uuid4 : string) (fs : session_files)
    (service : PowerFlowService) :
  let fs' := fst (create_session uuid4 fs service) in
  let session_id := snd (create_session uuid4 fs service) in
  exists s,
    get_session fs' session_id = Some s /\
    network s = network service /\
    filename s = filename service /\
    file_format s = file_format service /\
    _results s = _results service.
Proof.
  intros fs' session_id. exists service.
  split; [apply get_after_create | repeat split].
Qed.

(** C7, as stated, fails: the session created from a service that holds
    the results of a run is read back with those results, not with
    null. *)
Lemma created_session_keeps_results :
  let fs' := fst (create_session sample_id ∅ solved_service) in
  let session_id := snd (create_session sample_id ∅ solved_service) in
  exists s r,
    get_session fs' session_id = Some s /\
    _results s = Some r /\ converged r = true /\
    _results s <> None.
Proof.
  intros fs' session_id.
  assert (Hsolved : exists r, _results solved_service = Some r /\ converged r = true).
  { eexists. split; [reflexivity | vm_compute; reflexivity]. }
  destruct Hsolved as (r & Hr & Hc).
  exists solved_service, r.
  split; [apply get_after_create |].
  split; [exact Hr |]. split; [exact Hc |].
  rewrite Hr. discriminate.
Qed.

(** *** A read that overlaps an update *)

Lemma service_of_data_of (service : PowerFlowService) :
  service_of_data (session_data_of service) = service.
Proof. destruct service. reflexivity. Qed.

Lemma write_at_next (new : list Byte.byte) (offset : nat) (b : Byte.byte) :
  new !! offset = Some b ->
  write_at offset b (take offset new) = take (S offset) new.
Proof.
  intros Hb. unfold write_at.
  assert (Hlt : (offset < length new)%nat) by (eapply lookup_lt_Some; exact Hb).
  assert (Hlen : length (take offset new) = offset)
    by (rewrite length_take; lia).
  rewrite Hlen, Nat.sub_diag. cbn [replicate]. rewrite app_nil_r.
  rewrite take_take, Nat.min_id.
  rewrite drop_ge by lia.
  symmetry. apply take_S_r. exact Hb.
Qed.

Section TwoWorkers.

Variable dumps : session_data -> list Byte.byte.
Variable unpickle : list Byte.byte -> unpickling.
Variable session_id : string.
Variables pre post : PowerFlowService.

Let path := _get_session_path session_id.
Let old := dumps (session_data_of pre).
Let new := dumps (session_data_of post).
Let run := run_schedule dumps unpickle session_id post.

Lemma step_in_place (who : worker) (c : workers) (p : string) :
  p <> path ->
  w_files (step dumps unpickle session_id post who c) !! p = w_files c !! p.
Proof.
  intros Hp. destruct who; unfold step; cbn [w_files]; [| reflexivity ..].
  destruct (writer_step dumps session_id post (w_pc c) (w_files c))
    as [pc' fs'] eqn:Hw. cbn [w_files].
  unfold writer_step in Hw. fold path in Hw.
  destruct (w_pc c) as [| | offset | ok].
  - destruct (w_files c !! path); inversion Hw; reflexivity.
  - inversion Hw. apply lookup_insert_ne. congruence.
  - destruct (dumps (session_data_of post) !! offset); inversion Hw;
      [apply lookup_alter_ne; congruence | reflexivity].
  - inversion Hw. reflexivity.
Qed.

Lemma invariant_file (c : workers) :
  update_invariant unpickle session_id old new c ->
  file_during_update old new (w_files c !! path).
Proof.
  intros [Hfile _]. fold path in Hfile.
  destruct (w_pc c) as [| | offset | [|]].
  - left. exact Hfile.
  - left. exact Hfile.
  - right. exists offset. exact (proj1 Hfile).
  - right. exists (length new). rewrite firstn_all. exact Hfile.
  - exact Hfile.
Qed.

Lemma mixed_read (buffer content : list Byte.byte) (b : Byte.byte) :
  mixed old new buffer ->
  file_during_update old new (Some content) ->
  content !! length buffer = Some b ->
  mixed old new (buffer ++ [b]).
Proof.
  intros Hmix Hfile Hb i x Hi.
  destruct (decide (i < length buffer)%nat) as [Hlt | Hge].
  - rewrite lookup_app_l in Hi by exact Hlt. exact (Hmix i x Hi).
  - assert (Hlen : (i < length (buffer ++ [b]))%nat)
      by (eapply lookup_lt_Some; exact Hi).
    rewrite length_app in Hlen. cbn in Hlen.
    assert (i = length buffer) by lia. subst i.
    rewrite lookup_app_r in Hi by lia.
    rewrite Nat.sub_diag in Hi. cbn in Hi. injection Hi as <-.
    destruct Hfile as [Hf | [k Hf]]; injection Hf as ->.
    + left. exact Hb.
    + right. apply lookup_take_Some in Hb. exact (proj1 Hb).
Qed.

Lemma step_preserves_invariant (who : worker) (c : workers) :
  update_invariant unpickle session_id old new c ->
  update_invariant unpickle session_id old new
                   (step dumps unpickle session_id post who c).
Proof.
  intros Hinv. pose proof (invariant_file c Hinv) as Hcontent.
  destruct Hinv as [Hfile Hreader]. fold path in Hfile.
  destruct who; unfold step, update_invariant; fold path.
  - destruct (writer_step dumps session_id post (w_pc c) (w_files c))
      as [pc' fs'] eqn:Hw.
    cbn [w_pc r_pc w_files]. split; [| exact Hreader].
    unfold writer_step in Hw. fold path new in Hw.
    destruct (w_pc c) as [| | offset | ok].
    + rewrite Hfile in Hw. inversion Hw; subst. exact Hfile.
    + inversion Hw; subst. rewrite lookup_insert_eq.
      split; [reflexivity | lia].
    + destruct Hfile as [Hfile Hle].
      destruct (new !! offset) as [b |] eqn:Hb; inversion Hw; subst.
      * rewrite lookup_alter_eq, Hfile. cbn.
        rewrite (write_at_next new offset b Hb).
        split; [reflexivity |].
        apply lookup_lt_Some in Hb. lia.
      * apply lookup_ge_None in Hb.
        rewrite take_ge in Hfile by lia. exact Hfile.
    + inversion Hw; subst. exact Hfile.
  - cbn [w_pc r_pc w_files]. split; [| exact Hreader].
    destruct (w_pc c) as [| | offset | ok]; cbn [writer_fails].
    + exact Hfile.
    + left. exact Hfile.
    + right. exists offset. exact (proj1 Hfile).
    + exact Hfile.
  - cbn [w_pc r_pc w_files]. split; [exact Hfile |].
    unfold reader_step. fold path.
    destruct (r_pc c) as [| | buffer | r].
    + destruct (w_files c !! path); [exact I | left; reflexivity].
    + destruct (w_files c !! path); [| left; reflexivity].
      intros i b Hi. rewrite lookup_nil in Hi. discriminate Hi.
    + destruct (unpickle buffer) as [| d |] eqn:Hload.
      * destruct (w_files c !! path) as [content |] eqn:Hf; cbn;
          [| left; reflexivity].
        destruct (content !! length buffer) as [b |] eqn:Hb;
          [| left; reflexivity].
        exact (mixed_read buffer content b Hreader Hcontent Hb).
      * right. exists buffer, d. repeat split; assumption.
      * left. reflexivity.
    + exact Hreader.
Qed.

Lemma run_preserves_invariant (schedule : list worker) (c : workers) :
  update_invariant unpickle session_id old new c ->
  update_invariant unpickle session_id old new (run schedule c).
Proof.
  revert c. induction schedule as [| who schedule IH]; intros c Hinv.
  - exact Hinv.
  - cbn. apply IH. apply step_preserves_invariant. exact Hinv.
Qed.

(** A reader on its own reads the file to its end and returns the
    session pickled there. *)
Lemma reader_from_offset (d : session_data) (n offset : nat) (c : workers) :
  pickles dumps unpickle d ->
  (offset + n = length (dumps d))%nat ->
  w_files c !! path = Some (dumps d) ->
  r_pc c = R_read (take offset (dumps d)) ->
  r_pc (run (repeat Reader (S n)) c) = R_return (Some (service_of_data d)).
Proof.
  intros [Hload Hmore]. revert offset c.
  induction n as [| n IH]; intros offset c Hlen Hfile Hpc.
  - cbn. unfold reader_step. rewrite Hpc.
    rewrite take_ge by lia. rewrite Hload. reflexivity.
  - change (repeat Reader (S (S n))) with (Reader :: repeat Reader (S n)).
    cbn [run run_schedule]. apply (IH (S offset)); [lia | exact Hfile |].
    cbn [step r_pc]. unfold reader_step. fold path. rewrite Hpc.
    rewrite (Hmore offset) by lia. rewrite Hfile. cbn.
    rewrite length_take, Nat.min_l by lia.
    destruct (dumps d !! offset) as [b |] eqn:Hb.
    + rewrite (take_S_r _ _ _ Hb). reflexivity.
    + apply lookup_ge_None in Hb. lia.
Qed.

Lemma reader_alone (d : session_data) (c : workers) :
  pickles dumps unpickle d ->
  w_files c !! path = Some (dumps d) ->
  r_pc c = R_exists ->
  r_pc (run (repeat Reader (length (dumps d) + 3)) c)
  = R_return (Some (service_of_data d)).
Proof.
  intros Hd Hfile Hpc.
  replace (length (dumps d) + 3)%nat with (S (S (S (length (dumps d)))))
    by lia.
  change (repeat Reader (S (S (S (length (dumps d))))))
    with (Reader :: Reader :: repeat Reader (S (length (dumps d)))).
  cbn [run run_schedule].
  apply (reader_from_offset d (length (dumps d)) 0); [exact Hd | lia | exact Hfile |].
  unfold path in *. cbn [step r_pc w_files]. unfold reader_step.
  rewrite Hpc, Hfile. reflexivity.
Qed.

(** A writer on its own writes the whole record and returns [True]. *)
Lemma writer_from_offset (n offset : nat) (c : workers) :
  (offset + n = length new)%nat ->
  w_pc c = W_write offset ->
  w_files c !! path = Some (take offset new) ->
  let c' := run (repeat Writer (S n)) c in
  w_pc c' = W_return true /\ w_files c' !! path = Some new /\ r_pc c' = r_pc c.
Proof.
  revert offset c. induction n as [| n IH]; intros offset c Hlen Hpc Hfile.
  - cbn. unfold writer_step. fold path new. rewrite Hpc.
    assert (Hnone : new !! offset = None) by (apply lookup_ge_None; lia).
    rewrite Hnone. cbn. rewrite Hfile, take_ge by lia.
    repeat split.
  - change (repeat Writer (S (S n))) with (Writer :: repeat Writer (S n)).
    cbn [run run_schedule].
    destruct (new !! offset) as [b |] eqn:Hb;
      [| apply lookup_ge_None in Hb; lia].
    assert (Hstep : step dumps unpickle session_id post Writer c
                    = {| w_pc := W_write (S offset); r_pc := r_pc c;
                         w_files := alter (write_at offset b) path (w_files c) |}).
    { unfold step, writer_step. fold path new. rewrite Hpc, Hb. reflexivity. }
    rewrite Hstep.
    destruct (IH (S offset)
                 {| w_pc := W_write (S offset); r_pc := r_pc c;
                    w_files := alter (write_at offset b) path (w_files c) |})
      as (H1 & H2 & H3); [lia | reflexivity | |].
    + cbn [w_files]. rewrite lookup_alter_eq, Hfile. cbn.
      rewrite (write_at_next new offset b Hb). reflexivity.
    + repeat split; assumption.
Qed.

Lemma writer_alone (c : workers) :
  w_pc c = W_exists ->
  is_Some (w_files c !! path) ->
  let c' := run (repeat Writer (length new + 3)) c in
  w_pc c' = W_return true /\ w_files c' !! path = Some new /\ r_pc c' = r_pc c.
Proof.
  intros Hpc [content Hfile].
  replace (length new + 3)%nat with (S (S (S (length new)))) by lia.
  change (repeat Writer (S (S (S (length new)))))
    with (Writer :: Writer :: repeat Writer (S (length new))).
  cbn [run run_schedule].
  assert (Hstep : step dumps unpickle session_id post Writer
                    (step dumps unpickle session_id post Writer c)
                  = {| w_pc := W_write 0; r_pc := r_pc c;
                       w_files := <[path := []]> (w_files c) |}).
  { unfold step at 2. unfold writer_step. fold path. rewrite Hpc, Hfile.
    reflexivity. }
  rewrite Hstep.
  apply (writer_from_offset (length new) 0
           {| w_pc := W_write 0; r_pc := r_pc c;
              w_files := <[path := []]> (w_files c) |});
    [lia | reflexivity |].
  cbn [w_files]. rewrite lookup_insert_eq, take_0. reflexivity.
Qed.

(** C2, as amended: [update_session] (and, from its open on,
    [create_session]) writes the record in place.  No operation of
    either worker touches a path other than the session's own: there is
    no write to another location and no swap.  While the update is
    under way the file holds all bytes of the old record or the first
    bytes of the new one.  A [get_session] that reads the whole file
    before the update starts returns the pre-update session, one that
    starts after the update has returned returns the post-update
    session; one that overlaps the update, in any interleaving of the
    file operations and whether or not the write succeeds, returns no
    session or the session [pickle.load] decodes from bytes that stand,
    offset by offset, in the old or in the new file - the pre-update
    session, the post-update session, or a record that mixes the
    two. *)
Theorem read_during_update (fs : files) (schedule : list worker)
    (r : option PowerFlowService) :
  pickles dumps unpickle (session_data_of pre) ->
  pickles dumps unpickle (session_data_of post) ->
  fs !! _get_session_path session_id = Some (dumps (session_data_of pre)) ->
  r_pc (run_schedule dumps unpickle session_id post schedule (workers_start fs))
  = R_return r ->
  (forall who c p,
      p <> _get_session_path session_id ->
      w_files (step dumps unpickle session_id post who c) !! p = w_files c !! p) /\
  (forall schedule',
      file_during_update
        (dumps (session_data_of pre)) (dumps (session_data_of post))
        (w_files (run_schedule dumps unpickle session_id post schedule'
                               (workers_start fs))
         !! _get_session_path session_id)) /\
  read_of_mix unpickle (dumps (session_data_of pre))
              (dumps (session_data_of post)) r /\
  r_pc (run_schedule dumps unpickle session_id post
          (repeat Reader (length (dumps (session_data_of pre)) + 3))
          (workers_start fs))
  = R_return (Some pre) /\
  (let written := run_schedule dumps unpickle session_id post
                    (repeat Writer (length (dumps (session_data_of post)) + 3))
                    (workers_start fs) in
   w_pc written = W_return true /\
   r_pc (run_schedule dumps unpickle session_id post
           (repeat Reader (length (dumps (session_data_of post)) + 3)) written)
   = R_return (Some post)).
Proof.
  intros Hpre Hpost Hfile Hret.
  assert (Hinv : update_invariant unpickle session_id old new (workers_start fs)).
  { split; [exact Hfile | exact I]. }
  split; [intros who c p Hp; apply step_in_place; exact Hp |].
  split.
  { intros schedule'. apply invariant_file.
    apply run_preserves_invariant. exact Hinv. }
  split.
  { pose proof (run_preserves_invariant schedule _ Hinv) as [_ Hreader].
    unfold run in Hreader. rewrite Hret in Hreader. exact Hreader. }
  split.
  { pose proof (reader_alone (session_data_of pre) (workers_start fs)
                  Hpre Hfile eq_refl) as H.
    rewrite service_of_data_of in H. exact H. }
  destruct (writer_alone (workers_start fs)) as (Hw & Hnew & Hr);
    [reflexivity | exists (dumps (session_data_of pre)); exact Hfile |].
  split; [exact Hw |].
  pose proof (reader_alone (session_data_of post) _ Hpost Hnew Hr) as H.
  rewrite service_of_data_of in H. exact H.
Qed.

End TwoWorkers.

Lemma sample_pickles :
  pickles dumps_sample unpickle_sample (session_data_of sample_service) /\
  pickles dumps_sample unpickle_sample (session_data_of solved_service).
Proof.
  split; (split; [vm_compute; reflexivity |]);
    intros [| [| [| k]]] Hk; try reflexivity; cbn in Hk; lia.
Qed.

Lemma read_during_update_witness :
  pickles dumps_sample unpickle_sample (session_data_of sample_service) /\
  pickles dumps_sample unpickle_sample (session_data_of solved_service) /\
  sample_files !! _get_session_path sample_id
  = Some (dumps_sample (session_data_of sample_service)) /\
  r_pc (run_schedule dumps_sample unpickle_sample sample_id solved_service
          mixing_schedule (workers_start sample_files))
  = R_return (Some mixed_service) /\
  (forall who c p,
      p <> _get_session_path sample_id ->
      w_files (step dumps_sample unpickle_sample sample_id solved_service who c)
        !! p = w_files c !! p) /\
  (forall schedule',
      file_during_update
        (dumps_sample (session_data_of sample_service))
        (dumps_sample (session_data_of solved_service))
        (w_files (run_schedule dumps_sample unpickle_sample sample_id
                               solved_service schedule'
                               (workers_start sample_files))
         !! _get_session_path sample_id)) /\
  read_of_mix unpickle_sample (dumps_sample (session_data_of sample_service))
              (dumps_sample (session_data_of solved_service))
              (Some mixed_service) /\
  r_pc (run_schedule dumps_sample unpickle_sample sample_id solved_service
          (repeat Reader
                  (length (dumps_sample (session_data_of sample_service)) + 3))
          (workers_start sample_files))
  = R_return (Some sample_service) /\
  (let written := run_schedule dumps_sample unpickle_sample sample_id
                    solved_service
                    (repeat Writer
                       (length (dumps_sample (session_data_of solved_service))
                        + 3))
                    (workers_start sample_files) in
   w_pc written = W_return true /\
   r_pc (run_schedule dumps_sample unpickle_sample sample_id solved_service
           (repeat Reader
                   (length (dumps_sample (session_data_of solved_service)) + 3))
           written)
   = R_return (Some solved_service)).
Proof.
  pose proof sample_pickles as [H1 H2].
  assert (H3 : sample_files !! _get_session_path sample_id
               = Some (dumps_sample (session_data_of sample_service)))
    by apply lookup_insert_eq.
  assert (H4 : r_pc (run_schedule dumps_sample unpickle_sample sample_id
                       solved_service mixing_schedule
                       (workers_start sample_files))
               = R_return (Some mixed_service))
    by (vm_compute; reflexivity).
  repeat (split; [assumption |]).
  exact (read_during_update dumps_sample unpickle_sample sample_id
           sample_service solved_service sample_files mixing_schedule
           (Some mixed_service) H1 H2 H3 H4).
Defined.

(** C2, as stated, fails.  The session of [sample_service] is stored
    and [update_session] writes [solved_service] over it.  The writer's
    open cuts the file at the session's own path, so that for a while no
    complete record is there.  Under [torn_schedule] the reader opens
    the file then, reads its end and returns no session; under
    [mixing_schedule] the reader has read the first byte of the old
    file when the new one is written, reads on, and returns a session
    that was never stored: the network as uploaded with the results of
    the run.  In both cases the writer reports success. *)
Lemma read_overlapping_update_is_torn :
  let start := workers_start sample_files in
  let run := run_schedule dumps_sample unpickle_sample sample_id
                          solved_service in
  w_pc (run torn_schedule start) = W_return true /\
  r_pc (run torn_schedule start) = R_return None /\
  w_files (run [Writer; Writer] start) !! _get_session_path sample_id
  = Some [] /\
  w_pc (run mixing_schedule start) = W_return true /\
  r_pc (run mixing_schedule start) = R_return (Some mixed_service) /\
  ~ reads_whole_record sample_service solved_service (run torn_schedule start) /\
  ~ reads_whole_record sample_service solved_service
      (run mixing_schedule start).
Proof.
  intros start run.
  assert (Hnone : r_pc (run torn_schedule start) = R_return None)
    by (vm_compute; reflexivity).
  assert (Hmix : r_pc (run mixing_schedule start)
                 = R_return (Some mixed_service))
    by (vm_compute; reflexivity).
  split; [vm_compute; reflexivity |].
  split; [exact Hnone |].
  split; [vm_compute; reflexivity |].
  split; [vm_compute; reflexivity |].
  split; [exact Hmix |].
  split.
  - unfold reads_whole_record. rewrite Hnone. intros [H | H]; discriminate H.
  - unfold reads_whole_record. rewrite Hmix. intros [H | H].
    + assert (Heq : mixed_service = sample_service) by congruence.
      apply (f_equal (fun service => is_Some_b (_results service))) in Heq.
      vm_compute in Heq. discriminate Heq.
    + assert (Heq : mixed_service = solved_service) by congruence.
      apply (f_equal (fun service => net_converged (network service))) in Heq.
      vm_compute in Heq. discriminate Heq.
Qed.

(** ** Slack power *)

Lemma loc_mask_isin (labels : list Z) (index : list Z) (vs : list float) :
  loc_mask (isin index labels) vs
  = map snd (List.filter (fun row => existsb (Z.eqb (fst row)) labels)
                         (combine index vs)).
Proof.
  unfold loc_mask, isin. revert vs.
  induction index as [| i index IH]; intros vs; [reflexivity |].
  destruct vs as [| v vs]; [reflexivity |].
  cbn. destruct (existsb (Z.eqb i) labels); cbn; rewrite IH; reflexivity.
Qed.

Lemma masked_index_flag (i : Z) (rows : list (Z * bool)) :
  existsb (Z.eqb i) (map fst (List.filter snd rows))
  = existsb (fun row => Z.eqb (fst row) i && snd row) rows.
Proof.
  induction rows as [| [j b] rows IH]; [reflexivity |].
  cbn. destruct b; cbn.
  - rewrite IH, andb_true_r, (Z.eqb_sym i j). reflexivity.
  - rewrite IH, andb_false_r. reflexivity.
Qed.

(** The mask pipeline of the code selects the rows of slack-flagged
    generators. *)
Lemma slack_rows_selected (gen : ElementTable) (res_gen : DataFrame)
    (slack : list bool) (vs : list float) :
  el_slack gen = Some slack ->
  loc_mask (isin (df_index res_gen) (masked_index (el_index gen) slack)) vs
  = slack_gen_values gen res_gen vs.
Proof.
  intros Hslack. rewrite loc_mask_isin. unfold slack_gen_values. f_equal.
  apply List.filter_ext. intros [i v]. cbn [fst].
  unfold slack_flagged, masked_index. rewrite Hslack.
  apply masked_index_flag.
Qed.

Lemma add_ext_grid_power_spec (df : DataFrame) (acc : SlackTotals) :
  add_ext_grid_power df acc
  = {| total_p_mw := add_sum (total_p_mw acc) (ext_grid_sum df "p_mw");
       total_q_mvar := add_sum (total_q_mvar acc) (ext_grid_sum df "q_mvar");
       has_slack := match ext_grid_sum df "p_mw" with
                    | Some _ => true
                    | None => has_slack acc
                    end |}.
Proof.
  unfold add_ext_grid_power, ext_grid_sum.
  destruct (df_empty df); cbn [negb].
  - destruct acc; reflexivity.
  - destruct (df_column "p_mw" df), (df_column "q_mvar" df);
      destruct acc; reflexivity.
Qed.

Lemma add_slack_gen_power_spec (net : pandapowerNet) (gen : ElementTable)
    (acc t : SlackTotals) :
  net_elements net !! "gen" = Some gen ->
  add_slack_gen_power net acc = Ok t ->
  t = {| total_p_mw := add_sum (total_p_mw acc) (slack_gen_sum net gen "p_mw");
         total_q_mvar := add_sum (total_q_mvar acc) (slack_gen_sum net gen "q_mvar");
         has_slack := match slack_gen_sum net gen "p_mw" with
                      | Some _ => true
                      | None => has_slack acc
                      end |}.
Proof.
  intros Hgen. unfold add_slack_gen_power, getattr_element, slack_gen_sum.
  rewrite Hgen. cbn [mbind result_bind].
  destruct (el_empty gen); cbn [negb].
  { intros H; inversion H; subst; destruct t; reflexivity. }
  destruct (el_slack gen) as [slack |] eqn:Hslack;
    [| intros H; inversion H; subst; destruct t; reflexivity].
  destruct (series_any slack);
    [| intros H; inversion H; subst; destruct t; reflexivity].
  unfold getattr_result.
  destruct (net_results net !! "res_gen") as [res_gen |]; cbn [mbind result_bind];
    [| discriminate].
  destruct (df_empty res_gen); cbn [negb];
    [intros H; inversion H; subst; destruct t; reflexivity |].
  intros H; inversion H; subst; clear H.
  destruct (df_column "p_mw" res_gen) as [ps |],
           (df_column "q_mvar" res_gen) as [qs |];
    cbn [option_map add_sum total_p_mw total_q_mvar has_slack];
    rewrite ?(slack_rows_selected gen res_gen slack) by exact Hslack;
    destruct acc; reflexivity.
Qed.

(** The totals of a successful slack aggregation on a converged
    network. *)
Lemma slack_totals_spec (net : pandapowerNet) (t : SlackTotals) :
  slack_totals net true = Ok t ->
  exists res_ext_grid gen,
    net_results net !! "res_ext_grid" = Some res_ext_grid /\
    net_elements net !! "gen" = Some gen /\
    (if has_slack t then Some (py_round (total_p_mw t) 4) else None,
     if has_slack t then Some (py_round (total_q_mvar t) 4) else None)
    = expected_slack net res_ext_grid gen.
Proof.
  unfold slack_totals, getattr_result.
  destruct (net_results net !! "res_ext_grid") as [res_ext_grid |] eqn:Hext;
    cbn [mbind result_bind]; [| discriminate].
  intros H.
  destruct (net_elements net !! "gen") as [gen |] eqn:Hgen.
  - exists res_ext_grid, gen. split; [reflexivity |]. split; [reflexivity |].
    apply (add_slack_gen_power_spec net gen _ t Hgen) in H.
    rewrite add_ext_grid_power_spec in H. cbn in H. subst t.
    unfold expected_slack. cbn.
    destruct (ext_grid_sum res_ext_grid "p_mw"),
             (slack_gen_sum net gen "p_mw"); reflexivity.
  - unfold add_slack_gen_power, getattr_element in H. rewrite Hgen in H.
    discriminate H.
Qed.

(** *** Rounding does not depend on the fraction that stands for a
    value *)

Lemma round_half_even_Qeq (a b : float) :
  (a == b)%Q -> round_half_even a = round_half_even b.
Proof.
  intros Hab. pose proof (Qfloor_comp a b Hab) as Hfloor.
  destruct a as [n d], b as [n' d']. unfold Qeq in Hab. cbn in Hab, Hfloor.
  unfold round_half_even. cbn [Qnum Qden].
  rewrite (Z.mod_eq n (Zpos d)) by lia.
  rewrite (Z.mod_eq n' (Zpos d')) by lia.
  rewrite <- Hfloor. set (f := n / Zpos d).
  assert (H1 : (2 * (n - Zpos d * f) <? Zpos d)
               = (2 * (n' - Zpos d' * f) <? Zpos d')).
  { destruct (Z.ltb_spec (2 * (n - Zpos d * f)) (Zpos d)),
             (Z.ltb_spec (2 * (n' - Zpos d' * f)) (Zpos d'));
      try reflexivity; exfalso; nia. }
  assert (H2 : (Zpos d <? 2 * (n - Zpos d * f))
               = (Zpos d' <? 2 * (n' - Zpos d' * f))).
  { destruct (Z.ltb_spec (Zpos d) (2 * (n - Zpos d * f))),
             (Z.ltb_spec (Zpos d') (2 * (n' - Zpos d' * f)));
      try reflexivity; exfalso; nia. }
  rewrite H1, H2. reflexivity.
Qed.

Lemma py_round_Qeq (a b : float) (ndigits : Z) :
  (a == b)%Q -> py_round a ndigits = py_round b ndigits.
Proof.
  intros Hab. unfold py_round. cbv zeta.
  rewrite (round_half_even_Qeq (Qmult a (inject_Z (10 ^ ndigits)))
                               (Qmult b (inject_Z (10 ^ ndigits))));
    [reflexivity |].
  rewrite Hab. reflexivity.
Qed.

(** *** The rows behind the sums *)

Lemma some_flag_has_label (index : list Z) (slack : list bool) :
  length slack = length index ->
  series_any slack = true ->
  exists i, In i index /\
            existsb (fun row => Z.eqb (fst row) i && snd row)
                    (combine index slack) = true.
Proof.
  unfold series_any. revert slack.
  induction index as [| j index IH]; intros [| b slack] Hlen Hany;
    try discriminate.
  cbn in Hany. destruct b.
  - exists j. split; [left; reflexivity |].
    cbn. rewrite Z.eqb_refl. reflexivity.
  - cbn in Hany. injection Hlen as Hlen.
    destruct (IH slack Hlen Hany) as (i & Hin & Hflag).
    exists i. split; [right; exact Hin |].
    cbn. rewrite Hflag. apply orb_true_r.
Qed.

Lemma no_flag_no_label (index : list Z) (slack : list bool) (i : Z) :
  series_any slack = false ->
  existsb (fun row => Z.eqb (fst row) i && snd row) (combine index slack)
  = false.
Proof.
  unfold series_any. revert slack.
  induction index as [| j index IH]; intros [| b slack] Hany;
    try reflexivity.
  cbn in Hany. apply orb_false_iff in Hany. destruct Hany as [-> Hany].
  cbn. rewrite andb_false_r. cbn. apply IH. exact Hany.
Qed.

Lemma filter_none {A : Type} (P : A -> bool) (l : list A) :
  (forall x, P x = false) -> List.filter P l = [].
Proof.
  intros HP. induction l as [| x l IH]; [reflexivity |].
  cbn. rewrite HP. exact IH.
Qed.

Lemma slack_gen_values_nil (gen : ElementTable) (res_gen : DataFrame)
    (vs : list float) :
  List.filter (slack_flagged gen) (df_index res_gen) = [] ->
  slack_gen_values gen res_gen vs = [].
Proof.
  unfold slack_gen_values. generalize (df_index res_gen). intros index.
  revert vs. induction index as [| i index IH]; intros vs Hnone;
    [reflexivity |].
  destruct vs as [| v vs]; [reflexivity |].
  cbn in Hnone |- *. destruct (slack_flagged gen i); [discriminate Hnone |].
  apply IH. exact Hnone.
Qed.

Lemma column_makes_columns (c : string) (df : DataFrame) (vs : list float) :
  df_column c df = Some vs -> (length (df_columns df) =? 0)%nat = false.
Proof.
  unfold df_column. destruct (df_columns df); [discriminate | reflexivity].
Qed.

(** The sum over the external grids: none is taken exactly when the
    table has no row, and then the table has no values either. *)
Lemma ext_grid_part (net : pandapowerNet) (df : DataFrame) (c : string) :
  net_results net !! "res_ext_grid" = Some df ->
  power_columns df ->
  c = "p_mw" \/ c = "q_mvar" ->
  (df_index df = [] /\ ext_grid_sum df c = None /\ ext_grid_values net c = [])
  \/
  (df_index df <> [] /\
   ext_grid_sum df c = Some (series_sum (ext_grid_values net c))).
Proof.
  intros Hdf (ps & qs & Hp & Hq & Hlp & Hlq) Hc.
  assert (Hcol : exists vs, df_column c df = Some vs /\
                            length vs = length (df_index df)).
  { destruct Hc as [-> | ->]; eexists; split; eassumption. }
  destruct Hcol as (vs & Hvs & Hlen).
  unfold ext_grid_sum, ext_grid_values, df_empty.
  rewrite Hdf, Hvs, (column_makes_columns c df vs Hvs). cbn [default option_map].
  destruct (df_index df) as [| i index] eqn:Hindex.
  - left. split; [reflexivity |]. split; [reflexivity |].
    destruct vs; [reflexivity | discriminate Hlen].
  - right. split; [discriminate | reflexivity].
Qed.

(** The sum over the slack generators: none is taken exactly when no
    row of the generator result table belongs to a slack-flagged
    generator, and then there are no such values either. *)
Lemma slack_gen_part (net : pandapowerNet) (gen : ElementTable) (c : string) :
  net_elements net !! "gen" = Some gen ->
  solver_tables net ->
  c = "p_mw" \/ c = "q_mvar" ->
  (slack_gen_sum net gen c = None /\ slack_gen_rows net c = [] /\
   forall res_gen, net_results net !! "res_gen" = Some res_gen ->
                   List.filter (slack_flagged gen) (df_index res_gen) = [])
  \/
  (slack_gen_sum net gen c = Some (series_sum (slack_gen_rows net c)) /\
   exists res_gen, net_results net !! "res_gen" = Some res_gen /\
                   List.filter (slack_flagged gen) (df_index res_gen) <> []).
Proof.
  intros Hgen (_ & Hcols & Halign & Hflags) Hc.
  assert (Hnone : (forall res_gen,
                      net_results net !! "res_gen" = Some res_gen ->
                      List.filter (slack_flagged gen) (df_index res_gen) = []) ->
                  slack_gen_rows net c = [] /\
                  forall res_gen,
                    net_results net !! "res_gen" = Some res_gen ->
                    List.filter (slack_flagged gen) (df_index res_gen) = []).
  { intros Hno. split; [| exact Hno]. unfold slack_gen_rows. rewrite Hgen.
    destruct (net_results net !! "res_gen") as [res_gen |]; [| reflexivity].
    destruct (df_column c res_gen); [| reflexivity].
    apply slack_gen_values_nil. apply Hno. reflexivity. }
  assert (Hunflagged : (forall i, slack_flagged gen i = false) ->
                       slack_gen_rows net c = [] /\
                       forall res_gen,
                         net_results net !! "res_gen" = Some res_gen ->
                         List.filter (slack_flagged gen) (df_index res_gen) = []).
  { intros Hfalse. apply Hnone. intros res_gen _. apply filter_none.
    exact Hfalse. }
  assert (Hnorows : el_index gen = [] ->
                    slack_gen_rows net c = [] /\
                    forall res_gen,
                      net_results net !! "res_gen" = Some res_gen ->
                      List.filter (slack_flagged gen) (df_index res_gen) = []).
  { intros Hempty. apply Hnone. intros res_gen Hres.
    rewrite (Halign gen res_gen Hgen Hres), Hempty. reflexivity. }
  clear Hnone.
  unfold slack_gen_sum.
  destruct (el_empty gen) eqn:Hel.
  { left. split; [reflexivity |].
    unfold el_empty in Hel. apply orb_true_iff in Hel.
    destruct Hel as [Hrows | Hcolumns].
    - apply Hnorows.
      apply Nat.eqb_eq in Hrows. destruct (el_index gen); [reflexivity |].
      discriminate Hrows.
    - apply Hunflagged.
      intros i. unfold slack_flagged.
      unfold el_column_count in Hcolumns.
      destruct (el_slack gen); [| reflexivity].
      apply Nat.eqb_eq in Hcolumns. destruct (el_name gen); cbn in Hcolumns; lia. }
  destruct (el_slack gen) as [slack |] eqn:Hslack.
  2:{ left. split; [reflexivity |]. apply Hunflagged.
      intros i. unfold slack_flagged. rewrite Hslack. reflexivity. }
  destruct (series_any slack) eqn:Hany.
  2:{ left. split; [reflexivity |]. apply Hunflagged.
      intros i. unfold slack_flagged. rewrite Hslack.
      apply no_flag_no_label. exact Hany. }
  destruct (net_results net !! "res_gen") as [res_gen |] eqn:Hres.
  2:{ left. split; [reflexivity |].
      split; [unfold slack_gen_rows; rewrite Hgen, Hres; reflexivity |].
      intros res_gen H; discriminate H. }
  destruct (Hcols res_gen eq_refl) as (ps & qs & Hp & Hq & Hlp & Hlq).
  assert (Hcol : exists vs, df_column c res_gen = Some vs).
  { destruct Hc as [-> | ->]; eexists; eassumption. }
  destruct Hcol as (vs & Hvs).
  unfold df_empty. rewrite (column_makes_columns c res_gen vs Hvs), orb_false_r.
  destruct (df_index res_gen) as [| i index] eqn:Hindex.
  { left. split; [reflexivity |]. apply Hnorows.
    rewrite <- (Halign gen res_gen Hgen eq_refl). exact Hindex. }
  right. cbn [length Nat.eqb]. rewrite Hvs. cbn [option_map]. split.
  - unfold slack_gen_rows. rewrite Hgen, Hres, Hvs. reflexivity.
  - exists res_gen. split; [reflexivity |].
    destruct (some_flag_has_label (el_index gen) slack
                (Hflags gen slack Hgen Hslack) Hany) as (j & Hin & Hflag).
    assert (Hrow : In j (List.filter (slack_flagged gen) (df_index res_gen))).
    { apply List.filter_In. split.
      - rewrite (Halign gen res_gen Hgen eq_refl). exact Hin.
      - unfold slack_flagged. rewrite Hslack. exact Hflag. }
    intros Hnil. rewrite Hnil in Hrow. destruct Hrow.
Qed.

(** On the tables of the solver the totals of the code are the two
    sums of the claim, and they are absent exactly when neither class
    of slack element has a result row. *)
Lemma expected_slack_on_solver_tables (net : pandapowerNet)
    (res_ext_grid : DataFrame) (gen : ElementTable) :
  net_results net !! "res_ext_grid" = Some res_ext_grid ->
  net_elements net !! "gen" = Some gen ->
  solver_tables net ->
  (no_slack_result_rows net /\
   expected_slack net res_ext_grid gen = (None, None))
  \/
  (~ no_slack_result_rows net /\
   expected_slack net res_ext_grid gen
   = (Some (py_round (f_add (series_sum (ext_grid_values net "p_mw"))
                            (series_sum (slack_gen_rows net "p_mw"))) 4),
      Some (py_round (f_add (series_sum (ext_grid_values net "q_mvar"))
                            (series_sum (slack_gen_rows net "q_mvar"))) 4))).
Proof.
  intros Hext Hgen Htables.
  pose proof (proj1 Htables res_ext_grid Hext) as Hcols.
  pose proof (ext_grid_part net res_ext_grid "p_mw" Hext Hcols
                (or_introl eq_refl)) as Hep.
  pose proof (ext_grid_part net res_ext_grid "q_mvar" Hext Hcols
                (or_intror eq_refl)) as Heq.
  pose proof (slack_gen_part net gen "p_mw" Hgen Htables (or_introl eq_refl))
    as Hgp.
  pose proof (slack_gen_part net gen "q_mvar" Hgen Htables (or_intror eq_refl))
    as Hgq.
  unfold expected_slack.
  destruct Hep as [(Hi & Hep & Hvp) | (Hi & Hep)];
    destruct Heq as [(Hi' & Heq & Hvq) | (Hi' & Heq)];
    try congruence;
    destruct Hgp as [(Hgp & Hrp & Hno) | (Hgp & res_gen & Hres & Hrows)];
    destruct Hgq as [(Hgq & Hrq & Hno') | (Hgq & res_gen' & Hres' & Hrows')];
    try (exfalso; rewrite Hres' in *; apply Hrows'; apply Hno; reflexivity);
    try (exfalso; apply Hrows; apply Hno'; exact Hres);
    cbv zeta; rewrite ?Hep, ?Heq, ?Hgp, ?Hgq; cbn [add_sum].
  - left. split; [| reflexivity]. split.
    + intros df Hdf. rewrite Hext in Hdf. injection Hdf as <-. exact Hi.
    + intros gen0 res_gen Hgen0 Hres. rewrite Hgen in Hgen0.
      injection Hgen0 as <-. apply Hno. exact Hres.
  - right. split.
    + intros [_ Hnone]. apply Hrows. apply (Hnone gen res_gen Hgen Hres).
    + rewrite Hvp, Hvq. reflexivity.
  - right. split.
    + intros [Hnone _]. apply Hi. apply (Hnone res_ext_grid Hext).
    + rewrite Hrp, Hrq. f_equal; f_equal; apply py_round_Qeq;
        change (series_sum []) with 0%Q; unfold f_add, f_zero;
        rewrite Qplus_0_l, Qplus_0_r; reflexivity.
  - right. split.
    + intros [Hnone _]. apply Hi. apply (Hnone res_ext_grid Hext).
    + f_equal; f_equal; apply py_round_Qeq; unfold f_add, f_zero;
        rewrite Qplus_0_l; reflexivity.
Qed.

(** C1: in the calculation log of every run that returns a converged
    result on tables as the solver leaves them (the result tables carry
    their power columns and the generator result table the labels of
    the generator table), [slack_p_mw] is the sum of [p_mw] over all rows
    of the external-grid result table plus the sum over the generator
    result rows of slack-flagged generators, rounded to 4 digits, and
    [slack_q_mvar] likewise for [q_mvar]; when neither class of element
    has a result row both are [None], not zero; and the two are always
    both present or both absent. *)
Theorem slack_power_of_converged_run
    (runpp : pandapowerNet -> string -> Z -> bool -> bool -> string -> float
             -> SolverOutcome)
    (self : PowerFlowService) (algorithm : string) (explicit : option Z)
    (enforce_q_lims calculate_voltage_angles : bool) (init : string)
    (tolerance : float) (perf_counter : nat -> float) :
  let outcome := runpp (network self) algorithm
                       (resolved_max_iteration algorithm explicit)
                       enforce_q_lims calculate_voltage_angles init tolerance in
  let r := snd (run_powerflow runpp self algorithm explicit enforce_q_lims
                  calculate_voltage_angles init tolerance perf_counter) in
  converged r = true ->
  solver_tables (outcome_network outcome) ->
  exists net w log,
    outcome = Returned net w /\
    net_converged net = true /\
    calculation_log r = Some log /\
    (slack_p_mw log = None <-> slack_q_mvar log = None) /\
    (no_slack_result_rows net ->
     slack_p_mw log = None /\ slack_q_mvar log = None) /\
    (~ no_slack_result_rows net ->
     slack_p_mw log
     = Some (py_round (f_add (series_sum (ext_grid_values net "p_mw"))
                             (series_sum (slack_gen_rows net "p_mw"))) 4) /\
     slack_q_mvar log
     = Some (py_round (f_add (series_sum (ext_grid_values net "q_mvar"))
                             (series_sum (slack_gen_rows net "q_mvar"))) 4)).
Proof.
  intros outcome r. subst r. unfold run_powerflow. cbn [snd]. fold outcome.
  destruct (run_powerflow_try outcome algorithm _ init tolerance perf_counter)
    as [r0 | e] eqn:Htry; [| cbn; discriminate].
  intros Hconv Htables.
  apply run_powerflow_try_Ok in Htry.
  destruct Htry as (net & w & totals & log & Hout & Hslack & Hlog & _ & Hp & Hq & Hcase).
  destruct Hcase as [(Hnc & _ & _ & _) | (_ & Hfalse & _)]; [| congruence].
  rewrite Hnc in Hslack. rewrite Hout in Htables. cbn [outcome_network] in Htables.
  destruct (slack_totals_spec net totals Hslack) as (res_ext_grid & gen & Hext & Hgen & Hexp).
  exists net, w, log.
  split; [exact Hout |]. split; [exact Hnc |]. split; [exact Hlog |].
  rewrite Hp, Hq.
  destruct (expected_slack_on_solver_tables net res_ext_grid gen Hext Hgen Htables)
    as [[Hrows Hnone] | [Hrows Hsome]].
  - rewrite Hnone in Hexp. injection Hexp as Hp' Hq'. rewrite Hp', Hq'.
    split; [split; reflexivity |].
    split; [intros _; split; reflexivity | intros H; contradiction].
  - rewrite Hsome in Hexp. injection Hexp as Hp' Hq'. rewrite Hp', Hq'.
    split; [split; discriminate |].
    split; [intros H; contradiction | intros _; split; reflexivity].
Qed.

Lemma sample_solver_tables : solver_tables solved_net.
Proof.
  split; [| split; [| split]].
  - intros df Hdf. vm_compute in Hdf. injection Hdf as <-.
    eexists _, _. repeat split; reflexivity.
  - intros df Hdf. vm_compute in Hdf. injection Hdf as <-.
    eexists _, _. repeat split; reflexivity.
  - intros gen res_gen Hgen Hres. vm_compute in Hgen, Hres.
    injection Hgen as <-. injection Hres as <-. reflexivity.
  - intros gen slack Hgen Hslack. vm_compute in Hgen. injection Hgen as <-.
    cbn in Hslack. injection Hslack as <-. reflexivity.
Qed.

Lemma slack_power_of_converged_run_witness :
  let outcome := runpp_converges (network sample_service) "nr"
                   (resolved_max_iteration "nr" None) false true "auto"
                   (1 # 100000000)%Q in
  let r := snd (run_powerflow runpp_converges sample_service "nr" None false
                  true "auto" (1 # 100000000)%Q sample_clock) in
  converged r = true /\
  solver_tables (outcome_network outcome) /\
  exists net w log,
    outcome = Returned net w /\
    net_converged net = true /\
    calculation_log r = Some log /\
    (slack_p_mw log = None <-> slack_q_mvar log = None) /\
    (no_slack_result_rows net ->
     slack_p_mw log = None /\ slack_q_mvar log = None) /\
    (~ no_slack_result_rows net ->
     slack_p_mw log
     = Some (py_round (f_add (series_sum (ext_grid_values net "p_mw"))
                             (series_sum (slack_gen_rows net "p_mw"))) 4) /\
     slack_q_mvar log
     = Some (py_round (f_add (series_sum (ext_grid_values net "q_mvar"))
                             (series_sum (slack_gen_rows net "q_mvar"))) 4)).
Proof.
  intros outcome r.
  assert (Hc : converged r = true) by (vm_compute; reflexivity).
  assert (Ht : solver_tables (outcome_network outcome))
    by exact sample_solver_tables.
  split; [exact Hc |]. split; [exact Ht |].
  exact (slack_power_of_converged_run runpp_converges sample_service "nr" None
           false true "auto" (1 # 100000000)%Q sample_clock Hc Ht).
Defined.

(** The hypothesis on the tables cannot be dropped.  [unmatched_net] is
    not as a solver leaves it: its generator result table lacks the row
    of the slack-flagged generator.  It is converged, its external-grid
    result table has no row and none of its generator result rows
    belongs to a slack-flagged generator, yet the log of the run has
    [slack_p_mw] and [slack_q_mvar] present, with the value zero. *)
Example slack_present_without_result_rows :
  let r := snd (run_powerflow runpp_unmatched sample_service "nr" None false
                  true "auto" (1 # 100000000)%Q sample_clock) in
  converged r = true /\
  net_converged unmatched_net = true /\
  no_slack_result_rows unmatched_net /\
  ~ solver_tables unmatched_net /\
  exists log,
    calculation_log r = Some log /\
    slack_p_mw log = Some 0%Q /\
    slack_q_mvar log = Some 0%Q.
Proof.
  intros r.
  split; [vm_compute; reflexivity |].
  split; [reflexivity |].
  split.
  { split.
    + intros df Hdf. vm_compute in Hdf. inversion Hdf. reflexivity.
    + intros gen res_gen Hgen Hres.
      vm_compute in Hgen. vm_compute in Hres.
      inversion Hgen; inversion Hres. reflexivity. }
  split.
  { intros (_ & _ & Halign & _).
    specialize (Halign (gen_table [0; 1] [true; false])
                       {| df_index := [1];
                          df_columns := [("p_mw", [5]%Q); ("q_mvar", [1]%Q)] |}).
    assert (H : [1] = [0; 1]) by (apply Halign; vm_compute; reflexivity).
    discriminate H. }
  eexists. split; [vm_compute; reflexivity |].
  split; reflexivity.
Qed.

(** ** Export *)

Lemma export_of_converged (self : PowerFlowService) (r : PowerFlowResult) :
  _results self = Some r ->
  converged r = true ->
  export_results_to_excel self
  = Ok (table_sheets (result_tables r) ++ [summary_sheet r])%list.
Proof.
  intros Hr Hc. unfold export_results_to_excel. rewrite Hr, Hc. reflexivity.
Qed.

Lemma table_sheets_never_summary (tables : list (string * option TableData)) :
  Forall (fun t => fst t <> "Summary") tables ->
  Forall (fun s => sheet_name s <> "Summary") (table_sheets tables).
Proof.
  induction 1 as [| [name t] tables Hname _ IH];
    cbn [table_sheets]; [constructor |].
  destruct t as [t |]; [| exact IH].
  destruct (0 <? row_count t)%nat; [| exact IH].
  constructor; [exact Hname | exact IH].
Qed.

(** The sentinel stands for an absent value and also for a zero. *)
Lemma or_NA_sentinel (x : option float) :
  or_NA x = VStr "N/A" <->
  x = None \/ exists v, x = Some v /\ f_truthy v = false.
Proof.
  unfold or_NA. destruct x as [v |].
  - destruct (f_truthy v) eqn:Hv; split.
    + discriminate.
    + intros [H | (v' & H & Hv')]; [discriminate H |].
      inversion H; subst. congruence.
    + intros _. right. exists v. split; [reflexivity | exact Hv].
    + reflexivity.
  - split; [intros _; left; reflexivity | reflexivity].
Qed.

(** C3 fails on the code.  The run on [idle_net] converges with a
    maximum loading of 0.0, a present numeric value; the exported
    workbook has one sheet per non-empty table and, last, the Summary
    sheet with its four rows, but the row of the maximum loading shows
    the sentinel N/A instead of the value 0. *)
Theorem zero_max_loading_exported_as_NA :
  (exists r, _results idle_service = Some r /\
             converged r = true /\
             max_loading_percent r = Some 0%Q) /\
  exists sheets,
    export_results_to_excel idle_service = Ok sheets /\
    map sheet_name sheets
    = ["res_bus"; "res_line"; "res_gen"; "res_ext_grid"; "Summary"] /\
    last sheets
    = Some {| sheet_name := "Summary";
              sheet_header := ["Metric"; "Value"];
              sheet_rows :=
                [ [VStr "Converged"; VStr "Yes"];
                  [VStr "Max Loading (%)"; VStr "N/A"];
                  [VStr "Min Voltage (p.u.)"; VFloat (98 # 100)%Q];
                  [VStr "Max Voltage (p.u.)"; VFloat 1%Q] ] |}.
Proof.
  split.
  - eexists. split; [reflexivity |]. split; vm_compute; reflexivity.
  - eexists. split; [vm_compute; reflexivity |].
    split; reflexivity.
Qed.

(** ** Further facts *)

(** A read after an update that has returned [True] sees the updated
    session. *)
Lemma get_after_update (io : session_write) (fs : session_files)
    (session_id : string) (service : PowerFlowService) :
  snd (update_session io fs session_id service) = true ->
  get_session (fst (update_session io fs session_id service)) session_id
  = Some service.
Proof.
  unfold update_session.
  destruct (negb (path_exists (_get_session_path session_id) fs));
    cbn [fst snd]; [discriminate |].
  destruct io; cbn [fst snd]; [| discriminate ..].
  intros _. apply get_session_pickled. unfold pickle_dump.
  apply lookup_insert_eq.
Qed.

(** An update of a session that does not exist changes nothing. *)
Lemma update_missing_session (io : session_write) (fs : session_files)
    (session_id : string) (service : PowerFlowService) :
  fs !! _get_session_path session_id = None ->
  update_session io fs session_id service = (fs, false).
Proof.
  intros H. unfold update_session, path_exists. rewrite H. reflexivity.
Qed.

(** *** Checks on concrete inputs *)

Example detect_format_upper_case : detect_format "Net.JSON" = Some "json".
Proof. vm_compute. reflexivity. Qed.

Example detect_format_pickle : detect_format "/data/grid.pkl" = Some "pickle".
Proof. vm_compute. reflexivity. Qed.

Example detect_format_unknown : detect_format "notes.txt" = None.
Proof. vm_compute. reflexivity. Qed.

Example detect_format_hidden_file : detect_format ".json" = None.
Proof. vm_compute. reflexivity. Qed.

Example resolve_nr : resolved_max_iteration "nr" None = 10.
Proof. unfold resolved_max_iteration. rewrite default_table_lookup. reflexivity. Qed.

Example resolve_gs : resolved_max_iteration "gs" None = 1000.
Proof. unfold resolved_max_iteration. rewrite default_table_lookup. reflexivity. Qed.

Example resolve_unknown : resolved_max_iteration "unknown-xyz" None = 30.
Proof. unfold resolved_max_iteration. rewrite default_table_lookup. reflexivity. Qed.

Example resolve_explicit : resolved_max_iteration "gs" (Some 7) = 7.
Proof. reflexivity. Qed.

Example round_half_to_even : py_round (12345 # 100000)%Q 4 = (617 # 5000)%Q.
Proof. vm_compute. reflexivity. Qed.

Example solved_slack_power :
  option_map (fun log => (slack_p_mw log, slack_q_mvar log))
    (calculation_log
       (snd (run_powerflow runpp_converges sample_service "nr" None false true
               "auto" (1 # 100000000)%Q sample_clock)))
  = Some (Some (16173 # 5000)%Q, Some (3 # 8)%Q).
Proof. vm_compute. reflexivity. Qed.

Example load_sample_file :
  snd (load_network codec_sample codec_rejects codec_rejects codec_rejects
         "/tmp/tmpk3v9" ScratchWritten ∅ sample_content "Case.JSON")
  = Ok (PowerFlowService_init sample_net "Case.JSON" "json").
Proof. vm_compute. reflexivity. Qed.

Example load_rejected_file :
  snd (load_network codec_sample codec_rejects codec_rejects codec_rejects
         "/tmp/tmpk3v9" ScratchWritten ∅ sample_content "grid.db")
  = Raise (ValueError "Failed to load network: file is not a database").
Proof. vm_compute. reflexivity. Qed.

Example export_without_results :
  export_results_to_excel sample_service
  = Raise (ValueError "No converged results available to export").
Proof. reflexivity. Qed.

(** * Further properties of the service *)

(** ** Strings *)

Lemma list_ascii_of_string_app (s t : string) :
  list_ascii_of_string (s ++ t)
  = (list_ascii_of_string s ++ list_ascii_of_string t)%list.
Proof.
  induction s as [| c s IH]; simpl; [reflexivity |].
  f_equal. exact IH.
Qed.

Lemma string_app_inv_tail (s1 s2 t : string) :
  s1 ++ t = s2 ++ t -> s1 = s2.
Proof.
  intros H.
  apply (f_equal list_ascii_of_string) in H.
  rewrite !list_ascii_of_string_app in H.
  apply app_inv_tail in H.
  rewrite <- (string_of_list_ascii_of_string s1),
          <- (string_of_list_ascii_of_string s2), H.
  reflexivity.
Qed.

Lemma session_path_injective (id1 id2 : string) :
  _get_session_path id1 = _get_session_path id2 -> id1 = id2.
Proof.
  unfold _get_session_path, SESSION_DIR. cbn. intros H.
  repeat (injection H as H).
  exact (string_app_inv_tail id1 id2 ".pkl" H).
Qed.

(** ** The session store, operation by operation *)

Lemma get_session_missing (fs : session_files) (session_id : string) :
  fs !! _get_session_path session_id = None ->
  get_session fs session_id = None.
Proof.
  intros H. unfold get_session, path_exists. rewrite H. reflexivity.
Qed.

Lemma get_session_other_path (fs fs' : session_files) (session_id : string) :
  fs' !! _get_session_path session_id = fs !! _get_session_path session_id ->
  get_session fs' session_id = get_session fs session_id.
Proof.
  intros H. unfold get_session, path_exists, pickle_load. rewrite H.
  reflexivity.
Qed.

(** X1: [update_session] returns [True] exactly when a file exists at
    the session's path - whatever that file holds - and the write
    succeeds.  After [True] a following [get_session] returns the
    service just written, results included.  After [False] the store is
    as it was when no file existed or the open was refused; when the
    dump broke off, the file is left cut, and the session that may have
    been readable before is not readable any more.  An update never
    creates a session. *)
Theorem update_session_outcome (io : session_write) (fs : session_files)
    (session_id : string) (service : PowerFlowService) :
  names_session_file session_id = true ->
  let updated := update_session io fs session_id service in
  (snd updated = true <->
   is_Some (fs !! _get_session_path session_id) /\ io = SessionWritten) /\
  (snd updated = true ->
   get_session (fst updated) session_id = Some service) /\
  (snd updated = false ->
   match fs !! _get_session_path session_id, io with
   | Some _, DumpBroken =>
       fst updated = <[_get_session_path session_id := Partial]> fs /\
       get_session (fst updated) session_id = None
   | Some _, _ => fst updated = fs
   | None, _ => fst updated = fs /\ get_session (fst updated) session_id = None
   end).
Proof.
  intros _ updated. subst updated. unfold update_session, path_exists.
  destruct (fs !! _get_session_path session_id) as [f |] eqn:Hf; cbn [negb].
  - destruct io; cbn [fst snd].
    + split; [split; [intros _; split; [eexists |]; reflexivity | reflexivity] |].
      split; [| discriminate].
      intros _. apply get_session_pickled. unfold pickle_dump.
      apply lookup_insert_eq.
    + split; [split; [discriminate | intros [_ H]; discriminate H] |].
      split; [discriminate | reflexivity].
    + split; [split; [discriminate | intros [_ H]; discriminate H] |].
      split; [discriminate |].
      intros _. split; [reflexivity |].
      unfold get_session, path_exists, pickle_load, open_wb.
      rewrite lookup_insert_eq. reflexivity.
  - cbn [fst snd].
    split; [split; [discriminate | intros [[x Hx] _]; discriminate Hx] |].
    split; [discriminate |].
    intros _. destruct io; (split; [reflexivity |]);
      apply get_session_missing; exact Hf.
Qed.

Lemma update_session_outcome_witness :
  names_session_file sample_id = true /\
  let updated := update_session DumpBroken sample_store sample_id
                   solved_service in
  (snd updated = true <->
   is_Some (sample_store !! _get_session_path sample_id) /\
   DumpBroken = SessionWritten) /\
  (snd updated = true ->
   get_session (fst updated) sample_id = Some solved_service) /\
  (snd updated = false ->
   match sample_store !! _get_session_path sample_id, DumpBroken with
   | Some _, DumpBroken =>
       fst updated = <[_get_session_path sample_id := Partial]> sample_store /\
       get_session (fst updated) sample_id = None
   | Some _, _ => fst updated = sample_store
   | None, _ =>
       fst updated = sample_store /\ get_session (fst updated) sample_id = None
   end).
Proof.
  assert (H : names_session_file sample_id = true) by (vm_compute; reflexivity).
  split; [exact H |].
  exact (update_session_outcome DumpBroken sample_store sample_id
           solved_service H).
Defined.

(** X2: an update whose write succeeds also succeeds on a session whose
    file is an incomplete pickle, which [get_session] reports as
    absent: the existence test looks at the path only, and the write
    replaces the unreadable record by a readable one.  An update whose
    write fails returns [False] there and leaves the session
    unreadable. *)
Theorem update_session_repairs_partial (fs : session_files)
    (session_id : string) (service : PowerFlowService) :
  names_session_file session_id = true ->
  fs !! _get_session_path session_id = Some Partial ->
  get_session fs session_id = None /\
  snd (update_session SessionWritten fs session_id service) = true /\
  get_session (fst (update_session SessionWritten fs session_id service))
              session_id
  = Some service /\
  forall io,
    io <> SessionWritten ->
    snd (update_session io fs session_id service) = false /\
    get_session (fst (update_session io fs session_id service)) session_id
    = None.
Proof.
  intros _ Hf.
  assert (Hnone : get_session fs session_id = None).
  { unfold get_session, path_exists, pickle_load. rewrite Hf. reflexivity. }
  split; [exact Hnone |].
  unfold update_session, path_exists. rewrite Hf. cbn [negb fst snd].
  split; [reflexivity |].
  split; [apply get_session_pickled; unfold pickle_dump; apply lookup_insert_eq |].
  intros io Hio. destruct io; [congruence | |]; cbn [fst snd].
  - split; [reflexivity | exact Hnone].
  - split; [reflexivity |].
    unfold get_session, path_exists, pickle_load, open_wb.
    rewrite lookup_insert_eq. reflexivity.
Qed.

(** X3: [delete_session] returns [True] exactly when a file exists at
    the session's path and the unlink succeeds.  After [True] the
    session is absent: [get_session] returns [None], and
    [update_session] and a second delete return [False], whatever their
    file operations would do.  After [False] the store is as it was: a
    session whose unlink was refused is still there. *)
Theorem delete_session_outcome (io : session_unlink) (fs : session_files)
    (session_id : string) (service : PowerFlowService) :
  names_session_file session_id = true ->
  let deleted := delete_session io fs session_id in
  (snd deleted = true <->
   is_Some (fs !! _get_session_path session_id) /\ io = Unlinked) /\
  (snd deleted = true ->
   get_session (fst deleted) session_id = None /\
   (forall w, snd (update_session w (fst deleted) session_id service) = false) /\
   (forall u, snd (delete_session u (fst deleted) session_id) = false)) /\
  (snd deleted = false ->
   fst deleted = fs /\ get_session (fst deleted) session_id = get_session fs session_id).
Proof.
  intros _ deleted. subst deleted.
  assert (Hval : delete_session io fs session_id
                 = match fs !! _get_session_path session_id, io with
                   | Some _, Unlinked =>
                       (delete (_get_session_path session_id) fs, true)
                   | _, _ => (fs, false)
                   end).
  { unfold delete_session, path_exists.
    destruct (fs !! _get_session_path session_id); destruct io; reflexivity. }
  rewrite Hval. clear Hval.
  destruct (fs !! _get_session_path session_id) as [f |] eqn:Hf.
  - destruct io; cbn [fst snd].
    + split; [split; [intros _; split; [eexists |]; reflexivity | reflexivity] |].
      split; [| discriminate].
      intros _.
      assert (Hgone : delete (_get_session_path session_id) fs
                      !! _get_session_path session_id = None)
        by apply lookup_delete_eq.
      split; [apply get_session_missing; exact Hgone |].
      split.
      * intros w. unfold update_session, path_exists. rewrite Hgone.
        reflexivity.
      * intros u. unfold delete_session, path_exists. rewrite Hgone.
        reflexivity.
    + split; [split; [discriminate | intros [_ H]; discriminate H] |].
      split; [discriminate |]. intros _. split; reflexivity.
  - cbn [fst snd].
    split; [split; [discriminate | intros [[x Hx] _]; discriminate Hx] |].
    split; [discriminate |]. intros _. split; reflexivity.
Qed.

Lemma delete_session_outcome_witness :
  names_session_file sample_id = true /\
  let deleted := delete_session Unlinked sample_store sample_id in
  (snd deleted = true <->
   is_Some (sample_store !! _get_session_path sample_id) /\
   Unlinked = Unlinked) /\
  (snd deleted = true ->
   get_session (fst deleted) sample_id = None /\
   (forall w,
       snd (update_session w (fst deleted) sample_id solved_service) = false) /\
   (forall u, snd (delete_session u (fst deleted) sample_id) = false)) /\
  (snd deleted = false ->
   fst deleted = sample_store /\
   get_session (fst deleted) sample_id = get_session sample_store sample_id).
Proof.
  assert (H : names_session_file sample_id = true) by (vm_compute; reflexivity).
  split; [exact H |].
  exact (delete_session_outcome Unlinked sample_store sample_id solved_service H).
Defined.

(** X4: sessions are independent.  For two distinct identifiers that
    each name a file of their own, creating, updating or deleting the
    session of the one - whether or not the file operation succeeds -
    leaves what [get_session] returns for the other unchanged. *)
Theorem other_sessions_untouched (w : session_write) (u : session_unlink)
    (fs : session_files) (session_id other : string)
    (service : PowerFlowService) :
  names_session_file session_id = true ->
  names_session_file other = true ->
  other <> session_id ->
  get_session (fst (create_session session_id fs service)) other
  = get_session fs other /\
  get_session (fst (update_session w fs session_id service)) other
  = get_session fs other /\
  get_session (fst (delete_session u fs session_id)) other
  = get_session fs other.
Proof.
  intros _ _ Hne.
  assert (Hpath : _get_session_path session_id <> _get_session_path other).
  { intros H. apply Hne. symmetry. apply session_path_injective. exact H. }
  split; [| split]; apply get_session_other_path.
  - cbn [create_session fst]. unfold pickle_dump, open_wb.
    rewrite !lookup_insert_ne by exact Hpath. reflexivity.
  - unfold update_session.
    destruct (negb (path_exists (_get_session_path session_id) fs));
      cbn [fst]; [reflexivity |].
    destruct w; cbn [fst]; unfold pickle_dump, open_wb;
      rewrite ?lookup_insert_ne by exact Hpath; reflexivity.
  - unfold delete_session.
    destruct (path_exists (_get_session_path session_id) fs);
      cbn [fst]; [| reflexivity].
    destruct u; cbn [fst]; [| reflexivity].
    rewrite lookup_delete_ne by exact Hpath. reflexivity.
Qed.

Lemma update_session_repairs_partial_witness :
  names_session_file sample_id = true /\
  torn_store !! _get_session_path sample_id = Some Partial /\
  get_session torn_store sample_id = None /\
  snd (update_session SessionWritten torn_store sample_id solved_service)
  = true /\
  get_session (fst (update_session SessionWritten torn_store sample_id
                                   solved_service)) sample_id
  = Some solved_service /\
  forall io,
    io <> SessionWritten ->
    snd (update_session io torn_store sample_id solved_service) = false /\
    get_session (fst (update_session io torn_store sample_id solved_service))
                sample_id
    = None.
Proof.
  assert (H0 : names_session_file sample_id = true)
    by (vm_compute; reflexivity).
  assert (H : torn_store !! _get_session_path sample_id = Some Partial)
    by apply lookup_insert_eq.
  split; [exact H0 |]. split; [exact H |].
  exact (update_session_repairs_partial torn_store sample_id solved_service
           H0 H).
Defined.

Lemma other_sessions_untouched_witness :
  names_session_file sample_id = true /\
  names_session_file other_id = true /\
  other_id <> sample_id /\
  get_session (fst (create_session sample_id sample_store solved_service)) other_id
  = get_session sample_store other_id /\
  get_session (fst (update_session DumpBroken sample_store sample_id
                                   solved_service)) other_id
  = get_session sample_store other_id /\
  get_session (fst (delete_session Unlinked sample_store sample_id)) other_id
  = get_session sample_store other_id.
Proof.
  assert (H1 : names_session_file sample_id = true)
    by (vm_compute; reflexivity).
  assert (H2 : names_session_file other_id = true)
    by (vm_compute; reflexivity).
  assert (H : other_id <> sample_id) by discriminate.
  repeat (split; [assumption |]).
  exact (other_sessions_untouched DumpBroken Unlinked sample_store sample_id
           other_id solved_service H1 H2 H).
Defined.

(** *** The number of sessions *)

Lemma strip_prefix_app (p l : list ascii) :
  strip_prefix p (p ++ l)%list = Some l.
Proof.
  induction p as [| c p IH]; cbn; [reflexivity |].
  rewrite Ascii.eqb_refl. exact IH.
Qed.

Lemma session_path_matches_glob (session_id : string) :
  no_slash session_id = true ->
  matches_session_glob (_get_session_path session_id) = true.
Proof.
  unfold no_slash, matches_session_glob, _get_session_path, SESSION_DIR.
  intros Hid.
  change (list_ascii_of_string ("sessions" ++ "/" ++ session_id ++ ".pkl"))
    with (list_ascii_of_string ("sessions" ++ "/")
          ++ list_ascii_of_string (session_id ++ ".pkl"))%list.
  rewrite strip_prefix_app, list_ascii_of_string_app.
  rewrite existsb_app, rev_app_distr, strip_prefix_app.
  apply negb_true_iff in Hid. rewrite Hid. reflexivity.
Qed.

Lemma names_session_file_no_slash (session_id : string) :
  names_session_file session_id = true -> no_slash session_id = true.
Proof.
  unfold names_session_file. intros H.
  apply andb_true_iff in H. destruct H as [H _].
  apply andb_true_iff in H. exact (proj1 H).
Qed.

(** X5: for an identifier that names a file of its own,
    [create_session] under a path that holds no file raises
    [get_session_count] by one and under an existing path leaves it as
    it is; [update_session] never changes the count, whether its write
    succeeds or fails; [delete_session] lowers it by one when the file
    exists and the unlink succeeds, and leaves it as it is otherwise. *)
Theorem session_count_follows_store (w : session_write) (u : session_unlink)
    (fs : session_files) (session_id : string) (service : PowerFlowService) :
  names_session_file session_id = true ->
  get_session_count (fst (create_session session_id fs service))
  = match fs !! _get_session_path session_id with
    | Some _ => get_session_count fs
    | None => S (get_session_count fs)
    end /\
  get_session_count (fst (update_session w fs session_id service))
  = get_session_count fs /\
  get_session_count (fst (delete_session u fs session_id))
  = match fs !! _get_session_path session_id, u with
    | Some _, Unlinked => pred (get_session_count fs)
    | _, _ => get_session_count fs
    end.
Proof.
  intros Hname.
  pose proof (session_path_matches_glob session_id
                (names_session_file_no_slash session_id Hname)) as Hglob.
  set (p := _get_session_path session_id) in *.
  assert (Hcut : forall f' f,
             fs !! p = Some f ->
             get_session_count (<[p := f']> fs) = get_session_count fs).
  { intros f' f Hf. unfold get_session_count.
    rewrite map_filter_insert_True by exact Hglob.
    apply map_size_insert_Some. exists f.
    apply map_lookup_filter_Some_2; [exact Hf | exact Hglob]. }
  assert (Hwrite : forall d,
             get_session_count (pickle_dump d p (open_wb p fs))
             = match fs !! p with
               | Some _ => get_session_count fs
               | None => S (get_session_count fs)
               end).
  { intros d. unfold pickle_dump, open_wb. rewrite insert_insert_eq.
    destruct (fs !! p) as [f |] eqn:Hf; [exact (Hcut _ f eq_refl) |].
    unfold get_session_count.
    rewrite map_filter_insert_True by exact Hglob.
    apply map_size_insert_None.
    apply map_lookup_filter_None_2. left. exact Hf. }
  split; [| split].
  - cbn [create_session fst]. fold p. apply Hwrite.
  - unfold update_session, path_exists. fold p.
    destruct (fs !! p) as [f |] eqn:Hf; cbn [negb fst]; [| reflexivity].
    destruct w; cbn [fst].
    + rewrite Hwrite. reflexivity.
    + reflexivity.
    + unfold open_wb. exact (Hcut _ f eq_refl).
  - unfold delete_session, path_exists. fold p.
    destruct (fs !! p) as [f |] eqn:Hf; cbn [fst]; [| destruct u; reflexivity].
    destruct u; cbn [fst]; [| reflexivity].
    unfold get_session_count. rewrite map_filter_delete.
    apply map_size_delete_Some. exists f.
    apply map_lookup_filter_Some_2; [exact Hf | exact Hglob].
Qed.

Lemma session_count_follows_store_witness :
  names_session_file sample_id = true /\
  get_session_count (fst (create_session sample_id ∅ sample_service))
  = match (∅ : session_files) !! _get_session_path sample_id with
    | Some _ => get_session_count ∅
    | None => S (get_session_count ∅)
    end /\
  get_session_count (fst (update_session SessionWritten ∅ sample_id
                                         sample_service))
  = get_session_count ∅ /\
  get_session_count (fst (delete_session Unlinked ∅ sample_id))
  = match (∅ : session_files) !! _get_session_path sample_id, Unlinked with
    | Some _, Unlinked => pred (get_session_count ∅)
    | _, _ => get_session_count ∅
    end.
Proof.
  assert (H : names_session_file sample_id = true) by (vm_compute; reflexivity).
  split; [exact H |].
  exact (session_count_follows_store SessionWritten Unlinked ∅ sample_id
           sample_service H).
Defined.

(** ** Format detection *)

Lemma take_while_all {A : Type} (q : A -> bool) (l : list A) :
  forallb q l = true -> take_while q l = l.
Proof.
  induction l as [| x l IH]; cbn; [reflexivity |].
  intros H. apply andb_true_iff in H. destruct H as [Hx Hl].
  rewrite Hx, (IH Hl). reflexivity.
Qed.

Lemma take_while_stop {A : Type} (q : A -> bool) (a b : list A) (x : A) :
  forallb q a = true -> q x = false ->
  take_while q (a ++ x :: b)%list = a.
Proof.
  induction a as [| y a IH]; cbn; intros Ha Hx.
  - rewrite Hx. reflexivity.
  - apply andb_true_iff in Ha. destruct Ha as [Hy Ha].
    rewrite Hy, (IH Ha Hx). reflexivity.
Qed.

Lemma forallb_rev {A : Type} (q : A -> bool) (l : list A) :
  forallb q (rev l) = forallb q l.
Proof.
  induction l as [| x l IH]; cbn; [reflexivity |].
  rewrite forallb_app, IH. cbn. rewrite andb_true_r. apply andb_comm.
Qed.

Lemma forallb_negb_existsb {A : Type} (p : A -> bool) (l : list A) :
  forallb (fun c => negb (p c)) l = negb (existsb p l).
Proof.
  induction l as [| x l IH]; cbn; [reflexivity |].
  rewrite IH, negb_orb. reflexivity.
Qed.

Lemma drop_while_keeps {A : Type} (p : A -> bool) (x : A) (l : list A) :
  p x = false -> drop_while p (x :: l) = x :: l.
Proof. intros H. cbn. rewrite H. reflexivity. Qed.

(** The suffix of a plain file name [stem.t]. *)
Lemma path_suffix_of_name (stem t : string) :
  stem <> "" -> no_slash stem = true ->
  t <> "" -> no_slash t = true -> no_dot t = true ->
  path_suffix (stem ++ String "." t) = String "." t.
Proof.
  unfold no_slash, no_dot. intros Hstem Hs Ht Hts Htd.
  set (Sl := list_ascii_of_string stem) in *.
  set (Tl := list_ascii_of_string t) in *.
  assert (HS : Sl <> []).
  { subst Sl. destruct stem; [congruence | discriminate]. }
  assert (HT : Tl <> []).
  { subst Tl. destruct t; [congruence | discriminate]. }
  assert (Hchars : list_ascii_of_string (stem ++ String "." t)
                   = (Sl ++ "."%char :: Tl)%list).
  { rewrite list_ascii_of_string_app. reflexivity. }
  assert (Hrev : rev (Sl ++ "."%char :: Tl)
                 = (rev Tl ++ "."%char :: rev Sl)%list).
  { rewrite rev_app_distr. cbn. rewrite <- app_assoc. reflexivity. }
  assert (Hq_s : forallb (fun c => negb (is_slash c)) (rev Tl ++ "."%char :: rev Sl)
                 = true).
  { rewrite forallb_app. cbn [forallb].
    rewrite !forallb_rev, !forallb_negb_existsb, Hs, Hts. reflexivity. }
  assert (Hname : path_name (stem ++ String "." t) = (Sl ++ "."%char :: Tl)%list).
  { unfold path_name. rewrite Hchars, Hrev.
    assert (Hdrop : drop_while is_slash (rev Tl ++ "."%char :: rev Sl)
                    = (rev Tl ++ "."%char :: rev Sl)%list).
    { destruct (rev Tl) as [| c r] eqn:Hr.
      - apply (f_equal (@rev ascii)) in Hr. rewrite rev_involutive in Hr.
        contradiction.
      - cbn [app]. apply drop_while_keeps.
        cbn [app forallb] in Hq_s. apply andb_true_iff in Hq_s.
        destruct Hq_s as [Hc _]. apply negb_true_iff in Hc. exact Hc. }
    rewrite Hdrop, (take_while_all _ _ Hq_s), <- Hrev. apply rev_involutive. }
  unfold path_suffix. rewrite Hname, Hrev.
  rewrite (take_while_stop (fun c => negb (is_dot c)) (rev Tl) (rev Sl) "."%char);
    [| rewrite forallb_rev, forallb_negb_existsb; exact Htd | reflexivity].
  rewrite rev_involutive, length_app, length_rev. cbn [length].
  assert (Hlen : ((length Tl <? length Sl + S (length Tl))
                  && (0 <? length Sl + S (length Tl) - length Tl - 1)
                  && (0 <? length Tl))%nat = true).
  { destruct Sl as [| a Sl']; [congruence |].
    destruct Tl as [| b Tl']; [congruence |].
    cbn [length].
    repeat (apply andb_true_iff; split); apply Nat.ltb_lt; lia. }
  rewrite Hlen. subst Tl. cbn [string_of_list_ascii].
  rewrite string_of_list_ascii_of_string. reflexivity.
Qed.

Lemma str_in_In (s : string) (l : list string) :
  str_in s l = true <-> In s l.
Proof.
  unfold str_in. rewrite existsb_exists. split.
  - intros (x & Hx & Heq). apply String.eqb_eq in Heq. subst. exact Hx.
  - intros H. exists s. split; [exact H | apply String.eqb_refl].
Qed.

Lemma first_format_listed (ext : string) (formats : list (string * list string))
    (f : string) :
  first_format ext formats = Some f ->
  exists exts, In (f, exts) formats /\ In ext exts.
Proof.
  induction formats as [| [name exts] formats IH]; cbn; [discriminate |].
  destruct (str_in ext exts) eqn:Hin.
  - intros H. injection H as <-. exists exts.
    split; [left; reflexivity | apply str_in_In; exact Hin].
  - intros H. destruct (IH H) as (exts' & Hf & He).
    exists exts'. split; [right; exact Hf | exact He].
Qed.

(** The extension lists of the table do not overlap: an extension
    listed for a format is detected as that format. *)
Lemma first_format_of_listed (ext f : string) (exts : list string) :
  In (f, exts) FILE_FORMATS -> In ext exts ->
  first_format ext FILE_FORMATS = Some f.
Proof.
  unfold FILE_FORMATS. cbn [In].
  intros [H | [H | [H | [H | []]]]]; injection H as <- <-; cbn [In];
    intros Hext;
    repeat (destruct Hext as [<- | Hext]; [reflexivity |]);
    destruct Hext.
Qed.

(** X6: a file name [stem.t] - a non-empty stem and a non-empty
    extension text, neither holding a slash, the extension holding no
    further dot - is detected as the format that lists the lower-cased
    extension, whatever the letter case of the extension in the name. *)
Theorem detect_format_of_supported_name (stem t f : string) (exts : list string) :
  stem <> "" -> no_slash stem = true ->
  t <> "" -> no_slash t = true -> no_dot t = true ->
  In (f, exts) FILE_FORMATS ->
  In (lower (String "." t)) exts ->
  detect_format (stem ++ String "." t) = Some f.
Proof.
  intros Hstem Hs Ht Hts Htd Hf Hext.
  unfold detect_format.
  rewrite (path_suffix_of_name stem t Hstem Hs Ht Hts Htd).
  exact (first_format_of_listed _ f exts Hf Hext).
Qed.

Lemma detect_format_of_supported_name_witness :
  "Grid 2024.v2" <> "" /\ no_slash "Grid 2024.v2" = true /\
  "XLSX" <> "" /\ no_slash "XLSX" = true /\ no_dot "XLSX" = true /\
  In ("excel", [".xlsx"; ".xls"]) FILE_FORMATS /\
  In (lower (String "." "XLSX")) [".xlsx"; ".xls"] /\
  detect_format ("Grid 2024.v2" ++ String "." "XLSX") = Some "excel".
Proof.
  assert (H1 : "Grid 2024.v2" <> "") by discriminate.
  assert (H2 : no_slash "Grid 2024.v2" = true) by (vm_compute; reflexivity).
  assert (H3 : "XLSX" <> "") by discriminate.
  assert (H4 : no_slash "XLSX" = true) by (vm_compute; reflexivity).
  assert (H5 : no_dot "XLSX" = true) by (vm_compute; reflexivity).
  assert (H6 : In ("excel", [".xlsx"; ".xls"]) FILE_FORMATS)
    by (right; left; reflexivity).
  assert (H7 : In (lower (String "." "XLSX")) [".xlsx"; ".xls"])
    by (left; vm_compute; reflexivity).
  repeat (split; [assumption |]).
  exact (detect_format_of_supported_name "Grid 2024.v2" "XLSX" "excel"
           [".xlsx"; ".xls"] H1 H2 H3 H4 H5 H6 H7).
Defined.

(** X7: the detector and the table the [/formats] endpoint publishes
    agree.  A file name is detected as format [f] exactly when its
    lower-cased suffix is among the extensions published for [f], and
    it is detected as no format exactly when that suffix is none of the
    published extensions. *)
Theorem detect_format_matches_published (fname f : string) :
  (detect_format fname = Some f <->
   exists exts, In (f, exts) (fst api.get_supported_formats) /\
                In (lower (path_suffix fname)) exts) /\
  (detect_format fname = None <->
   ~ In (lower (path_suffix fname)) (snd api.get_supported_formats)).
Proof.
  change (fst api.get_supported_formats) with FILE_FORMATS.
  change (snd api.get_supported_formats) with SUPPORTED_EXTENSIONS.
  unfold detect_format. set (ext := lower (path_suffix fname)).
  split; [split |].
  - apply first_format_listed.
  - intros (exts & Hf & Hext). exact (first_format_of_listed ext f exts Hf Hext).
  - split.
    + intros Hnone Hin.
      assert (Hsome : exists f0, first_format ext FILE_FORMATS = Some f0).
      { unfold SUPPORTED_EXTENSIONS in Hin. apply in_concat in Hin.
        destruct Hin as (exts & Hexts & Hext).
        apply in_map_iff in Hexts. destruct Hexts as ([f0 exts0] & Heq & Hf0).
        cbn in Heq. subst exts0.
        exists f0. exact (first_format_of_listed ext f0 exts Hf0 Hext). }
      destruct Hsome as (f0 & Hf0). congruence.
    + intros Hnot.
      destruct (first_format ext FILE_FORMATS) as [f0 |] eqn:Hdet;
        [| reflexivity].
      exfalso. apply Hnot.
      destruct (first_format_listed ext FILE_FORMATS f0 Hdet)
        as (exts & Hf0 & Hext).
      unfold SUPPORTED_EXTENSIONS. apply in_concat.
      exists exts. split; [| exact Hext].
      apply in_map_iff. exists (f0, exts). split; [reflexivity | exact Hf0].
Qed.

(** ** Loading, case by case *)

Section LoaderCases.

Variable from_json from_excel from_pickle from_sqlite :
  files -> string -> result pyobject.

Lemma detected_format_is_known (fname fmt : string) :
  detect_format fname = Some fmt ->
  fmt = "json" \/ fmt = "excel" \/ fmt = "pickle" \/ fmt = "sqlite".
Proof.
  intros H. apply first_format_listed in H.
  destruct H as (exts & Hf & _). unfold FILE_FORMATS in Hf. cbn [In] in Hf.
  destruct Hf as [H | [H | [H | [H | []]]]]; injection H as <- _; auto.
Qed.

(** X8: a detected format always selects the codec of that format; the
    branch of [load_network] that raises on an unknown format is never
    taken. *)
Theorem detected_format_selects_codec (fname fmt : string) (fs : files)
    (tmp_path : string) :
  detect_format fname = Some fmt ->
  let read := deserialize from_json from_excel from_pickle from_sqlite
                          fmt fs tmp_path in
  (fmt = "json" /\ read = from_json fs tmp_path) \/
  (fmt = "excel" /\ read = from_excel fs tmp_path) \/
  (fmt = "pickle" /\ read = from_pickle fs tmp_path) \/
  (fmt = "sqlite" /\ read = from_sqlite fs tmp_path).
Proof.
  intros H read. subst read.
  destruct (detected_format_is_known fname fmt H) as [-> | [-> | [-> | ->]]].
  - left. split; reflexivity.
  - right. left. split; reflexivity.
  - right. right. left. split; reflexivity.
  - right. right. right. split; reflexivity.
Qed.

(** X9: the classes of the exceptions of [load_network].  For a file
    name of no supported format it raises the [ValueError] of the format
    check before any file is written.  Once the scratch file is written
    it raises nothing but [ValueError], whatever the codecs do: an
    exception of another class is wrapped, its text kept behind the
    prefix of the loader.  An exception of the scratch write itself is
    not wrapped: it leaves [load_network] as it was raised. *)
Theorem load_network_exception_classes (tmp_dir_stem : string)
    (io : scratch_write) (fs : files) (content : list Byte.byte)
    (fname : string) :
  let loaded := snd (load_network from_json from_excel from_pickle from_sqlite
                       tmp_dir_stem io fs content fname) in
  match detect_format fname, io with
  | None, _ =>
      exists msg, loaded = Raise (ValueError msg)
  | Some fmt, ScratchWritten =>
      match loaded with
      | Ok _ => True
      | Raise e =>
          is_ValueError e = true /\
          (forall e0,
              load_network_try from_json from_excel from_pickle from_sqlite
                (<[tmp_dir_stem ++ lower (path_suffix fname) := content]> fs)
                (tmp_dir_stem ++ lower (path_suffix fname)) fname fmt
              = Raise e0 ->
              is_ValueError e0 = false ->
              e = ValueError ("Failed to load network: " ++ str e0))
      end
  | Some _, ScratchRefused e0 | Some _, ScratchBroken e0 _ =>
      loaded = Raise e0
  end.
Proof.
  intros loaded. subst loaded. unfold load_network.
  destruct (detect_format fname) as [fmt |] eqn:Hfmt; cbn [snd].
  - destruct io as [| e0 | e0 written]; cbn [snd]; [| reflexivity | reflexivity].
    cbv zeta.
    destruct (load_network_try _ _ _ _ _ _ fname fmt) as [service | e];
      [exact I |].
    destruct (is_ValueError e) eqn:He.
    + split; [exact He |].
      intros e0 Htry' He0. injection Htry' as <-. congruence.
    + split; [reflexivity |].
      intros e0 Htry' He0. injection Htry' as <-. reflexivity.
  - eexists. reflexivity.
Qed.

(** X10: [load_network] returns a service exactly when the format is
    supported, the scratch file is written, the codec of the format
    reads it as a network, and that network has a bus table with at
    least one row and a line table.  The service then holds that
    network, the file name as given, the detected format, and no
    results. *)
Theorem load_network_success (tmp_dir_stem : string) (io : scratch_write)
    (fs : files) (content : list Byte.byte) (fname : string)
    (service : PowerFlowService) :
  snd (load_network from_json from_excel from_pickle from_sqlite
         tmp_dir_stem io fs content fname) = Ok service
  <->
  exists fmt net bus line,
    io = ScratchWritten /\
    detect_format fname = Some fmt /\
    deserialize from_json from_excel from_pickle from_sqlite fmt
      (<[tmp_dir_stem ++ lower (path_suffix fname) := content]> fs)
      (tmp_dir_stem ++ lower (path_suffix fname)) = Ok (PyNet net) /\
    net_elements net !! "bus" = Some bus /\
    el_len bus <> 0%nat /\
    net_elements net !! "line" = Some line /\
    service = {| network := net; filename := fname; file_format := fmt;
                 _results := None |}.
Proof.
  unfold load_network. split.
  - destruct (detect_format fname) as [fmt |] eqn:Hfmt; cbn [snd];
      [| discriminate].
    destruct io as [| e1 | e1 written]; cbn [snd]; [| discriminate ..].
    unfold load_network_try.
    destruct (deserialize _ _ _ _ fmt _ _) as [[net |] | e0] eqn:Hread;
      cbn [mbind result_bind].
    + unfold getattr_element.
      destruct (net_elements net !! "bus") as [bus |] eqn:Hbus;
        cbn [mbind result_bind]; [| cbn; discriminate].
      destruct (el_len bus =? 0)%nat eqn:Hlen; [cbn; discriminate |].
      destruct (net_elements net !! "line") as [line |] eqn:Hline;
        cbn [mbind result_bind]; [| cbn; discriminate].
      intros H. injection H as <-.
      exists fmt, net, bus, line.
      repeat (split; [first [reflexivity | assumption] |]).
      split; [apply Nat.eqb_neq; exact Hlen |].
      split; [exact Hline | reflexivity].
    + cbn. discriminate.
    + destruct (is_ValueError e0); discriminate.
  - intros (fmt & net & bus & line & -> & Hfmt & Hread & Hbus & Hlen & Hline & ->).
    rewrite Hfmt. cbn [snd]. unfold load_network_try.
    rewrite Hread. cbn [mbind result_bind].
    unfold getattr_element. rewrite Hbus. cbn [mbind result_bind].
    apply Nat.eqb_neq in Hlen. rewrite Hlen, Hline. reflexivity.
Qed.

(** X11: what [load_network] leaves in the file store, when the scratch
    path was not in use.  After a refused or a completed write of the
    scratch file the store is handed back exactly as it was received,
    for a supported and an unsupported file name, whether the [try]
    block produced a service or raised.  After a write that broke off
    the store holds one file more: the scratch file with the bytes
    written. *)
Theorem load_network_restores_store (tmp_dir_stem : string)
    (io : scratch_write) (fs : files) (content : list Byte.byte)
    (fname : string) :
  fs !! (tmp_dir_stem ++ lower (path_suffix fname)) = None ->
  fst (load_network from_json from_excel from_pickle from_sqlite
         tmp_dir_stem io fs content fname)
  = match detect_format fname, io with
    | Some _, ScratchBroken _ written =>
        <[tmp_dir_stem ++ lower (path_suffix fname) := written]> fs
    | _, _ => fs
    end.
Proof.
  intros Hfresh. unfold load_network.
  destruct (detect_format fname); [| destruct io; reflexivity].
  destruct io; cbn [fst]; [| reflexivity ..].
  apply delete_insert_id. exact Hfresh.
Qed.

End LoaderCases.

Lemma detected_format_selects_codec_witness :
  detect_format "backup.PKL" = Some "pickle" /\
  let read := deserialize codec_rejects codec_rejects codec_sample codec_rejects
                "pickle" (<["/tmp/tmpk3v9.pkl" := sample_content]> ∅)
                "/tmp/tmpk3v9.pkl" in
  ("pickle" = "json" /\
   read = codec_rejects (<["/tmp/tmpk3v9.pkl" := sample_content]> ∅)
                        "/tmp/tmpk3v9.pkl") \/
  ("pickle" = "excel" /\
   read = codec_rejects (<["/tmp/tmpk3v9.pkl" := sample_content]> ∅)
                        "/tmp/tmpk3v9.pkl") \/
  ("pickle" = "pickle" /\
   read = codec_sample (<["/tmp/tmpk3v9.pkl" := sample_content]> ∅)
                       "/tmp/tmpk3v9.pkl") \/
  ("pickle" = "sqlite" /\
   read = codec_rejects (<["/tmp/tmpk3v9.pkl" := sample_content]> ∅)
                        "/tmp/tmpk3v9.pkl").
Proof.
  assert (H : detect_format "backup.PKL" = Some "pickle")
    by (vm_compute; reflexivity).
  split; [exact H |].
  exact (detected_format_selects_codec codec_rejects codec_rejects codec_sample
           codec_rejects "backup.PKL" "pickle"
           (<["/tmp/tmpk3v9.pkl" := sample_content]> ∅) "/tmp/tmpk3v9.pkl" H).
Defined.

Lemma load_network_restores_store_witness :
  (∅ : files) !! ("/tmp/tmpk3v9" ++ lower (path_suffix "grid.db")) = None /\
  fst (load_network codec_rejects codec_rejects codec_rejects codec_rejects
         "/tmp/tmpk3v9"
         (ScratchBroken (Exception "[Errno 28] No space left on device")
                        (take 1 sample_content))
         ∅ sample_content "grid.db")
  = match detect_format "grid.db",
          ScratchBroken (Exception "[Errno 28] No space left on device")
                        (take 1 sample_content) with
    | Some _, ScratchBroken _ written =>
        <["/tmp/tmpk3v9" ++ lower (path_suffix "grid.db") := written]> ∅
    | _, _ => ∅
    end.
Proof.
  assert (H : (∅ : files) !! ("/tmp/tmpk3v9" ++ lower (path_suffix "grid.db"))
              = None) by apply lookup_empty.
  split; [exact H |].
  exact (load_network_restores_store codec_rejects codec_rejects codec_rejects
           codec_rejects "/tmp/tmpk3v9"
           (ScratchBroken (Exception "[Errno 28] No space left on device")
                          (take 1 sample_content))
           ∅ sample_content "grid.db" H).
Defined.

(** ** Extracted tables *)

Lemma records_length (index : list Z) (names : option (list string))
    (cols : list (string * list float)) :
  length (records index names cols) = length index.
Proof.
  revert names cols.
  induction index as [| i index IH]; intros names cols; cbn;
    [reflexivity |].
  rewrite IH. reflexivity.
Qed.

Lemma records_labels (index : list Z) (names : option (list string))
    (cols : list (string * list float)) :
  map head (records index names cols)
  = map (fun i => Some ("idx", VInt i)) index.
Proof.
  revert names cols.
  induction index as [| i index IH]; intros names cols; cbn;
    [reflexivity |].
  rewrite IH. reflexivity.
Qed.

Lemma records_names (index : list Z) (ns : list string)
    (cols : list (string * list float)) :
  length ns = length index ->
  map (fun r : list (string * value) => r !! 1%nat) (records index (Some ns) cols)
  = map (fun n => Some ("name", VStr n)) ns.
Proof.
  revert ns cols.
  induction index as [| i index IH]; intros [| n ns] cols Hlen;
    try discriminate; [reflexivity |].
  cbn. injection Hlen as Hlen. rewrite (IH ns _ Hlen). reflexivity.
Qed.

Lemma table_data_cases (net : pandapowerNet) (df : option DataFrame)
    (table_name : string) :
  match _dataframe_to_table_data net df table_name with
  | None => nothing_to_extract df
  | Some t =>
      exists d,
        df = Some d /\ df_empty d = false /\
        row_count t = length (data t) /\
        row_count t = length (df_index d) /\
        map head (data t) = map (fun i => Some ("idx", VInt i)) (df_index d) /\
        columns t
        = ("idx"
             :: match net_elements net !! str_replace "res_" "" table_name with
                | Some element_table =>
                    match el_name element_table with
                    | Some _ => ["name"]
                    | None => []
                    end
                | None => []
                end ++ map fst (df_columns d))%list
  end.
Proof.
  unfold _dataframe_to_table_data, nothing_to_extract.
  destruct df as [d |]; [| left; reflexivity].
  destruct (df_empty d) eqn:Hempty.
  - right. exists d. split; [reflexivity | exact Hempty].
  - exists d. cbn [row_count data columns].
    split; [reflexivity |]. split; [exact Hempty |].
    split; [reflexivity |].
    split; [apply records_length |].
    split; [apply records_labels |].
    rewrite map_map. cbn [fst].
    destruct (net_elements net !! str_replace "res_" "" table_name) as [et |];
      [destruct (el_name et) |]; reflexivity.
Qed.

(** X12: [_dataframe_to_table_data] yields no table exactly for a
    missing or empty frame.  Otherwise [row_count] is the length of the
    row list and the number of rows of the frame, every record starts
    with the row label under the key [idx], in the order of the frame,
    and the column list is [idx], then [name] if the element table has a
    name column, then the columns of the frame in their order. *)
Theorem table_data_shape (net : pandapowerNet) (df : option DataFrame)
    (table_name : string) :
  match _dataframe_to_table_data net df table_name with
  | None => nothing_to_extract df
  | Some t =>
      exists d,
        df = Some d /\ df_empty d = false /\
        row_count t = length (data t) /\
        row_count t = length (df_index d) /\
        map head (data t) = map (fun i => Some ("idx", VInt i)) (df_index d) /\
        columns t
        = ("idx"
             :: match net_elements net !! str_replace "res_" "" table_name with
                | Some element_table =>
                    match el_name element_table with
                    | Some _ => ["name"]
                    | None => []
                    end
                | None => []
                end ++ map fst (df_columns d))%list
  end.
Proof. exact (table_data_cases net df table_name). Qed.

(** *** Device names *)

Lemma drop_while_idempotent {A : Type} (p : A -> bool) (l : list A) :
  drop_while p (drop_while p l) = drop_while p l.
Proof.
  induction l as [| x l IH]; cbn; [reflexivity |].
  destruct (p x) eqn:Hx; [exact IH |]. cbn. rewrite Hx. reflexivity.
Qed.

Lemma drop_while_head {A : Type} (p : A -> bool) (l : list A) :
  match drop_while p l with
  | [] => True
  | x :: _ => p x = false
  end.
Proof.
  induction l as [| x l IH]; cbn; [exact I |].
  destruct (p x) eqn:Hx; [exact IH | exact Hx].
Qed.

Lemma drop_while_app_last {A : Type} (p : A -> bool) (a : list A) (x : A) :
  p x = false ->
  drop_while p (a ++ [x])%list = (drop_while p a ++ [x])%list.
Proof.
  intros Hx. induction a as [| y a IH]; cbn.
  - rewrite Hx. reflexivity.
  - destruct (p y); [exact IH | reflexivity].
Qed.

Lemma strip_chars (s : string) :
  list_ascii_of_string (strip s)
  = rev (drop_while is_space
           (rev (drop_while is_space (list_ascii_of_string s)))).
Proof. unfold strip. apply list_ascii_of_string_of_list_ascii. Qed.

Lemma strip_idempotent (s : string) : strip (strip s) = strip s.
Proof.
  unfold strip at 1. rewrite strip_chars.
  set (l1 := drop_while is_space (list_ascii_of_string s)).
  assert (Hfront : drop_while is_space (rev (drop_while is_space (rev l1)))
                   = rev (drop_while is_space (rev l1))).
  { pose proof (drop_while_head is_space (list_ascii_of_string s)) as Hhead.
    fold l1 in Hhead. destruct l1 as [| x l0]; [reflexivity |].
    cbn [rev]. rewrite (drop_while_app_last _ _ _ Hhead).
    rewrite rev_app_distr. cbn [rev app]. apply drop_while_keeps. exact Hhead. }
  rewrite Hfront, rev_involutive, drop_while_idempotent.
  unfold strip. reflexivity.
Qed.

Lemma device_name_clean (x : option string) :
  device_name x <> "" /\ strip (device_name x) = device_name x.
Proof.
  unfold device_name. destruct x as [s |].
  - destruct (String.eqb (strip s) "") eqn:Hblank.
    + split; [discriminate | reflexivity].
    + split; [apply String.eqb_neq; exact Hblank | apply strip_idempotent].
  - split; [discriminate | reflexivity].
Qed.

(** X13: when the element table of the category has a name column, the
    second entry of every extracted record is the device name under the
    key [name]: the name the element table holds for the row's label,
    stripped of surrounding blanks, and the dash when the label has no
    row there or the name is missing or blank.  A device name is never
    empty and carries no surrounding blanks. *)
Theorem table_data_names (net : pandapowerNet) (d : DataFrame)
    (table_name : string) (element_table : ElementTable)
    (names : list (option string)) (t : TableData) :
  net_elements net !! str_replace "res_" "" table_name = Some element_table ->
  el_name element_table = Some names ->
  _dataframe_to_table_data net (Some d) table_name = Some t ->
  map (fun r : list (string * value) => r !! 1%nat) (data t)
  = map (fun i => Some ("name",
                        VStr (device_name
                                (reindex_name i (el_index element_table) names))))
        (df_index d) /\
  Forall (fun r : list (string * value) =>
            exists n, r !! 1%nat = Some ("name", VStr n) /\
                      n <> "" /\ strip n = n)
         (data t).
Proof.
  intros Het Hnames. unfold _dataframe_to_table_data.
  destruct (df_empty d); [discriminate |].
  rewrite Het, Hnames. intros H. injection H as <-. cbn [data].
  assert (Hmap : forall cols,
             map (fun r : list (string * value) => r !! 1%nat)
               (records (df_index d)
                  (Some (map (fun i => device_name
                                         (reindex_name i (el_index element_table)
                                                       names))
                             (df_index d))) cols)
             = map (fun i => Some ("name",
                                   VStr (device_name
                                           (reindex_name i (el_index element_table)
                                                         names))))
                   (df_index d)).
  { intros cols. rewrite records_names by apply length_map.
    rewrite map_map. reflexivity. }
  split; [apply Hmap |].
  apply List.Forall_forall. intros r Hr.
  assert (Hin : In (r !! 1%nat)
                  (map (fun r : list (string * value) => r !! 1%nat)
                     (records (df_index d)
                        (Some (map (fun i => device_name
                                               (reindex_name i
                                                  (el_index element_table) names))
                                   (df_index d)))
                        (map (fun cv => (fst cv, map (fun v => py_round v 4) (snd cv)))
                             (df_columns d))))).
  { apply in_map. exact Hr. }
  rewrite Hmap in Hin. apply in_map_iff in Hin.
  destruct Hin as (i & Hi & _).
  eexists. split; [symmetry; exact Hi |]. apply device_name_clean.
Qed.

Lemma table_data_names_witness :
  let d := {| df_index := [0; 1];
              df_columns := [("vm_pu", [1; 98 # 100]%Q);
                             ("va_degree", [0; -(1 # 2)]%Q)] |} in
  let bus := table_of [0; 1] [Some "Bus A"; Some "  "] in
  net_elements solved_net !! str_replace "res_" "" "res_bus" = Some bus /\
  el_name bus = Some [Some "Bus A"; Some "  "] /\
  exists t,
    _dataframe_to_table_data solved_net (Some d) "res_bus" = Some t /\
    map (fun r : list (string * value) => r !! 1%nat) (data t)
    = map (fun i => Some ("name",
                          VStr (device_name
                                  (reindex_name i (el_index bus)
                                                [Some "Bus A"; Some "  "]))))
          (df_index d) /\
    Forall (fun r : list (string * value) =>
              exists n, r !! 1%nat = Some ("name", VStr n) /\
                        n <> "" /\ strip n = n)
           (data t).
Proof.
  intros d bus.
  assert (H1 : net_elements solved_net !! str_replace "res_" "" "res_bus"
               = Some bus) by (vm_compute; reflexivity).
  assert (H2 : el_name bus = Some [Some "Bus A"; Some "  "]) by reflexivity.
  split; [exact H1 |]. split; [exact H2 |].
  destruct (_dataframe_to_table_data solved_net (Some d) "res_bus")
    as [t |] eqn:Ht; [| vm_compute in Ht; discriminate Ht].
  exists t. split; [reflexivity |].
  exact (table_data_names solved_net d "res_bus" bus
           [Some "Bus A"; Some "  "] t H1 H2 Ht).
Defined.

(** ** Extraction of the results *)

Lemma extract_results_fields (net : pandapowerNet) (r : PowerFlowResult) :
  _extract_results net = Ok r ->
  exists df_bus df_line df_trafo df_load df_gen df_ext_grid,
    net_results net !! "res_bus" = Some df_bus /\
    net_results net !! "res_line" = Some df_line /\
    net_results net !! "res_trafo" = Some df_trafo /\
    net_results net !! "res_load" = Some df_load /\
    net_results net !! "res_gen" = Some df_gen /\
    net_results net !! "res_ext_grid" = Some df_ext_grid /\
    Forall (fun nt => snd nt
                      = _dataframe_to_table_data net (net_results net !! fst nt)
                                                 (fst nt))
           (result_tables r) /\
    max_loading_percent r
    = (let line_max :=
         if negb (df_empty df_line)
         then option_map series_max (df_column "loading_percent" df_line)
         else None in
       if negb (df_empty df_trafo) then
         match df_column "loading_percent" df_trafo with
         | Some vs => Some (py_max (or_zero line_max) (series_max vs))
         | None => line_max
         end
       else line_max) /\
    (min_vm_pu r, max_vm_pu r)
    = (if negb (df_empty df_bus) then
         match df_column "vm_pu" df_bus with
         | Some vs => (Some (series_min vs), Some (series_max vs))
         | None => (None, None)
         end
       else (None, None)).
Proof.
  unfold _extract_results, getattr_result. intros H.
  destruct (net_results net !! "res_bus") as [df_bus |] eqn:Hbus;
    cbn [mbind result_bind] in H; [| discriminate H].
  destruct (net_results net !! "res_line") as [df_line |] eqn:Hline;
    cbn [mbind result_bind] in H; [| discriminate H].
  destruct (net_results net !! "res_trafo") as [df_trafo |] eqn:Htrafo;
    cbn [mbind result_bind] in H; [| discriminate H].
  destruct (net_results net !! "res_load") as [df_load |] eqn:Hload;
    cbn [mbind result_bind] in H; [| discriminate H].
  destruct (net_results net !! "res_gen") as [df_gen |] eqn:Hgen;
    cbn [mbind result_bind] in H; [| discriminate H].
  destruct (net_results net !! "res_ext_grid") as [df_ext_grid |] eqn:Hext;
    cbn [mbind result_bind] in H; [| discriminate H].
  injection H as <-.
  exists df_bus, df_line, df_trafo, df_load, df_gen, df_ext_grid.
  do 6 (split; [reflexivity |]).
  split.
  - unfold result_tables.
    cbn [res_bus res_line res_trafo res_trafo3w res_load res_gen res_sgen
         res_ext_grid res_shunt].
    repeat constructor; cbn [fst snd];
      rewrite ?Hbus, ?Hline, ?Htrafo, ?Hload, ?Hgen, ?Hext; reflexivity.
  - cbn [max_loading_percent min_vm_pu max_vm_pu]. split.
    + destruct (negb (df_empty df_line));
        [destruct (df_column "loading_percent" df_line) |]; reflexivity.
    + destruct (negb (df_empty df_bus));
        [destruct (df_column "vm_pu" df_bus) |]; reflexivity.
Qed.

(** X14: [_extract_results] succeeds exactly when the network has all
    six result tables it reads as plain attributes (bus, line,
    transformer, load, generator, external grid); otherwise it raises
    the [AttributeError] of the first one missing, in that order.  The
    three optional tables (three-winding transformer, static generator,
    shunt) never make it fail. *)
Theorem extract_results_needs_six_tables (net : pandapowerNet) :
  match first_missing net required_result_tables with
  | Some name => _extract_results net = Raise (AttributeError name)
  | None => exists r, _extract_results net = Ok r
  end.
Proof.
  unfold required_result_tables, first_missing, _extract_results, getattr_result.
  destruct (net_results net !! "res_bus"); cbn [mbind result_bind];
    [| reflexivity].
  destruct (net_results net !! "res_line"); cbn [mbind result_bind];
    [| reflexivity].
  destruct (net_results net !! "res_trafo"); cbn [mbind result_bind];
    [| reflexivity].
  destruct (net_results net !! "res_load"); cbn [mbind result_bind];
    [| reflexivity].
  destruct (net_results net !! "res_gen"); cbn [mbind result_bind];
    [| reflexivity].
  destruct (net_results net !! "res_ext_grid"); cbn [mbind result_bind];
    [| reflexivity].
  eexists. reflexivity.
Qed.

(** X15: in an extracted result each of the nine table fields is
    absent exactly when the network's table of that name is missing or
    empty; a field that is present has a [row_count] that is positive,
    equals the number of rows of the network's table and equals the
    length of its row list. *)
Theorem extracted_tables_follow_network (net : pandapowerNet)
    (r : PowerFlowResult) :
  _extract_results net = Ok r ->
  Forall (fun nt =>
            (snd nt = None <-> nothing_to_extract (net_results net !! fst nt)) /\
            (forall t, snd nt = Some t ->
                       exists d, net_results net !! fst nt = Some d /\
                                 row_count t = length (df_index d) /\
                                 row_count t = length (data t) /\
                                 (0 < row_count t)%nat))
         (result_tables r).
Proof.
  intros H. apply extract_results_fields in H.
  destruct H as (_ & _ & _ & _ & _ & _ & _ & _ & _ & _ & _ & _ & Htables & _).
  eapply Forall_impl; [exact Htables |].
  intros [name field] Hfield. cbn [fst snd] in *.
  pose proof (table_data_cases net (net_results net !! name) name) as Hshape.
  rewrite <- Hfield in Hshape.
  destruct field as [t |].
  - destruct Hshape as (d & Hd & Hempty & Hcount & Hrows & _).
    split.
    + split; [discriminate |].
      intros [Hnone | (d' & Hd' & Hempty')]; [congruence |].
      rewrite Hd in Hd'. injection Hd' as <-. congruence.
    + intros t' Ht'. injection Ht' as <-.
      exists d. repeat (split; [assumption |]).
      rewrite Hrows. unfold df_empty in Hempty.
      apply orb_false_iff in Hempty. destruct Hempty as [Hlen _].
      apply Nat.eqb_neq in Hlen. lia.
  - split; [split; [intros _; exact Hshape | reflexivity] | discriminate].
Qed.

Lemma extracted_tables_follow_network_witness :
  (exists r, _extract_results solved_net = Ok r /\
     Forall (fun nt =>
               (snd nt = None
                <-> nothing_to_extract (net_results solved_net !! fst nt)) /\
               (forall t, snd nt = Some t ->
                          exists d, net_results solved_net !! fst nt = Some d /\
                                    row_count t = length (df_index d) /\
                                    row_count t = length (data t) /\
                                    (0 < row_count t)%nat))
            (result_tables r)).
Proof.
  destruct (_extract_results solved_net) as [r | e] eqn:Hr;
    [| vm_compute in Hr; discriminate Hr].
  exists r. split; [reflexivity |].
  exact (extracted_tables_follow_network solved_net r Hr).
Defined.

(** *** Summary statistics *)

Lemma py_min_le (a b : float) :
  (py_min a b <= a)%Q /\ (py_min a b <= b)%Q.
Proof.
  unfold py_min, f_ltb. destruct (Qle_bool a b) eqn:Hab; cbn [negb].
  - apply Qle_bool_iff in Hab. split; [apply Qle_refl | exact Hab].
  - assert (Hlt : (b < a)%Q).
    { apply Qnot_le_lt. intros H. apply Qle_bool_iff in H. congruence. }
    split; [apply Qlt_le_weak; exact Hlt | apply Qle_refl].
Qed.

Lemma py_max_ge (a b : float) :
  (a <= py_max a b)%Q /\ (b <= py_max a b)%Q.
Proof.
  unfold py_max, f_ltb. destruct (Qle_bool b a) eqn:Hba; cbn [negb].
  - apply Qle_bool_iff in Hba. split; [apply Qle_refl | exact Hba].
  - assert (Hlt : (a < b)%Q).
    { apply Qnot_le_lt. intros H. apply Qle_bool_iff in H. congruence. }
    split; [apply Qlt_le_weak; exact Hlt | apply Qle_refl].
Qed.

Lemma fold_py_min_le (vs : list float) (acc : float) :
  (fold_left py_min vs acc <= acc)%Q.
Proof.
  revert acc. induction vs as [| v vs IH]; intros acc; cbn;
    [apply Qle_refl |].
  eapply Qle_trans; [apply IH | apply (proj1 (py_min_le acc v))].
Qed.

Lemma fold_py_max_ge (vs : list float) (acc : float) :
  (acc <= fold_left py_max vs acc)%Q.
Proof.
  revert acc. induction vs as [| v vs IH]; intros acc; cbn;
    [apply Qle_refl |].
  eapply Qle_trans; [apply (proj1 (py_max_ge acc v)) | apply IH].
Qed.

Lemma series_min_le_max (vs : list float) :
  (series_min vs <= series_max vs)%Q.
Proof.
  destruct vs as [| v vs]; cbn; [apply Qle_refl |].
  eapply Qle_trans; [apply fold_py_min_le | apply fold_py_max_ge].
Qed.

(** X16: in an extracted result the voltage bounds are both present or
    both absent; they are present exactly when the bus result table is
    not empty and has a [vm_pu] column, and then the maximum is not
    below the minimum.  The maximum loading is absent exactly when
    neither the line nor the transformer result table is non-empty with
    a [loading_percent] column. *)
Theorem summary_statistics_presence (net : pandapowerNet) (r : PowerFlowResult) :
  _extract_results net = Ok r ->
  exists df_bus df_line df_trafo,
    net_results net !! "res_bus" = Some df_bus /\
    net_results net !! "res_line" = Some df_line /\
    net_results net !! "res_trafo" = Some df_trafo /\
    (min_vm_pu r = None <-> max_vm_pu r = None) /\
    (min_vm_pu r = None <->
     df_empty df_bus = true \/ df_column "vm_pu" df_bus = None) /\
    (forall lo hi, min_vm_pu r = Some lo -> max_vm_pu r = Some hi ->
                   f_ltb hi lo = false) /\
    (max_loading_percent r = None <->
     (df_empty df_line = true \/ df_column "loading_percent" df_line = None) /\
     (df_empty df_trafo = true \/ df_column "loading_percent" df_trafo = None)).
Proof.
  intros H. apply extract_results_fields in H.
  destruct H as (df_bus & df_line & df_trafo & _ & _ & _ &
                 Hbus & Hline & Htrafo & _ & _ & _ & _ & Hload & Hvm).
  exists df_bus, df_line, df_trafo.
  do 3 (split; [assumption |]).
  assert (Hmin : min_vm_pu r = fst (min_vm_pu r, max_vm_pu r)) by reflexivity.
  assert (Hmax : max_vm_pu r = snd (min_vm_pu r, max_vm_pu r)) by reflexivity.
  rewrite Hvm in Hmin, Hmax. rewrite Hmin, Hmax, Hload. clear Hmin Hmax Hload Hvm.
  split; [| split; [| split]].
  - destruct (df_empty df_bus); cbn;
      [| destruct (df_column "vm_pu" df_bus); cbn];
      split; intros H; first [reflexivity | discriminate H].
  - destruct (df_empty df_bus); cbn.
    + split; [intros _; left; reflexivity | reflexivity].
    + destruct (df_column "vm_pu" df_bus); cbn.
      * split; [discriminate | intros [H | H]; discriminate H].
      * split; [intros _; right; reflexivity | reflexivity].
  - intros lo hi.
    destruct (df_empty df_bus); cbn; [discriminate |].
    destruct (df_column "vm_pu" df_bus) as [vs |]; cbn; [| discriminate].
    intros Hlo Hhi. injection Hlo as <-. injection Hhi as <-.
    unfold f_ltb. apply negb_false_iff. apply Qle_bool_iff.
    apply series_min_le_max.
  - destruct (df_empty df_line); cbn;
      [| destruct (df_column "loading_percent" df_line); cbn];
      (destruct (df_empty df_trafo); cbn;
       [| destruct (df_column "loading_percent" df_trafo); cbn]);
      split;
      first [ discriminate
            | reflexivity
            | intros [[H | H] _]; discriminate H
            | intros [_ [H | H]]; discriminate H
            | intros _; split; first [left; reflexivity | right; reflexivity] ].
Qed.

Lemma summary_statistics_presence_witness :
  exists r,
    _extract_results solved_net = Ok r /\
    exists df_bus df_line df_trafo,
      net_results solved_net !! "res_bus" = Some df_bus /\
      net_results solved_net !! "res_line" = Some df_line /\
      net_results solved_net !! "res_trafo" = Some df_trafo /\
      (min_vm_pu r = None <-> max_vm_pu r = None) /\
      (min_vm_pu r = None <->
       df_empty df_bus = true \/ df_column "vm_pu" df_bus = None) /\
      (forall lo hi, min_vm_pu r = Some lo -> max_vm_pu r = Some hi ->
                     f_ltb hi lo = false) /\
      (max_loading_percent r = None <->
       (df_empty df_line = true \/ df_column "loading_percent" df_line = None) /\
       (df_empty df_trafo = true \/ df_column "loading_percent" df_trafo = None)).
Proof.
  destruct (_extract_results solved_net) as [r | e] eqn:Hr;
    [| vm_compute in Hr; discriminate Hr].
  exists r. split; [reflexivity |].
  exact (summary_statistics_presence solved_net r Hr).
Defined.

(** ** More on the run *)

Lemma run_powerflow_try_message (outcome : SolverOutcome) (algorithm : string)
    (resolved : Z) (init : string) (tolerance : float)
    (perf_counter : nat -> float) (r : PowerFlowResult) :
  run_powerflow_try outcome algorithm resolved init tolerance perf_counter = Ok r ->
  (converged r = true /\ message r = "Power flow converged successfully") \/
  (converged r = false /\ message r = "Power flow did not converge").
Proof.
  destruct outcome as [net w | net e]; cbn [run_powerflow_try]; [| discriminate].
  intros H. apply bind_Ok in H. destruct H as (totals & _ & H).
  destruct (net_converged net).
  - apply bind_Ok in H. destruct H as (x & Hx & H).
    injection H as <-. left. cbn.
    split; [exact (extract_results_converged net x Hx) | reflexivity].
  - injection H as <-. right. split; reflexivity.
Qed.

Section RunFacts.

Variable runpp :
  pandapowerNet -> string -> Z -> bool -> bool -> string -> float -> SolverOutcome.

Variables (self : PowerFlowService) (algorithm : string) (explicit : option Z)
          (enforce_q_lims calculate_voltage_angles : bool) (init : string)
          (tolerance : float) (perf_counter : nat -> float).

Let outcome : SolverOutcome :=
  runpp (network self) algorithm (resolved_max_iteration algorithm explicit)
        enforce_q_lims calculate_voltage_angles init tolerance.

Let returned : PowerFlowResult :=
  snd (run_powerflow runpp self algorithm explicit enforce_q_lims
         calculate_voltage_angles init tolerance perf_counter).

Let attempt : result PowerFlowResult :=
  run_powerflow_try outcome algorithm (resolved_max_iteration algorithm explicit)
                    init tolerance perf_counter.

Lemma returned_cases :
  (exists r0, attempt = Ok r0 /\ returned = r0) \/
  (exists e now,
      attempt = Raise e /\
      returned = run_powerflow_except e algorithm
                   (resolved_max_iteration algorithm explicit) init tolerance
                   (perf_counter 0%nat) now).
Proof.
  unfold returned, run_powerflow. cbn [snd]. fold outcome. fold attempt.
  destruct attempt as [r0 | e].
  - left. exists r0. split; reflexivity.
  - right. eexists e, _. split; reflexivity.
Qed.

(** X17: a result that is not converged carries neither slack power nor
    summary statistics: [slack_p_mw] and [slack_q_mvar] of its
    calculation log and its [max_loading_percent], [min_vm_pu] and
    [max_vm_pu] are all absent. *)
Theorem not_converged_has_no_figures :
  converged returned = false ->
  max_loading_percent returned = None /\
  min_vm_pu returned = None /\
  max_vm_pu returned = None /\
  exists log, calculation_log returned = Some log /\
              slack_p_mw log = None /\ slack_q_mvar log = None.
Proof.
  destruct returned_cases as [(r0 & Htry & ->) | (e & now & _ & ->)].
  - intros Hconv. unfold attempt in Htry.
    destruct outcome as [net w | net e]; cbn [run_powerflow_try] in Htry;
      [| discriminate Htry].
    apply bind_Ok in Htry. destruct Htry as (totals & Hslack & Htry).
    destruct (net_converged net) eqn:Hnc.
    + apply bind_Ok in Htry. destruct Htry as (x & Hx & Htry).
      injection Htry as <-. cbn in Hconv.
      rewrite (extract_results_converged net x Hx) in Hconv. discriminate Hconv.
    + cbn in Hslack. injection Hslack as <-. injection Htry as <-. cbn.
      repeat split. eexists. repeat split.
  - intros _. cbn. repeat split. eexists. repeat split.
Qed.

(** X18: the message tells the three outcomes apart.  A returned result
    is converged exactly when its message is the success text, and a
    result that is not converged carries either the fixed
    non-convergence text or the failure text followed by the message of
    the exception. *)
Theorem message_tells_outcome :
  (converged returned = true <->
   message returned = "Power flow converged successfully") /\
  (converged returned = false ->
   message returned = "Power flow did not converge" \/
   exists e, attempt = Raise e /\
             message returned = "Power flow calculation failed: " ++ str e).
Proof.
  destruct returned_cases as [(r0 & Htry & ->) | (e & now & Htry & ->)].
  - apply run_powerflow_try_message in Htry.
    destruct Htry as [(Hc & Hm) | (Hc & Hm)]; rewrite Hc, Hm.
    + split; [split; reflexivity | discriminate].
    + split; [split; discriminate | intros _; left; reflexivity].
  - split.
    + cbn. split; discriminate.
    + intros _. right. exists e. split; [exact Htry | reflexivity].
Qed.

End RunFacts.

Lemma not_converged_has_no_figures_witness :
  let r := snd (run_powerflow runpp_diverges sample_service "nr" None false true
                  "auto" (1 # 100000000)%Q sample_clock) in
  converged r = false /\
  max_loading_percent r = None /\
  min_vm_pu r = None /\
  max_vm_pu r = None /\
  exists log, calculation_log r = Some log /\
              slack_p_mw log = None /\ slack_q_mvar log = None.
Proof.
  intros r.
  assert (Hc : converged r = false) by reflexivity.
  split; [exact Hc |].
  exact (not_converged_has_no_figures runpp_diverges sample_service "nr" None
           false true "auto" (1 # 100000000)%Q sample_clock Hc).
Defined.

(** X19: the warnings of the solver reach the log in the order of their
    emission, and only when the [try] block completes.  After a solver
    call that returned with the warnings [w], the log of a converged
    result lists exactly [w]; the log of a run that did not converge
    lists [w] followed by the non-convergence notice; and when a later
    step raised, the log lists the exception text alone. *)
Theorem solver_warnings_in_log
    (runpp : pandapowerNet -> string -> Z -> bool -> bool -> string -> float
             -> SolverOutcome)
    (self : PowerFlowService) (algorithm : string) (explicit : option Z)
    (enforce_q_lims calculate_voltage_angles : bool) (init : string)
    (tolerance : float) (perf_counter : nat -> float)
    (net : pandapowerNet) (w : list string) :
  runpp (network self) algorithm (resolved_max_iteration algorithm explicit)
        enforce_q_lims calculate_voltage_angles init tolerance = Returned net w ->
  let r := snd (run_powerflow runpp self algorithm explicit enforce_q_lims
                  calculate_voltage_angles init tolerance perf_counter) in
  exists log,
    calculation_log r = Some log /\
    ((converged r = true /\ warnings log = w) \/
     (converged r = false /\ net_converged net = false /\
      warnings log = (w ++ ["Power flow did not converge"])%list) \/
     (converged r = false /\
      exists e,
        run_powerflow_try (Returned net w) algorithm
          (resolved_max_iteration algorithm explicit) init tolerance perf_counter
        = Raise e /\
        warnings log = [str e])).
Proof.
  intros Hout r. subst r. unfold run_powerflow. cbn [snd]. rewrite Hout.
  destruct (run_powerflow_try (Returned net w) algorithm _ init tolerance
              perf_counter) as [r0 | e] eqn:Htry.
  - apply run_powerflow_try_Ok in Htry.
    destruct Htry as (net0 & w0 & totals & log & Heq & _ & Hlog & _ & _ & _ & Hcase).
    injection Heq as <- <-.
    exists log. split; [exact Hlog |].
    destruct Hcase as [(_ & Hc & Hw & _) | (Hnc & Hc & Hw & _)].
    + left. split; assumption.
    + right. left. repeat split; assumption.
  - eexists. split; [reflexivity |].
    right. right. split; [reflexivity |].
    exists e. split; reflexivity.
Qed.

Lemma solver_warnings_in_log_witness :
  runpp_converges (network sample_service) "nr"
                  (resolved_max_iteration "nr" None) false true "auto"
                  (1 # 100000000)%Q
  = Returned solved_net ["numba not installed"] /\
  let r := snd (run_powerflow runpp_converges sample_service "nr" None false
                  true "auto" (1 # 100000000)%Q sample_clock) in
  exists log,
    calculation_log r = Some log /\
    ((converged r = true /\ warnings log = ["numba not installed"]) \/
     (converged r = false /\ net_converged solved_net = false /\
      warnings log
      = (["numba not installed"] ++ ["Power flow did not converge"])%list) \/
     (converged r = false /\
      exists e,
        run_powerflow_try (Returned solved_net ["numba not installed"]) "nr"
          (resolved_max_iteration "nr" None) "auto" (1 # 100000000)%Q
          sample_clock
        = Raise e /\
        warnings log = [str e])).
Proof.
  split; [reflexivity |].
  exact (solver_warnings_in_log runpp_converges sample_service "nr" None false
           true "auto" (1 # 100000000)%Q sample_clock solved_net
           ["numba not installed"] eq_refl).
Defined.

Lemma default_iterations_range (algorithm : string) :
  10 <= default_iterations algorithm <= 1000.
Proof.
  unfold default_iterations.
  repeat (destruct (String.eqb algorithm _); [lia |]). lia.
Qed.

(** X20: the iteration cap never leaves the range the request schema
    accepts.  Without an explicit value the resolved cap lies between 10
    and 1000 for every algorithm name; with an explicit value between 1
    and 10000 it is that value; so the cap recorded in the log of a run
    started through the endpoint from a valid request is between 1 and
    10000. *)
Theorem resolved_cap_within_bounds
    (runpp : pandapowerNet -> string -> Z -> bool -> bool -> string -> float
             -> SolverOutcome)
    (io : session_write) (store : session_files) (session_id : string)
    (request : PowerFlowRequest) (perf_counter : nat -> float)
    (service : PowerFlowService) :
  request_valid request ->
  get_session store session_id = Some service ->
  10 <= resolved_max_iteration (req_algorithm request) None <= 1000 /\
  exists r log,
    snd (api.run_powerflow runpp io store session_id request perf_counter)
    = Http200 r /\
    calculation_log r = Some log /\
    1 <= max_iteration log <= 10000.
Proof.
  intros Hvalid Hget.
  assert (Hauto : forall a, 10 <= resolved_max_iteration a None <= 1000).
  { intros a. unfold resolved_max_iteration. rewrite default_table_lookup.
    apply default_iterations_range. }
  split; [apply Hauto |].
  unfold api.run_powerflow. rewrite Hget. cbn [snd].
  destruct (run_powerflow_log_cap runpp service (req_algorithm request)
              (req_max_iteration request) (req_enforce_q_lims request)
              (req_calculate_voltage_angles request) (req_init request)
              (req_tolerance_mva request) perf_counter)
    as (log & Hlog & Hcap).
  eexists _, log. split; [reflexivity |]. split; [exact Hlog |].
  rewrite Hcap. unfold request_valid in Hvalid.
  destruct (req_max_iteration request) as [m |].
  - exact Hvalid.
  - specialize (Hauto (req_algorithm request)). lia.
Qed.

Lemma resolved_cap_within_bounds_witness :
  request_valid sample_request /\
  get_session sample_store sample_id = Some sample_service /\
  10 <= resolved_max_iteration (req_algorithm sample_request) None <= 1000 /\
  exists r log,
    snd (api.run_powerflow runpp_converges SessionWritten sample_store
           sample_id sample_request sample_clock)
    = Http200 r /\
    calculation_log r = Some log /\
    1 <= max_iteration log <= 10000.
Proof.
  assert (H1 : request_valid sample_request) by exact I.
  assert (H2 : get_session sample_store sample_id = Some sample_service)
    by apply get_after_create.
  split; [exact H1 |]. split; [exact H2 |].
  exact (resolved_cap_within_bounds runpp_converges SessionWritten sample_store
           sample_id sample_request sample_clock sample_service H1 H2).
Defined.

(** ** The exported workbook *)

Lemma table_sheets_names (tables : list (string * option TableData)) :
  map sheet_name (table_sheets tables) `sublist_of` map fst tables.
Proof.
  induction tables as [| [name t] tables IH]; cbn [table_sheets map fst];
    [constructor |].
  destruct t as [t |]; [| apply sublist_cons; exact IH].
  destruct (0 <? row_count t)%nat; [| apply sublist_cons; exact IH].
  cbn [map table_sheet sheet_name]. apply sublist_skip. exact IH.
Qed.

Lemma table_sheets_In (tables : list (string * option TableData)) (s : Sheet) :
  In s (table_sheets tables) <->
  exists name t, In (name, Some t) tables /\ (0 < row_count t)%nat /\
                 s = table_sheet name t.
Proof.
  induction tables as [| [name t] tables IH]; cbn [table_sheets].
  - split; [intros [] | intros (name & t & [] & _)].
  - assert (Hskip : In s (table_sheets tables) ->
                    exists name0 t0, In (name0, Some t0) ((name, t) :: tables) /\
                                     (0 < row_count t0)%nat /\
                                     s = table_sheet name0 t0).
    { intros H. apply IH in H. destruct H as (n0 & t0 & Hin & Hpos & Hs).
      exists n0, t0. split; [right; exact Hin | split; assumption]. }
    destruct t as [t |].
    + destruct (0 <? row_count t)%nat eqn:Hpos.
      * split.
        -- intros [<- | H]; [| exact (Hskip H)].
           exists name, t. split; [left; reflexivity |].
           split; [apply Nat.ltb_lt; exact Hpos | reflexivity].
        -- intros (n0 & t0 & [Heq | Hin] & Hpos0 & ->).
           ++ injection Heq as <- <-. left. reflexivity.
           ++ right. apply IH. exists n0, t0. repeat split; assumption.
      * split; [exact Hskip |].
        intros (n0 & t0 & [Heq | Hin] & Hpos0 & ->).
        -- injection Heq as <- <-. apply Nat.ltb_lt in Hpos0. congruence.
        -- apply IH. exists n0, t0. repeat split; assumption.
    + split; [exact Hskip |].
      intros (n0 & t0 & [Heq | Hin] & Hpos0 & ->); [discriminate Heq |].
      apply IH. exists n0, t0. repeat split; assumption.
Qed.

(** X21: the workbook of a converged result.  The export succeeds; the
    sheets are, in the order of the nine table categories, one sheet
    for every table that is present with a positive [row_count], named
    after its category, and then the Summary sheet as the last one; no
    two sheets share a name, and there are at most ten. *)
Theorem export_workbook_shape (self : PowerFlowService) (r : PowerFlowResult) :
  _results self = Some r ->
  converged r = true ->
  exists sheets,
    export_results_to_excel self = Ok sheets /\
    last sheets = Some (summary_sheet r) /\
    map sheet_name sheets
      `sublist_of` ["res_bus"; "res_line"; "res_trafo"; "res_trafo3w";
                    "res_load"; "res_gen"; "res_sgen"; "res_ext_grid";
                    "res_shunt"; "Summary"] /\
    NoDup (map sheet_name sheets) /\
    (length sheets <= 10)%nat /\
    (forall s, In s sheets <->
               s = summary_sheet r \/
               exists name t, In (name, Some t) (result_tables r) /\
                              (0 < row_count t)%nat /\
                              s = table_sheet name t).
Proof.
  intros Hr Hc.
  exists (table_sheets (result_tables r) ++ [summary_sheet r])%list.
  split; [apply export_of_converged; assumption |].
  split; [apply last_snoc |].
  assert (Hsub : map sheet_name (table_sheets (result_tables r) ++ [summary_sheet r])
                   `sublist_of` ["res_bus"; "res_line"; "res_trafo"; "res_trafo3w";
                                 "res_load"; "res_gen"; "res_sgen"; "res_ext_grid";
                                 "res_shunt"; "Summary"]).
  { rewrite map_app.
    change ["res_bus"; "res_line"; "res_trafo"; "res_trafo3w"; "res_load";
            "res_gen"; "res_sgen"; "res_ext_grid"; "res_shunt"; "Summary"]
      with (map fst (result_tables r) ++ ["Summary"])%list.
    apply sublist_app; [apply table_sheets_names | reflexivity]. }
  split; [exact Hsub |].
  split.
  { eapply sublist_NoDup; [| exact Hsub].
    apply (bool_decide_unpack _). vm_compute. exact I. }
  split.
  { apply sublist_length in Hsub. rewrite length_map in Hsub. exact Hsub. }
  intros s. rewrite in_app_iff, table_sheets_In. cbn [In].
  split.
  - intros [H | [<- | []]]; [right; exact H | left; reflexivity].
  - intros [-> | H]; [right; left; reflexivity | left; exact H].
Qed.

Lemma export_workbook_shape_witness :
  exists r,
    _results solved_service = Some r /\
    converged r = true /\
    exists sheets,
      export_results_to_excel solved_service = Ok sheets /\
      last sheets = Some (summary_sheet r) /\
      map sheet_name sheets
        `sublist_of` ["res_bus"; "res_line"; "res_trafo"; "res_trafo3w";
                      "res_load"; "res_gen"; "res_sgen"; "res_ext_grid";
                      "res_shunt"; "Summary"] /\
      NoDup (map sheet_name sheets) /\
      (length sheets <= 10)%nat /\
      (forall s, In s sheets <->
                 s = summary_sheet r \/
                 exists name t, In (name, Some t) (result_tables r) /\
                                (0 < row_count t)%nat /\
                                s = table_sheet name t).
Proof.
  destruct (_results solved_service) as [r |] eqn:Hr;
    [| vm_compute in Hr; discriminate Hr].
  assert (Hc : converged r = true).
  { vm_compute in Hr. injection Hr as <-. reflexivity. }
  exists r. split; [reflexivity |]. split; [exact Hc |].
  exact (export_workbook_shape solved_service r Hr Hc).
Defined.

Lemma extracted_tables_rows (net : pandapowerNet) (x : PowerFlowResult) :
  _extract_results net = Ok x ->
  Forall (fun nt => forall t, snd nt = Some t ->
                              row_count t = length (data t) /\
                              (0 < row_count t)%nat)
         (result_tables x).
Proof.
  intros H. apply extract_results_fields in H.
  destruct H as (_ & _ & _ & _ & _ & _ & _ & _ & _ & _ & _ & _ & Htables & _).
  eapply Forall_impl; [exact Htables |].
  intros [name field] Hfield t Ht. cbn [fst snd] in *. subst field.
  pose proof (table_data_cases net (net_results net !! name) name) as Hshape.
  rewrite Ht in Hshape.
  destruct Hshape as (d & _ & Hempty & Hcount & Hrows & _).
  split; [exact Hcount |].
  rewrite Hrows. unfold df_empty in Hempty.
  apply orb_false_iff in Hempty. destruct Hempty as [Hlen _].
  apply Nat.eqb_neq in Hlen. lia.
Qed.

Lemma run_powerflow_try_converged (outcome : SolverOutcome) (algorithm : string)
    (resolved : Z) (init : string) (tolerance : float)
    (perf_counter : nat -> float) (r : PowerFlowResult) :
  run_powerflow_try outcome algorithm resolved init tolerance perf_counter = Ok r ->
  converged r = true ->
  exists net w x,
    outcome = Returned net w /\
    net_converged net = true /\
    _extract_results net = Ok x /\
    result_tables r = result_tables x /\
    max_loading_percent r = max_loading_percent x /\
    min_vm_pu r = min_vm_pu x /\
    max_vm_pu r = max_vm_pu x.
Proof.
  destruct outcome as [net w | net e]; cbn [run_powerflow_try]; [| discriminate].
  intros H Hc. apply bind_Ok in H. destruct H as (totals & _ & H).
  destruct (net_converged net) eqn:Hnc.
  - apply bind_Ok in H. destruct H as (x & Hx & H). injection H as <-.
    exists net, w, x. repeat split; assumption.
  - injection H as <-. discriminate Hc.
Qed.

(** X22: export after a run.  On the service a run leaves behind,
    [export_results_to_excel] succeeds exactly when the run returned a
    converged result, and otherwise raises the [ValueError] of the
    missing results.  In the workbook every sheet other than the Summary
    holds at least one row: a table that was extracted is never
    exported empty. *)
Theorem export_after_run
    (runpp : pandapowerNet -> string -> Z -> bool -> bool -> string -> float
             -> SolverOutcome)
    (self : PowerFlowService) (algorithm : string) (explicit : option Z)
    (enforce_q_lims calculate_voltage_angles : bool) (init : string)
    (tolerance : float) (perf_counter : nat -> float) :
  let ran := run_powerflow runpp self algorithm explicit enforce_q_lims
               calculate_voltage_angles init tolerance perf_counter in
  match export_results_to_excel (fst ran) with
  | Ok sheets =>
      converged (snd ran) = true /\
      Forall (fun s => sheet_name s = "Summary" \/
                       (0 < length (sheet_rows s))%nat)
             sheets
  | Raise e =>
      converged (snd ran) = false /\
      e = ValueError "No converged results available to export"
  end.
Proof.
  intros ran. subst ran. unfold run_powerflow. cbn [fst snd].
  set (outcome := runpp _ _ _ _ _ _ _).
  destruct (run_powerflow_try outcome algorithm _ init tolerance perf_counter)
    as [r | e] eqn:Htry.
  - unfold export_results_to_excel. cbn [_results].
    destruct (converged r) eqn:Hc; cbn [negb]; [| split; reflexivity].
    split; [reflexivity |].
    destruct (run_powerflow_try_converged _ _ _ _ _ _ r Htry Hc)
      as (net & w & x & _ & _ & Hx & Htables & _).
    apply List.Forall_forall. intros s Hs.
    apply in_app_iff in Hs. destruct Hs as [Hs | [<- | []]];
      [| left; reflexivity].
    right. apply table_sheets_In in Hs.
    destruct Hs as (name & t & Hin & Hpos & ->).
    rewrite Htables in Hin.
    pose proof (extracted_tables_rows net x Hx) as Hrows.
    rewrite List.Forall_forall in Hrows.
    destruct (Hrows (name, Some t) Hin t eq_refl) as [Hcount Hpos'].
    cbn [table_sheet sheet_rows]. rewrite length_map. lia.
  - unfold export_results_to_excel. cbn. split; reflexivity.
Qed.

Example export_after_failed_run :
  match export_results_to_excel
          (fst (run_powerflow runpp_raises sample_service "nr" None false true
                  "auto" (1 # 100000000)%Q sample_clock)) with
  | Ok _ => False
  | Raise e => e = ValueError "No converged results available to export"
  end.
Proof. reflexivity. Qed.

(** ** The endpoints *)

Section EndpointFacts.

Variable from_json from_excel from_pickle from_sqlite :
  files -> string -> result pyobject.

Variable runpp :
  pandapowerNet -> string -> Z -> bool -> bool -> string -> float -> SolverOutcome.






(** X24: what a run through the endpoint leaves behind.  For a session
    that [get_session] can read, the run endpoint answers 200 with the
    result of the run - converged, not converged or failed - whether or
    not the session could be written back: what [update_session]
    returns is not looked at.  When the write succeeds, the results
    endpoint from then on answers 200 with that same result, the
    session keeps its file name and format, and the download endpoint
    answers 200 exactly when the result is converged, and otherwise 404
    with the text of the missing converged results.  When the open is
    refused, the store is as it was before the run.  When the dump
    breaks off, the session is lost: it cannot be read any more, and
    the results endpoint answers 404 "Session not found". *)
Theorem results_after_run (io : session_write) (store : session_files)
    (session_id : string) (request : PowerFlowRequest)
    (perf_counter : nat -> float) (service : PowerFlowService) :
  get_session store session_id = Some service ->
  let ran := api.run_powerflow runpp io store session_id request
                               perf_counter in
  exists r,
    snd ran = Http200 r /\
    match io with
    | SessionWritten =>
        api.get_results (fst ran) session_id = Http200 r /\
        (exists service',
            get_session (fst ran) session_id = Some service' /\
            filename service' = filename service /\
            file_format service' = file_format service /\
            _results service' = Some r) /\
        match api.download_results (fst ran) session_id with
        | Http200 _ => converged r = true
        | HTTPException status_code detail =>
            converged r = false /\ status_code = 404 /\
            detail = "No converged results available to export"
        end
    | OpenRefused => fst ran = store
    | DumpBroken =>
        get_session (fst ran) session_id = None /\
        api.get_results (fst ran) session_id
        = HTTPException 404 "Session not found"
    end.
Proof.
  intros Hget ran. subst ran. unfold api.run_powerflow. rewrite Hget.
  cbn [fst snd].
  set (ran := run_powerflow runpp service _ _ _ _ _ _ perf_counter).
  assert (Hexists : path_exists (_get_session_path session_id) store = true).
  { unfold get_session in Hget.
    destruct (path_exists (_get_session_path session_id) store);
      [reflexivity | discriminate Hget]. }
  assert (Hres : _results (fst ran) = Some (snd ran)) by reflexivity.
  exists (snd ran). split; [reflexivity |].
  destruct io.
  - assert (Hnew : get_session
                     (fst (update_session SessionWritten store session_id
                                          (fst ran)))
                     session_id = Some (fst ran)).
    { apply get_after_update. unfold update_session. rewrite Hexists.
      reflexivity. }
    split.
    { unfold api.get_results. rewrite Hnew. unfold get_results. rewrite Hres.
      reflexivity. }
    split.
    { exists (fst ran). split; [exact Hnew |]. repeat split. }
    unfold api.download_results. rewrite Hnew.
    unfold export_results_to_excel. rewrite Hres.
    destruct (converged (snd ran)); cbn [negb]; [reflexivity |].
    cbn [str]. repeat split.
  - unfold update_session. rewrite Hexists. reflexivity.
  - assert (Hlost : get_session
                      (fst (update_session DumpBroken store session_id
                                           (fst ran)))
                      session_id = None).
    { unfold update_session. rewrite Hexists. cbn [negb fst].
      unfold get_session, path_exists, pickle_load, open_wb.
      rewrite lookup_insert_eq. reflexivity. }
    split; [exact Hlost |].
    unfold api.get_results. rewrite Hlost. reflexivity.
Qed.

(** X25: a session that [get_session] cannot read - no file, or an
    incomplete one - is answered 404 "Session not found" by the run,
    results and download endpoints, and the run endpoint then leaves
    the store as it is, whatever the solver would do. *)
Theorem unreadable_session_is_not_found (io : session_write)
    (store : session_files) (session_id : string) (request : PowerFlowRequest)
    (perf_counter : nat -> float) :
  get_session store session_id = None ->
  api.run_powerflow runpp io store session_id request perf_counter
  = (store, HTTPException 404 "Session not found") /\
  api.get_results store session_id = HTTPException 404 "Session not found" /\
  api.download_results store session_id
  = HTTPException 404 "Session not found".
Proof.
  intros Hget.
  unfold api.run_powerflow, api.get_results, api.download_results.
  rewrite Hget. repeat split.
Qed.

(** X26: for an identifier that names a file of its own, deleting a
    session through the endpoint answers 200 exactly when a file
    existed at the session's path and the unlink succeeded, and 404
    "Session not found" otherwise.  After a 200, and after a 404 for a
    path without a file, the run, results and download endpoints and a
    second delete all answer 404 "Session not found".  After an unlink
    that was refused the answer is 404 as well, though the store is as
    it was and the session is still there. *)
Theorem delete_endpoint_outcome (io : session_unlink) (store : session_files)
    (session_id : string) (request : PowerFlowRequest)
    (perf_counter : nat -> float) :
  names_session_file session_id = true ->
  let deleted := api.delete_session_endpoint io store session_id in
  let store' := fst deleted in
  (snd deleted = Http200 "Session deleted successfully" <->
   is_Some (store !! _get_session_path session_id) /\ io = Unlinked) /\
  (snd deleted = HTTPException 404 "Session not found" <->
   store !! _get_session_path session_id = None \/ io = UnlinkRefused) /\
  (snd deleted = Http200 "Session deleted successfully" \/
   store !! _get_session_path session_id = None ->
   (forall w,
       snd (api.run_powerflow runpp w store' session_id request perf_counter)
       = HTTPException 404 "Session not found") /\
   api.get_results store' session_id = HTTPException 404 "Session not found" /\
   api.download_results store' session_id
   = HTTPException 404 "Session not found" /\
   (forall u,
       snd (api.delete_session_endpoint u store' session_id)
       = HTTPException 404 "Session not found")) /\
  (io = UnlinkRefused -> store' = store).
Proof.
  intros _ deleted store'. subst store' deleted.
  assert (Hval : api.delete_session_endpoint io store session_id
                 = match store !! _get_session_path session_id, io with
                   | Some _, Unlinked =>
                       (delete (_get_session_path session_id) store,
                        Http200 "Session deleted successfully")
                   | _, _ => (store, HTTPException 404 "Session not found")
                   end).
  { unfold api.delete_session_endpoint, delete_session, path_exists.
    destruct (store !! _get_session_path session_id); destruct io;
      reflexivity. }
  rewrite Hval. clear Hval.
  assert (Hafter : forall store0 : session_files,
             store0 !! _get_session_path session_id = None ->
             (forall w,
                 snd (api.run_powerflow runpp w store0 session_id request
                                        perf_counter)
                 = HTTPException 404 "Session not found") /\
             api.get_results store0 session_id
             = HTTPException 404 "Session not found" /\
             api.download_results store0 session_id
             = HTTPException 404 "Session not found" /\
             (forall u,
                 snd (api.delete_session_endpoint u store0 session_id)
                 = HTTPException 404 "Session not found")).
  { intros store0 Hgone.
    pose proof (get_session_missing _ _ Hgone) as Hget.
    unfold api.run_powerflow, api.get_results, api.download_results.
    rewrite Hget. cbn [snd]. do 3 (split; [reflexivity |]).
    intros u. unfold api.delete_session_endpoint, delete_session, path_exists.
    rewrite Hgone. reflexivity. }
  destruct (store !! _get_session_path session_id) as [f |] eqn:Hf.
  - destruct io; cbn [fst snd].
    + split; [split; [intros _; split; [eexists |]; reflexivity | reflexivity] |].
      split; [split; [discriminate | intros [H | H]; discriminate H] |].
      split; [| discriminate].
      intros _. apply Hafter. apply lookup_delete_eq.
    + split; [split; [discriminate | intros [_ H]; discriminate H] |].
      split; [split; [intros _; right; reflexivity | reflexivity] |].
      split; [intros [H | H]; discriminate H | reflexivity].
  - cbn [fst snd].
    split; [split; [discriminate | intros [[x Hx] _]; discriminate Hx] |].
    split; [split; [intros _; left; reflexivity | reflexivity] |].
    split; [intros _; apply Hafter; exact Hf | reflexivity].
Qed.

End EndpointFacts.

Lemma results_after_run_witness :
  get_session sample_store sample_id = Some sample_service /\
  let ran := api.run_powerflow runpp_diverges SessionWritten sample_store
               sample_id sample_request sample_clock in
  exists r,
    snd ran = Http200 r /\
    match SessionWritten with
    | SessionWritten =>
        api.get_results (fst ran) sample_id = Http200 r /\
        (exists service',
            get_session (fst ran) sample_id = Some service' /\
            filename service' = filename sample_service /\
            file_format service' = file_format sample_service /\
            _results service' = Some r) /\
        match api.download_results (fst ran) sample_id with
        | Http200 _ => converged r = true
        | HTTPException status_code detail =>
            converged r = false /\ status_code = 404 /\
            detail = "No converged results available to export"
        end
    | OpenRefused => fst ran = sample_store
    | DumpBroken =>
        get_session (fst ran) sample_id = None /\
        api.get_results (fst ran) sample_id
        = HTTPException 404 "Session not found"
    end.
Proof.
  assert (H : get_session sample_store sample_id = Some sample_service)
    by apply get_after_create.
  split; [exact H |].
  exact (results_after_run runpp_diverges SessionWritten sample_store sample_id
           sample_request sample_clock sample_service H).
Defined.

Lemma unreadable_session_is_not_found_witness :
  get_session torn_store sample_id = None /\
  api.run_powerflow runpp_converges SessionWritten torn_store sample_id
                    sample_request sample_clock
  = (torn_store, HTTPException 404 "Session not found") /\
  api.get_results torn_store sample_id = HTTPException 404 "Session not found" /\
  api.download_results torn_store sample_id
  = HTTPException 404 "Session not found".
Proof.
  assert (H : get_session torn_store sample_id = None).
  { unfold get_session, path_exists, pickle_load, torn_store.
    rewrite lookup_insert_eq. reflexivity. }
  split; [exact H |].
  exact (unreadable_session_is_not_found runpp_converges SessionWritten
           torn_store sample_id sample_request sample_clock H).
Defined.

Lemma delete_endpoint_outcome_witness :
  names_session_file sample_id = true /\
  let deleted := api.delete_session_endpoint UnlinkRefused sample_store
                   sample_id in
  let store' := fst deleted in
  (snd deleted = Http200 "Session deleted successfully" <->
   is_Some (sample_store !! _get_session_path sample_id) /\
   UnlinkRefused = Unlinked) /\
  (snd deleted = HTTPException 404 "Session not found" <->
   sample_store !! _get_session_path sample_id = None \/
   UnlinkRefused = UnlinkRefused) /\
  (snd deleted = Http200 "Session deleted successfully" \/
   sample_store !! _get_session_path sample_id = None ->
   (forall w,
       snd (api.run_powerflow runpp_converges w store' sample_id sample_request
                              sample_clock)
       = HTTPException 404 "Session not found") /\
   api.get_results store' sample_id = HTTPException 404 "Session not found" /\
   api.download_results store' sample_id
   = HTTPException 404 "Session not found" /\
   (forall u,
       snd (api.delete_session_endpoint u store' sample_id)
       = HTTPException 404 "Session not found")) /\
  (UnlinkRefused = UnlinkRefused -> store' = sample_store).
Proof.
  assert (H : names_session_file sample_id = true) by (vm_compute; reflexivity).
  split; [exact H |].
  exact (delete_endpoint_outcome runpp_converges UnlinkRefused sample_store
           sample_id sample_request sample_clock H).
Defined.

(** ** The example catalogue *)

Lemma dict_update_lookup {A : Type} (l : list (string * A)) (m : gmap string A)
    (k : string) (v : A) :
  NoDup (map fst l) ->
  dict_update m l !! k = Some v <->
  In (k, v) l \/ (~ In k (map fst l) /\ m !! k = Some v).
Proof.
  unfold dict_update. revert m.
  induction l as [| [k0 v0] l IH]; intros m Hnd; cbn [fold_left map In fst snd].
  - split; [intros H; right; split; [intros [] | exact H] |].
    intros [[] | [_ H]]; exact H.
  - apply NoDup_cons in Hnd. destruct Hnd as [Hk0 Hnd].
    rewrite list_elem_of_In in Hk0.
    rewrite (IH _ Hnd).
    destruct (decide (k = k0)) as [-> | Hne].
    + rewrite lookup_insert_eq. split.
      * intros [Hin | [_ Heq]].
        -- exfalso. apply Hk0. apply in_map_iff. exists (k0, v). split;
             [reflexivity | exact Hin].
        -- injection Heq as ->. left. left. reflexivity.
      * intros [[Heq | Hin] | [Hnot _]].
        -- injection Heq as ->. right. split; [exact Hk0 | reflexivity].
        -- left. exact Hin.
        -- exfalso. apply Hnot. left. reflexivity.
    + rewrite lookup_insert_ne by congruence. split.
      * intros [Hin | [Hnot Hm]]; [left; right; exact Hin |].
        right. split; [| exact Hm]. intros [Heq | Hin]; [congruence | tauto].
      * intros [[Heq | Hin] | [Hnot Hm]].
        -- injection Heq as -> _. congruence.
        -- left. exact Hin.
        -- right. split; [tauto | exact Hm].
Qed.

Lemma dict_update_app {A : Type} (m : gmap string A) (l1 l2 : list (string * A)) :
  dict_update (dict_update m l1) l2 = dict_update m (l1 ++ l2).
Proof. unfold dict_update. rewrite fold_left_app. reflexivity. Qed.

Lemma all_networks_flat :
  _ALL_NETWORKS = dict_update ∅ catalogue_entries.
Proof.
  unfold _ALL_NETWORKS, catalogue_entries.
  generalize (∅ : gmap string ExampleNetwork).
  induction NETWORK_CATEGORIES as [| cat cats IH]; intros m; cbn.
  - reflexivity.
  - rewrite IH, dict_update_app. reflexivity.
Qed.

Lemma catalogue_names_unique : NoDup (map fst catalogue_entries).
Proof. apply (bool_decide_unpack _). vm_compute. exact I. Qed.

Lemma catalogue_loaders : Forall (fun entry => loader (snd entry) = fst entry)
                                 catalogue_entries.
Proof. repeat constructor. Qed.

Lemma listed_names_are_catalogue_names :
  listed_case_names = map fst catalogue_entries.
Proof. vm_compute. reflexivity. Qed.

Lemma all_networks_lookup (case_name : string) (info : ExampleNetwork) :
  _ALL_NETWORKS !! case_name = Some info <-> In (case_name, info) catalogue_entries.
Proof.
  rewrite all_networks_flat.
  rewrite (dict_update_lookup _ _ _ _ catalogue_names_unique).
  rewrite lookup_empty. split; [| intros H; left; exact H].
  intros [H | [_ H]]; [exact H | discriminate H].
Qed.

Lemma catalogue_entry_loader (case_name : string) (info : ExampleNetwork) :
  In (case_name, info) catalogue_entries -> loader info = case_name.
Proof.
  intros Hin.
  exact (proj1 (List.Forall_forall _ _) catalogue_loaders _ Hin).
Qed.

Lemma all_networks_listed (case_name : string) :
  In case_name listed_case_names <->
  exists info, _ALL_NETWORKS !! case_name = Some info.
Proof.
  rewrite listed_names_are_catalogue_names. split.
  - intros Hin. apply in_map_iff in Hin. destruct Hin as [[k info] [Hk Hin]].
    cbn in Hk. subst k. exists info. apply all_networks_lookup. exact Hin.
  - intros [info Hinfo]. apply all_networks_lookup in Hinfo.
    apply in_map_iff. exists (case_name, info). split; [reflexivity | exact Hinfo].
Qed.

Section ExampleFacts.

Variable pn : string -> result pandapowerNet.
Variable to_excel : pandapowerNet -> result (list Byte.byte).

(** X28: the listing and the download agree.  No case name is listed
    twice.  For a listed name [export_example_to_excel] calls the
    builder of that very name and then the spreadsheet writer, and
    raises only what they raise; for any other name it raises the
    [ValueError] that names it, whatever the builders would do, and the
    endpoint answers 404 with that message. *)
Theorem example_download_matches_listing (case_name : string) :
  NoDup listed_case_names /\
  (In case_name listed_case_names ->
   export_example_to_excel pn to_excel case_name
   = (net ← pn case_name; to_excel net)) /\
  (~ In case_name listed_case_names ->
   export_example_to_excel pn to_excel case_name
   = Raise (ValueError ("Unknown example network: " ++ case_name)) /\
   download_example pn to_excel case_name
   = Ok (HTTPException 404 ("Unknown example network: " ++ case_name))).
Proof.
  split; [| split].
  - rewrite listed_names_are_catalogue_names.
    exact catalogue_names_unique.
  - intros Hin. apply all_networks_listed in Hin. destruct Hin as [info Hinfo].
    unfold export_example_to_excel. rewrite Hinfo.
    apply all_networks_lookup in Hinfo.
    rewrite (catalogue_entry_loader _ _ Hinfo). reflexivity.
  - intros Hnot.
    assert (Hnone : _ALL_NETWORKS !! case_name = None).
    { destruct (_ALL_NETWORKS !! case_name) as [info |] eqn:Hinfo;
        [| reflexivity].
      exfalso. apply Hnot. apply all_networks_listed. exists info. exact Hinfo. }
    unfold download_example, export_example_to_excel. rewrite Hnone.
    split; reflexivity.
Qed.

End ExampleFacts.

(** X29: the listing relies on the order of the catalogue instead of
    sorting.  In every category of [get_cached_example_list] the
    networks come in ascending order of their bus counts. *)
Theorem listing_ordered_by_bus_count :
  Forall (fun cat =>
            Sorted Z.le (map listed_bus_count (listed_networks (snd cat))))
         get_cached_example_list.
Proof.
  cbv -[Z.le].
  repeat (apply List.Forall_cons;
          [repeat first [apply Sorted_cons | apply Sorted_nil
                        | apply HdRel_cons | apply HdRel_nil]; lia |]).
  apply List.Forall_nil.
Qed.

(** ** The network summary *)

(** X27: [get_network_summary] reads six element tables without a guard
    and four behind one.  It raises the [AttributeError] of the first
    of bus, line, trafo, load, gen, ext_grid the network lacks; when
    none is missing it returns a summary, and each of the ten counts is
    the number of rows of its table, or zero for a guarded table the
    network does not have. *)
Theorem network_summary_outcome (service : PowerFlowService) :
  let net := network service in
  match first_missing_element net required_element_tables with
  | Some name => get_network_summary service = Raise (AttributeError name)
  | None =>
      exists summary,
        get_network_summary service = Ok summary /\
        forall name count,
          In (name, count)
             [("bus", n_bus summary); ("line", n_line summary);
              ("trafo", n_trafo summary); ("trafo3w", n_trafo3w summary);
              ("load", n_load summary); ("gen", n_gen summary);
              ("sgen", n_sgen summary); ("ext_grid", n_ext_grid summary);
              ("shunt", n_shunt summary); ("switch", n_switch summary)] ->
          count = len_if_present net name
  end.
Proof.
  intros net. unfold get_network_summary, getattr_element, len_if_present.
  fold net. cbn [first_missing_element required_element_tables].
  destruct (net_elements net !! "bus") as [bus |] eqn:Hbus; [| reflexivity].
  destruct (net_elements net !! "line") as [line |] eqn:Hline; [| reflexivity].
  destruct (net_elements net !! "trafo") as [trafo |] eqn:Htrafo;
    [| reflexivity].
  destruct (net_elements net !! "load") as [load |] eqn:Hload; [| reflexivity].
  destruct (net_elements net !! "gen") as [gen |] eqn:Hgen; [| reflexivity].
  destruct (net_elements net !! "ext_grid") as [ext_grid |] eqn:Hext;
    [| reflexivity].
  eexists. split; [reflexivity |].
  intros name count Hin. cbn in Hin.
  repeat (destruct Hin as [Heq | Hin];
          [injection Heq as <- <-;
           rewrite ?Hbus, ?Hline, ?Htrafo, ?Hload, ?Hgen, ?Hext; reflexivity |]).
  destruct Hin.
Qed.

(** ** The logging middleware *)

Lemma split_slash_nonempty (s : string) : split_slash s <> [].
Proof.
  induction s as [| c s IH]; cbn; [discriminate |].
  destruct (is_slash c); [discriminate |].
  destruct (split_slash s); discriminate.
Qed.

Lemma split_slash_no_slash (s : string) :
  no_slash s = true -> split_slash s = [s].
Proof.
  unfold no_slash. induction s as [| c s IH]; cbn; [reflexivity |].
  intros H. apply negb_true_iff in H. apply orb_false_iff in H.
  destruct H as [Hc Hs]. rewrite Hc.
  rewrite IH by (apply negb_true_iff; exact Hs). reflexivity.
Qed.

Lemma split_slash_app (a b : string) :
  split_slash (a ++ String "/" b) = (split_slash a ++ split_slash b)%list.
Proof.
  induction a as [| c a IH]; [reflexivity |].
  change (split_slash (String c a ++ String "/" b))
    with (if is_slash c then EmptyString :: split_slash (a ++ String "/" b)
          else match split_slash (a ++ String "/" b) with
               | part :: parts => String c part :: parts
               | [] => [String c EmptyString]
               end).
  change (split_slash (String c a))
    with (if is_slash c then EmptyString :: split_slash a
          else match split_slash a with
               | part :: parts => String c part :: parts
               | [] => [String c EmptyString]
               end).
  rewrite IH.
  destruct (is_slash c); [reflexivity |].
  pose proof (split_slash_nonempty a) as Hne.
  destruct (split_slash a) as [| part parts]; [congruence | reflexivity].
Qed.

Lemma route_path_parts (route session_id : string) :
  no_slash route = true -> no_slash session_id = true ->
  split_slash (route_path route session_id)
  = [""; "api"; "v1"; "powerflow"; route; session_id].
Proof.
  intros Hroute Hid.
  change (route_path route session_id)
    with ("/api/v1/powerflow" ++ String "/" (route ++ String "/" session_id)).
  rewrite !split_slash_app.
  rewrite (split_slash_no_slash route Hroute).
  rewrite (split_slash_no_slash session_id Hid).
  reflexivity.
Qed.

Lemma prefix_append (sub b : string) : String.prefix sub (sub ++ b) = true.
Proof.
  apply String.prefix_correct.
  induction sub as [| c sub IH]; [destruct b; reflexivity |].
  change (String c sub ++ b) with (String c (sub ++ b)).
  cbn [String.length substring]. f_equal. exact IH.
Qed.

Lemma contains_unfold (sub s : string) :
  contains sub s
  = String.prefix sub s
    || match s with
       | EmptyString => false
       | String _ s' => contains sub s'
       end.
Proof. destruct s; reflexivity. Qed.

Lemma contains_app (a sub b : string) : contains sub (a ++ sub ++ b) = true.
Proof.
  induction a as [| c a IH].
  - change (EmptyString ++ sub ++ b) with (sub ++ b).
    rewrite contains_unfold, prefix_append. reflexivity.
  - change (String c a ++ sub ++ b) with (String c (a ++ sub ++ b)).
    rewrite contains_unfold, IH. apply orb_true_r.
Qed.

Lemma session_id_of_route_path (route session_id : string) :
  no_slash route = true -> no_slash session_id = true -> session_id <> "" ->
  session_id_of_path (route_path route session_id)
  = if str_in route ["run"; "results"; "download"] then Some session_id
    else None.
Proof.
  intros Hroute Hid Hne.
  unfold session_id_of_path. rewrite (route_path_parts _ _ Hroute Hid).
  assert (Hscan : scan_parts [""; "api"; "v1"; "powerflow"; route; session_id]
                  = if str_in route ["run"; "results"; "download"]
                    then Some session_id else None).
  { assert (Heq : String.eqb session_id "" = false)
      by (apply String.eqb_neq; exact Hne).
    cbn. rewrite Heq. reflexivity. }
  rewrite Hscan.
  destruct (str_in route ["run"; "results"; "download"]) eqn:Hin.
  - assert (Hcases : route = "run" \/ route = "results" \/ route = "download").
    { apply str_in_In in Hin. cbn in Hin. intuition congruence. }
    destruct Hcases as [-> | [-> | ->]].
    + rewrite (contains_app "/api/v1/powerflow" "/run/" session_id
               : contains "/run/" (route_path "run" session_id) = true).
      reflexivity.
    + rewrite (contains_app "/api/v1/powerflow" "/results/" session_id
               : contains "/results/" (route_path "results" session_id) = true).
      rewrite orb_true_r. reflexivity.
    + rewrite (contains_app "/api/v1/powerflow" "/download/" session_id
               : contains "/download/" (route_path "download" session_id)
                 = true).
      rewrite orb_true_r. reflexivity.
  - destruct (_ || _); reflexivity.
Qed.

(** X30: what [dispatch] does around a request to a session route
    [/api/v1/powerflow/<route>/<id>].  The request identifier is the
    [X-Request-ID] header when that is not empty and the drawn one
    otherwise.  The rest of the application runs with that request
    identifier in the context and, exactly on the run, results and
    download routes, with the session identifier of the path; on any
    other route the session context is left as it was.  A response
    comes back with the same status and headers plus [X-Request-ID]; an
    exception is re-raised as it is; either way the context is afterwards
    what it was before. *)
Theorem dispatch_on_session_route (uuid4 : string) (ctx : LogContext)
    (header : option string) (route session_id : string)
    (call_next : LogContext -> result Response) :
  no_slash route = true -> no_slash session_id = true -> session_id <> "" ->
  let out := dispatch uuid4 ctx header (route_path route session_id) call_next in
  exists request_id,
    (forall h, header = Some h -> h <> "" -> request_id = h) /\
    (header = None \/ header = Some "" -> request_id = uuid4) /\
    fst out = ctx /\
    match call_next
            {| request_id_ctx := Some request_id;
               session_id_ctx :=
                 if str_in route ["run"; "results"; "download"]
                 then Some session_id else session_id_ctx ctx |} with
    | Ok response =>
        exists answer,
          snd out = Ok answer /\
          status_code_of answer = status_code_of response /\
          headers answer !! "X-Request-ID" = Some request_id /\
          forall k, k <> "X-Request-ID" ->
                    headers answer !! k = headers response !! k
    | Raise e => snd out = Raise e
    end.
Proof.
  intros Hroute Hid Hne out. subst out. unfold dispatch.
  rewrite (session_id_of_route_path _ _ Hroute Hid Hne).
  set (request_id := match header with
                     | Some h => if String.eqb h "" then uuid4 else h
                     | None => uuid4
                     end).
  exists request_id. split; [| split; [| split]].
  - intros h -> Hh. subst request_id.
    destruct (String.eqb h "") eqn:Heq; [| reflexivity].
    apply String.eqb_eq in Heq. congruence.
  - intros [-> | ->]; reflexivity.
  - destruct ctx; reflexivity.
  - cbn [snd].
    replace (match (if str_in route ["run"; "results"; "download"]
                    then Some session_id else None) with
             | Some sid => Some sid
             | None => session_id_ctx ctx
             end)
      with (if str_in route ["run"; "results"; "download"]
            then Some session_id else session_id_ctx ctx)
      by (destruct (str_in route ["run"; "results"; "download"]); reflexivity).
    destruct (call_next _) as [response | e]; [| reflexivity].
    eexists. split; [reflexivity |]. cbn [status_code_of headers].
    split; [reflexivity |]. split; [apply lookup_insert_eq |].
    intros k Hk. apply lookup_insert_ne. congruence.
Qed.

Lemma dispatch_on_session_route_witness :
  no_slash "run" = true /\ no_slash sample_id = true /\ sample_id <> "" /\
  let out := dispatch other_id idle_context (Some "req-1")
               (route_path "run" sample_id) handler_ok in
  exists request_id,
    (forall h, Some "req-1" = Some h -> h <> "" -> request_id = h) /\
    (Some "req-1" = None \/ Some "req-1" = Some "" -> request_id = other_id) /\
    fst out = idle_context /\
    match handler_ok
            {| request_id_ctx := Some request_id;
               session_id_ctx :=
                 if str_in "run" ["run"; "results"; "download"]
                 then Some sample_id else session_id_ctx idle_context |} with
    | Ok response =>
        exists answer,
          snd out = Ok answer /\
          status_code_of answer = status_code_of response /\
          headers answer !! "X-Request-ID" = Some request_id /\
          forall k, k <> "X-Request-ID" ->
                    headers answer !! k = headers response !! k
    | Raise e => snd out = Raise e
    end.
Proof.
  assert (H1 : no_slash "run" = true) by (vm_compute; reflexivity).
  assert (H2 : no_slash sample_id = true) by (vm_compute; reflexivity).
  assert (H3 : sample_id <> "") by discriminate.
  repeat (split; [assumption |]).
  exact (dispatch_on_session_route other_id idle_context (Some "req-1")
           "run" sample_id handler_ok H1 H2 H3).
Defined.
